(** * Catalog and tenant resolution of the Atlas service broker

  A shallow embedding of [pkg/broker/services.go] and
  [pkg/broker/broker.go], with the properties the specification states
  about identifier synthesis, catalog construction and tenant resolution.

  Go strings are byte sequences; they are modelled as [string] (a list of
  8-bit [ascii]).  Go maps are [gmap]s, Go slices are lists. *)

From Stdlib Require Import Ascii String.
From stdpp Require Import base option list strings gmap fin_maps.

(** ** Bytes and strings *)

Module Str.

Definition in_range (lo hi : nat) (c : ascii) : bool :=
  (lo <=? nat_of_ascii c)%nat && (nat_of_ascii c <=? hi)%nat.

Definition is_upper (c : ascii) : bool := in_range 65 90 c.
Definition is_lower (c : ascii) : bool := in_range 97 122 c.
Definition is_digit (c : ascii) : bool := in_range 48 57 c.
Definition is_hyphen (c : ascii) : bool := Ascii.eqb c "-".
Definition is_underscore (c : ascii) : bool := Ascii.eqb c "_".

Definition lower_char (c : ascii) : ascii :=
  if is_upper c then ascii_of_nat (nat_of_ascii c + 32) else c.

(** [strings.ToLower] on strings of ASCII bytes, where it lower-cases the
    letters A to Z and keeps every other byte.  On other strings Go also
    folds the letters outside ASCII through the Unicode tables and rewrites
    every invalid byte, which this model does not carry: bytes from 128 up
    are left as they are.  The function is therefore [strings.ToLower] on
    the [ascii_only] strings below and on no others, and every statement
    that depends on the value of a lower-cased name is made for such names.
    [normalizeID] applies it to ASCII bytes only. *)
Fixpoint ToLower (s : string) : string :=
  match s with
  | EmptyString => EmptyString
  | String c s' => String (lower_char c) (ToLower s')
  end.

Fixpoint all_chars (P : ascii -> bool) (s : string) : bool :=
  match s with
  | EmptyString => true
  | String c s' => P c && all_chars P s'
  end.

Definition hyphen_free (s : string) : bool :=
  all_chars (fun c => negb (is_hyphen c)) s.

(** Strings of ASCII bytes. *)
Definition ascii_only (s : string) : bool :=
  all_chars (fun c => (nat_of_ascii c <? 128)%nat) s.

End Str.

Import Str.

(** ** Identifiers ([services.go]) *)

Definition idPrefix : string := "aosb-cluster".

(** [forbiddenSymbols] matches the bytes that are not in [-a-zA-Z0-9];
    [in_class c] says that [c] is one of [-a-zA-Z0-9], hence kept. *)
Definition in_class (c : ascii) : bool :=
  is_hyphen c || is_lower c || is_upper c || is_digit c.

(** [forbiddenSymbols.ReplaceAllString(s, "_")] for the pattern
    ["[^-a-zA-Z0-9]+"]: every maximal run of bytes outside the class becomes
    one underscore.  [inRun] records that the byte before was part of the
    run being replaced.  A byte from 128 up is never in the class, and every
    byte of a multi-byte or invalid rune is such a byte, so runs of runes and
    runs of bytes coincide. *)
Fixpoint replaceRuns (inRun : bool) (s : string) : string :=
  match s with
  | EmptyString => EmptyString
  | String c s' =>
    if in_class c then String c (replaceRuns false s')
    else if inRun then replaceRuns true s'
    else String "_" (replaceRuns true s')
  end.

Definition forbiddenSymbols_ReplaceAllString (s : string) : string :=
  replaceRuns false s.

Definition normalizeID (id : string) : string :=
  ToLower (forbiddenSymbols_ReplaceAllString id).

(** [atlas.InstanceSize]: only its name is read by the broker. *)
Record InstanceSize := { isName : string }.

Definition serviceIDForProvider (providerName : string) : string :=
  idPrefix +:+ "-service-" +:+ ToLower providerName.

Definition planIDForInstanceSize
  (providerName : string) (instanceSize : InstanceSize) (groupID : string)
  : string :=
  let result :=
    idPrefix +:+ "-plan-" +:+ ToLower providerName +:+ "-"
             +:+ ToLower (isName instanceSize) in
  if decide (groupID = EmptyString) then result
  else result +:+ "-" +:+ groupID.

Definition planIDForDynamicPlan (providerName planName : string) : string :=
  idPrefix +:+ "-plan-" +:+ ToLower providerName +:+ "-" +:+ ToLower planName.

(** ** Data model *)

(** Modelled from the spec: the type [Mode] is declared in a file that is
    not at hand.  It is a closed enumeration of exactly four variants, so
    that the [default] branches of the two switches on the mode, which
    panic, are never taken. *)
Inductive Mode := BasicAuth | MultiGroup | MultiGroupAutoPlans | DynamicPlans.

(** [credentials.Key] and [credentials.Credentials], with the fields the
    broker reads. *)
Record Key := { PublicKey : string; PrivateKey : string; Desc : string }.

Record Credentials := { Projects : gmap string Key }.

(** [atlas.Provider]. *)
Record Provider := {
  provName : string;
  InstanceSizes : gmap string InstanceSize
}.

(** [mongodbatlas.ProviderSettings], [mongodbatlas.Cluster] and
    [mongodbatlas.Project], and the decoded [dynamicplans.Plan].  Pointer
    fields are options. *)
Record ProviderSettings := {
  ProviderName : string;
  InstanceSizeName : string
}.

Record Cluster := { clProviderSettings : option ProviderSettings }.

Record Project := { projID : string }.

Record Plan := {
  planName : string;
  planDescription : string;
  planFree : option bool;
  planProject : option Project;
  planCluster : option Cluster
}.

(** [dynamicplans.Context], the value templates are rendered against and
    request parameters are decoded into. *)
Record Context := {
  ctxProject : Project;
  ctxCluster : Cluster;
  ctxCredentials : option Credentials
}.

(** Errors.  [ErrNoDocuments] is [mongo.ErrNoDocuments]; [ErrExternal]
    stands for any other error value produced by a collaborator (backend
    client, JSON, YAML, template engine); the others are the errors the
    broker builds itself, with the value their message quotes:
    - [ErrPlanNotFound]: plan ID %q not found in catalog;
    - [ErrNoValidTemplate]: plan ID %q does not contain a valid plan template;
    - [ErrMetadataWrongType]: instance metadata has the wrong type %T;
    - [ErrGroupIDNotFound]: groupID not found in instance metadata for %q;
    - [ErrGroupIDWrongType]: groupID from instance metadata has the wrong
      type %T;
    - [ErrProjectIDNotFound]: project ID not found in rawParameters;
    - [ErrMissingProject]: missing Project in plan definition;
    - [ErrCredentialsNotFound]: credentials for project ID %q not found. *)
Inductive Error :=
| ErrNoDocuments
| ErrExternal (msg : string)
| ErrPlanNotFound (planID : string)
| ErrNoValidTemplate
| ErrMetadataWrongType (typeName : string)
| ErrGroupIDNotFound (instanceID : string)
| ErrGroupIDWrongType (typeName : string)
| ErrProjectIDNotFound
| ErrMissingProject
| ErrCredentialsNotFound (gid : string).

#[global] Instance Error_eq_dec : EqDecision Error.
Proof. solve_decision. Defined.

(** What a Go call returning [(T, error)] gives. *)
Inductive Fallible (A : Type) :=
| Success (a : A)
| Failure (e : Error).
Arguments Success {A} a.
Arguments Failure {A} e.

(** A named template: [Name()] and [Execute(raw, ctx)], the latter giving
    the rendered text or an error. *)
Record Template := {
  tplName : string;
  tplExecute : Context -> Fallible string
}.

(** [domain.ServicePlanMetadata.AdditionalMetadata]: the three keys the
    broker stores, each absent or present. *)
Record AdditionalMetadata := {
  mdInstanceSize : option InstanceSize;
  mdGroupID : option string;
  mdTemplate : option Template
}.

(** [domain.ServicePlan] and [domain.Service], with the fields the broker
    sets; the [Metadata] of a service is nil throughout and left out. *)
Record ServicePlan := {
  spID : string;
  spName : string;
  spDescription : string;
  spFree : option bool;
  spMetadata : option AdditionalMetadata
}.

Record Service := {
  svcID : string;
  svcName : string;
  svcDescription : string;
  svcBindable : bool;
  svcInstancesRetrievable : bool;
  svcBindingsRetrievable : bool;
  svcPlanUpdatable : bool;
  svcPlans : list ServicePlan
}.

Definition withPlans (svc : Service) (plans : list ServicePlan) : Service :=
  {| svcID := svcID svc; svcName := svcName svc;
     svcDescription := svcDescription svc; svcBindable := svcBindable svc;
     svcInstancesRetrievable := svcInstancesRetrievable svc;
     svcBindingsRetrievable := svcBindingsRetrievable svc;
     svcPlanUpdatable := svcPlanUpdatable svc; svcPlans := plans |}.

(** Modelled from the spec: the [catalog] type and [newCatalog] are declared
    in a file that is not at hand.  The catalog is the ordered list of
    services, a lookup from plan identifier to plan and a lookup from service
    identifier to the originating provider. *)
Record catalog := {
  services : list Service;
  plans : gmap string ServicePlan;
  providers : gmap string Provider
}.

Definition newCatalog : catalog :=
  {| services := []; plans := ∅; providers := ∅ |}.

(** Modelled from the spec: [applyWhitelist] is declared with the catalog.
    It keeps the plans whose name appears in the whitelisted set, in their
    order. *)
Definition applyWhitelist
  (plans : list ServicePlan) (whitelistedPlans : list string)
  : list ServicePlan :=
  filter (fun p => spName p ∈ whitelistedPlans) plans.

(** [Whitelist] is a Go map from provider name to plan names; [None] is the
    nil map. *)
Record Broker := {
  whitelist : option (gmap string (list string));
  credentials : option Credentials;
  baseURL : string;
  mode : Mode;
  bcatalog : option catalog
}.

Definition setCatalog (b : Broker) (c : option catalog) : Broker :=
  {| whitelist := whitelist b; credentials := credentials b;
     baseURL := baseURL b; mode := mode b; bcatalog := c |}.

(** Persisted instance metadata: [i.Parameters] is an [interface{}] that
    holds a [primitive.D] (an ordered document) or something else, of which
    only the type name is kept; a value of the document is a string or
    something else. *)
Inductive Value :=
| VString (s : string)
| VOther (typeName : string).

Inductive InstanceParameters :=
| ParamsD (doc : list (string * Value))
| ParamsOther (typeName : string).

Record Instance := { Parameters : InstanceParameters }.

(** [primitive.D.Map()]: the elements are stored in order, so that the last
    one of a repeated key stays. *)
Definition D_Map (doc : list (string * Value)) : gmap string Value :=
  foldl (fun m kv => <[kv.1 := kv.2]> m) ∅ doc.

(** ** Effects: the log, the backend calls and the broker's own state *)

Inductive Level := InfoLevel | ErrorLevel | FatalLevel.

Inductive LogArg :=
| LString (s : string)
| LError (e : Error)
| LProjects (ps : gmap string Key).

Record LogEntry := {
  logLevel : Level;
  logMsg : string;
  logArgs : list LogArg
}.

(** The broker is a Go pointer receiver: its methods run on a state made of
    the [Broker] value, the log written so far and the provider names the
    backend was asked for so far (with the base URL of the client used). *)
Record State := {
  broker : Broker;
  log : list LogEntry;
  backendCalls : list (string * string)
}.

(** How a call ends: with a value, with a returned error, with a panic, or
    with the process exiting ([Fatalw]). *)
Inductive Outcome (A : Type) :=
| Ok (a : A)
| Err (e : Error)
| Panic (msg : string)
| Exit.
Arguments Ok {A} a.
Arguments Err {A} e.
Arguments Panic {A} msg.
Arguments Exit {A}.

Definition M (A : Type) : Type := State -> State * Outcome A.

Definition ret {A} (a : A) : M A := fun s => (s, Ok a).

Definition bind {A B} (m : M A) (k : A -> M B) : M B :=
  fun s =>
    match m s with
    | (s', Ok a) => k a s'
    | (s', Err e) => (s', Err e)
    | (s', Panic msg) => (s', Panic msg)
    | (s', Exit) => (s', Exit)
    end.

Declare Scope go_scope.
Delimit Scope go_scope with go.
Notation "x <- m ;; k" := (bind m (fun x => k))
  (at level 100, m at next level, right associativity) : go_scope.
Notation "m ;; k" := (bind m (fun _ => k))
  (at level 100, right associativity) : go_scope.
Local Open Scope go_scope.

Definition raise {A} (e : Error) : M A := fun s => (s, Err e).
Definition panic {A} (msg : string) : M A := fun s => (s, Panic msg).
Definition exit {A} : M A := fun s => (s, Exit).

Definition nilDeref : string := "invalid memory address or nil pointer dereference".

Definition getBroker : M Broker := fun s => (s, Ok (broker s)).

Definition putBroker (b : Broker) : M unit :=
  fun s => ({| broker := b; log := log s; backendCalls := backendCalls s |}, Ok tt).

Definition writeLog (lvl : Level) (msg : string) (args : list LogArg) : M unit :=
  fun s =>
    ({| broker := broker s;
        log := log s ++ [{| logLevel := lvl; logMsg := msg; logArgs := args |}];
        backendCalls := backendCalls s |}, Ok tt).

Definition recordCall (base name : string) : M unit :=
  fun s =>
    ({| broker := broker s; log := log s;
        backendCalls := backendCalls s ++ [(base, name)] |}, Ok tt).

Definition liftF {A} (r : Fallible A) : M A :=
  match r with
  | Success a => ret a
  | Failure e => raise e
  end.

(** [b.catalog] is a pointer: reading or writing through it panics while it
    is nil. *)
Definition getCatalog : M catalog :=
  b <- getBroker ;;
  match bcatalog b with
  | Some c => ret c
  | None => panic nilDeref
  end.

Definition modifyCatalog (f : catalog -> catalog) : M unit :=
  c <- getCatalog ;;
  b <- getBroker ;;
  putBroker (setCatalog b (Some (f c))).

Fixpoint forM_ {A} (l : list A) (f : A -> M unit) : M unit :=
  match l with
  | [] => ret tt
  | x :: l' => f x ;; forM_ l' f
  end.

(** ** The catalog builder ([services.go]) *)

Definition dquote : string := String (ascii_of_nat 34) EmptyString.

Definition backslash : string := String (ascii_of_nat 92) EmptyString.

Definition hexDigit (n : nat) : ascii :=
  nth n (list_ascii_of_string "0123456789abcdef") "0"%char.

(** What [strconv.Quote] writes for one ASCII byte: the quote and the
    backslash are escaped, a control character is written as its escape
    sequence, every other byte is kept. *)
Definition quoteByte (c : ascii) : string :=
  let n := nat_of_ascii c in
  if (n =? 34)%nat then backslash +:+ dquote
  else if (n =? 92)%nat then backslash +:+ backslash
  else if (n =? 7)%nat then backslash +:+ "a"
  else if (n =? 8)%nat then backslash +:+ "b"
  else if (n =? 12)%nat then backslash +:+ "f"
  else if (n =? 10)%nat then backslash +:+ "n"
  else if (n =? 13)%nat then backslash +:+ "r"
  else if (n =? 9)%nat then backslash +:+ "t"
  else if (n =? 11)%nat then backslash +:+ "v"
  else if (n <? 32)%nat || (n =? 127)%nat
  then backslash +:+ "x" +:+
       String (hexDigit (n / 16)) (String (hexDigit (n mod 16)) EmptyString)
  else String c EmptyString.

Fixpoint quoteBytes (s : string) : string :=
  match s with
  | EmptyString => EmptyString
  | String c s' => quoteByte c +:+ quoteBytes s'
  end.

(** The verb [%q] on a string of ASCII bytes.  Bytes from 128 up are kept,
    which is what [%q] does for the printable runes they encode; it escapes
    the other runes and the invalid bytes, which this model does not tell
    apart.  No statement below depends on the description of a plan whose
    name has such bytes. *)
Definition quoted (s : string) : string := dquote +:+ quoteBytes s +:+ dquote.

Definition providerNames : list string := ["AWS"; "GCP"; "AZURE"; "TENANT"].

Definition sharedService : Service :=
  {| svcID := "aosb-cluster-service-tenant";
     svcName := "mongodb-atlas-tenant";
     svcDescription := "Atlas cluster hosted on " +:+ quoted "TENANT";
     svcBindable := true;
     svcInstancesRetrievable := false;
     svcBindingsRetrievable := false;
     svcPlanUpdatable := true;
     svcPlans :=
       [ {| spID := "aosb-cluster-plan-tenant-m2"; spName := "M2";
            spDescription := "Instance size " +:+ quoted "M2";
            spFree := None; spMetadata := None |};
         {| spID := "aosb-cluster-plan-tenant-m5"; spName := "M5";
            spDescription := "Instance size " +:+ quoted "M5";
            spFree := None; spMetadata := None |} ] |}.

(** The [range] loop over [provider.InstanceSizes].  The order in which Go
    walks a map is not fixed and changes from one run to the next;
    [map_to_list] is one such order.  The statements about the plans of this
    strategy and of the auto strategy below are therefore about the plans as
    a collection: their number, their members, and whether their identifiers
    are pairwise distinct, never about the place of a plan in the list. *)
Definition buildPlansForProviderStatic (provider : Provider) : list ServicePlan :=
  (fun instanceSize : InstanceSize =>
     {| spID := planIDForInstanceSize (provName provider) instanceSize EmptyString;
        spName := isName instanceSize;
        spDescription := "Instance size " +:+ quoted (isName instanceSize);
        spFree := None;
        spMetadata := Some {| mdInstanceSize := Some instanceSize;
                              mdGroupID := None; mdTemplate := None |} |})
  <$> (snd <$> map_to_list (InstanceSizes provider)).

Definition autoPlan (provider : Provider) (instanceSize : InstanceSize)
  (groupID : string) (key : Key) : ServicePlan :=
  let id := if decide (Desc key = EmptyString) then groupID
            else normalizeID (Desc key) in
  {| spID := planIDForInstanceSize (provName provider) instanceSize groupID;
     spName := isName instanceSize +:+ "-" +:+ id;
     spDescription := "Instance size " +:+ quoted (isName instanceSize);
     spFree := None;
     spMetadata := Some {| mdInstanceSize := Some instanceSize;
                           mdGroupID := Some groupID; mdTemplate := None |} |}.

(** The two nested [range] loops; a nil [b.credentials] makes the inner one
    panic.  As above, [map_to_list] stands for one of the orders in which
    Go may walk the two maps. *)
Definition buildPlansForProviderAuto (provider : Provider) : M (list ServicePlan) :=
  b <- getBroker ;;
  let sizes := snd <$> map_to_list (InstanceSizes provider) in
  match credentials b with
  | None => match sizes with [] => ret [] | _ :: _ => panic nilDeref end
  | Some creds =>
    ret (instanceSize ← sizes;
         (fun gk : string * Key => autoPlan provider instanceSize gk.1 gk.2)
         <$> map_to_list (Projects creds))
  end.

Section Engine.

(** The collaborators, known by their interface only. *)

(** [url.Parse(b.baseURL)] followed by clearing the path and [String()];
    [None] when parsing fails, in which case [u] is nil. *)
Variable url_Parse_noPath : string -> option string.
(** [atlas.NewClient(base, ...).GetProvider(name)]. *)
Variable GetProvider : string -> string -> Fallible Provider.
(** [dynamicplans.FromEnv()]. *)
Variable FromEnv : Fallible (list Template).
(** [dynamicplans.DefaultCtx(creds)]. *)
Variable DefaultCtx : option Credentials -> Context.
(** [yaml.NewDecoder(raw).Decode(&p)] on a zero [Plan]. *)
Variable yamlDecode : string -> Fallible Plan.
(** [json.Unmarshal(rawParams, &params)]: the context after decoding. *)
Variable jsonUnmarshal : string -> Context -> Fallible Context.

Definition withProviderSettings (ctx : Context) (ps : ProviderSettings) : Context :=
  {| ctxProject := ctxProject ctx;
     ctxCluster := {| clProviderSettings := Some ps |};
     ctxCredentials := ctxCredentials ctx |}.

Definition dynamicPlan (provider : Provider) (template : Template) (p : Plan)
  (instanceSizeName : string) : ServicePlan :=
  {| spID := planIDForDynamicPlan (provName provider) (planName p);
     spName := planName p;
     spDescription := planDescription p;
     spFree := planFree p;
     spMetadata :=
       Some {| mdInstanceSize :=
                 Some (default {| isName := EmptyString |}
                               (InstanceSizes provider !! instanceSizeName));
               mdGroupID := None;
               mdTemplate := Some template |} |}.

(** The provider settings of a decoded plan when it passes the validity
    check: the cluster is there, its provider settings are there, and their
    instance-size name is not empty. *)
Definition validSettings (p : Plan) : option ProviderSettings :=
  match planCluster p with
  | None => None
  | Some c =>
    match clProviderSettings c with
    | None => None
    | Some ps =>
      if decide (InstanceSizeName ps = EmptyString) then None else Some ps
    end
  end.

(** The [for _, template := range templates] loop; [plans] is the slice
    built so far. *)
Fixpoint dynamicLoop (provider : Provider) (ctx : Context)
  (templates : list Template) (plans : list ServicePlan) : M (list ServicePlan) :=
  match templates with
  | [] => ret plans
  | template :: rest =>
    match tplExecute template ctx with
    | Failure err =>
      writeLog ErrorLevel "cannot execute template %q: %v"
               [LString (tplName template); LError err] ;;
      dynamicLoop provider ctx rest plans
    | Success raw =>
      writeLog InfoLevel "Parsed plan: %s" [LString raw] ;;
      match yamlDecode raw with
      | Failure err =>
        writeLog ErrorLevel "cannot decode yaml template"
                 [LString "name"; LString (tplName template);
                  LString "error"; LError err] ;;
        dynamicLoop provider ctx rest plans
      | Success p =>
        match validSettings p with
        | None =>
          writeLog ErrorLevel "invalid yaml template"
                   [LString "name"; LString (tplName template);
                    LString "error";
                    LString ".cluster.providerSettings.instanceSizeName must not be empty"] ;;
          dynamicLoop provider ctx rest plans
        | Some ps =>
          let pn := ProviderName ps in
          if negb (bool_decide (pn = EmptyString))
             && negb (bool_decide (pn = provName provider))
          then dynamicLoop provider ctx rest plans
          else dynamicLoop provider ctx rest
                 (plans ++ [dynamicPlan provider template p (InstanceSizeName ps)])
        end
      end
    end
  end.

(** [ctx := dynamicplans.DefaultCtx(b.credentials)] with the provider name
    of the provider at hand set in it. *)
Definition dynamicCtx (b : Broker) (provider : Provider) : Context :=
  withProviderSettings (DefaultCtx (credentials b))
    {| ProviderName := provName provider; InstanceSizeName := EmptyString |}.

Definition buildPlansForProviderDynamic (provider : Provider) : M (list ServicePlan) :=
  b <- getBroker ;;
  templates <-
    match FromEnv with
    | Success ts => ret ts
    | Failure err =>
      writeLog FatalLevel "could not read dynamic plans from environment"
               [LString "error"; LError err] ;;
      exit
    end ;;
  dynamicLoop provider (dynamicCtx b provider) templates [].

Definition buildPlansForProvider (provider : Provider) : M (list ServicePlan) :=
  b <- getBroker ;;
  match mode b with
  | BasicAuth => ret (buildPlansForProviderStatic provider)
  | MultiGroup => panic "not implemented"
  | MultiGroupAutoPlans => buildPlansForProviderAuto provider
  | DynamicPlans => buildPlansForProviderDynamic provider
  end.

Definition buildService (provider : Provider) : M Service :=
  let catalogName := "mongodb-atlas-" +:+ ToLower (provName provider) in
  plans <- buildPlansForProvider provider ;;
  ret {| svcID := serviceIDForProvider (provName provider);
         svcName := catalogName;
         svcDescription := "Atlas cluster hosted on " +:+ dquote
                             +:+ provName provider +:+ dquote;
         svcBindable := true;
         svcInstancesRetrievable := false;
         svcBindingsRetrievable := false;
         svcPlanUpdatable := true;
         svcPlans := plans |}.

Definition addProvider (id : string) (p : Provider) (c : catalog) : catalog :=
  {| services := services c; plans := plans c;
     providers := <[id := p]> (providers c) |}.

Definition addPlan (p : ServicePlan) (c : catalog) : catalog :=
  {| services := services c; plans := <[spID p := p]> (plans c);
     providers := providers c |}.

Definition addService (svc : Service) (c : catalog) : catalog :=
  {| services := services c ++ [svc]; plans := plans c;
     providers := providers c |}.

(** The [if providerName == "TENANT"] statement of [buildCatalog], which
    gives [svc]: the hardcoded service, or the one built from the provider
    the backend returns. *)
Definition providerService (providerName : string) : M Service :=
  b <- getBroker ;;
  if decide (providerName = "TENANT") then ret sharedService
  else
    u <- match url_Parse_noPath (baseURL b) with
         | Some u => ret u
         | None => panic nilDeref
         end ;;
    recordCall u providerName ;;
    provider <- liftF (GetProvider u providerName) ;;
    svc <- buildService provider ;;
    modifyCatalog (addProvider (svcID svc) provider) ;;
    ret svc.

(** One turn of the loop of [buildCatalog]; finishing normally stands for
    both [continue] and reaching the end of the body, an error for
    [return err]. *)
Definition buildCatalogFor (providerName : string) : M unit :=
  b <- getBroker ;;
  let entry := wl ← whitelist b; wl !! providerName in
  let whitelistedPlans := default [] entry in
  let isWhitelisted := bool_decide (is_Some entry) in
  if bool_decide (is_Some (whitelist b)) && negb isWhitelisted then ret tt
  else
    svc <- providerService providerName ;;
    let svc :=
      if bool_decide (is_Some (whitelist b))
      then withPlans svc (applyWhitelist (svcPlans svc) whitelistedPlans)
      else svc in
    forM_ (svcPlans svc) (fun p => modifyCatalog (addPlan p)) ;;
    modifyCatalog (addService svc).

Definition buildCatalog : M unit :=
  b <- getBroker ;;
  putBroker (setCatalog b (Some newCatalog)) ;;
  forM_ providerNames buildCatalogFor.

Definition Services : M (list Service) :=
  writeLog InfoLevel "Retrieving service catalog" [] ;;
  b <- getBroker ;;
  (if bool_decide (bcatalog b = None) then buildCatalog else ret tt) ;;
  c <- getCatalog ;;
  ret (services c).

(** [New]: the broker is built with a nil catalog, the catalog is built at
    once, and a failure ends the process. *)
Definition New (creds : option Credentials) (base : string)
  (wl : option (gmap string (list string))) (md : Mode) : M Broker :=
  putBroker {| whitelist := wl; credentials := creds; baseURL := base;
               mode := md; bcatalog := None |} ;;
  (fun s =>
     match buildCatalog s with
     | (s', Err err) =>
       (writeLog FatalLevel "Cannot build service catalog"
                 [LString "error"; LError err] ;; exit) s'
     | r => r
     end) ;;
  getBroker.

(** ** The tenant and credential resolver ([broker.go]) *)

(** [b.GetInstance(ctx, instanceID)], the instance metadata store. *)
Variable GetInstance : string -> Fallible Instance.
(** The request context with what the authentication layer left in it. *)
Variable context : Type.
Variable AtlasClient : Type.
Variable HTTPClient : Type.
Variable atlasClientFromContext : context -> Fallible AtlasClient.
Variable groupIDFromContext : context -> string * option Error.
(** [digest.NewTransport(publicKey, privateKey).Client()]. *)
Variable digestClient : string -> string -> Fallible HTTPClient.
(** [mongodbatlas.New(hc, mongodbatlas.SetBaseURL(baseURL))]. *)
Variable mongodbatlas_New : HTTPClient -> string -> Fallible AtlasClient.
(** [catalog.findGroupIDByPlanID], declared with the catalog. *)
Variable findGroupIDByPlanID : catalog -> string -> string * option Error.

(** Runs [m] and hands its error, if any, to the caller as a value. *)
Definition catchErr {A} (m : M A) : M (Fallible A) :=
  fun s =>
    match m s with
    | (s', Ok a) => (s', Ok (Success a))
    | (s', Err e) => (s', Ok (Failure e))
    | (s', Panic msg) => (s', Panic msg)
    | (s', Exit) => (s', Exit)
    end.

(** [params := DefaultCtx(b.credentials)] followed by the decoding of
    non-empty [rawParams] into it. *)
Definition decodeParams (b : Broker) (rawParams : string) : Fallible Context :=
  let params := DefaultCtx (credentials b) in
  if (0 <? String.length rawParams)%nat then jsonUnmarshal rawParams params
  else Success params.

Definition parsePlan (planID rawParams : string) : M Plan :=
  c <- getCatalog ;;
  b <- getBroker ;;
  match plans c !! planID with
  | None => raise (ErrPlanNotFound planID)
  | Some sp =>
    match spMetadata sp with
    | None => panic nilDeref
    | Some md =>
      match mdTemplate md with
      | None => raise ErrNoValidTemplate
      | Some tpl =>
        params <- liftF (decodeParams b rawParams) ;;
        raw <- liftF (tplExecute tpl params) ;;
        match credentials b with
        | None => panic nilDeref
        | Some creds =>
          writeLog InfoLevel "Parsed plan"
                   [LString "plan"; LString raw; LString "creds";
                    LProjects (Projects creds)]
        end ;;
        liftF (yamlDecode raw)
      end
    end
  end.

Definition getInstanceState (instanceID : string) : M (gmap string Value) :=
  i <- liftF (GetInstance instanceID) ;;
  match Parameters i with
  | ParamsD p => ret (D_Map p)
  | ParamsOther t => raise (ErrMetadataWrongType t)
  end.

Definition getGroupIDByInstanceID (instanceID : string) : M string :=
  r <- catchErr (getInstanceState instanceID) ;;
  match r with
  | Failure err =>
    if decide (err = ErrNoDocuments) then ret EmptyString else raise err
  | Success s =>
    match s !! "groupID" with
    | None => raise (ErrGroupIDNotFound instanceID)
    | Some (VString gid) => ret gid
    | Some (VOther t) => raise (ErrGroupIDWrongType t)
    end
  end.

(** The three results of [getClient]. *)
Record ClientResult := {
  crClient : option AtlasClient;
  crGid : string;
  crErr : option Error
}.

Definition failWith (gid : string) (err : Error) : M ClientResult :=
  ret {| crClient := None; crGid := gid; crErr := Some err |}.

(** The statements of [getClient] after the [switch]. *)
Definition clientFor (gid : string) : M ClientResult :=
  b <- getBroker ;;
  match credentials b with
  | None => panic nilDeref
  | Some creds =>
    match Projects creds !! gid with
    | None => failWith gid (ErrCredentialsNotFound gid)
    | Some c =>
      match digestClient (PublicKey c) (PrivateKey c) with
      | Failure err => failWith gid err
      | Success hc =>
        match mongodbatlas_New hc (baseURL b) with
        | Failure err => failWith gid err
        | Success client =>
          ret {| crClient := Some client; crGid := gid; crErr := None |}
        end
      end
    end
  end.

Definition getClient (ctx : context) (instanceID planID rawParams : string)
  : M ClientResult :=
  b <- getBroker ;;
  match mode b with
  | BasicAuth =>
    match atlasClientFromContext ctx with
    | Failure err => failWith EmptyString err
    | Success client =>
      let '(gid, err) := groupIDFromContext ctx in
      ret {| crClient := Some client; crGid := gid; crErr := err |}
    end
  | MultiGroup =>
    r <- catchErr (getGroupIDByInstanceID instanceID) ;;
    match r with
    | Failure err => failWith EmptyString err
    | Success gid =>
      if negb (bool_decide (gid = EmptyString)) then clientFor gid
      else
        match decodeParams b rawParams with
        | Failure err => failWith gid err
        | Success params =>
          if bool_decide (projID (ctxProject params) = EmptyString)
          then failWith gid ErrProjectIDNotFound
          else clientFor (projID (ctxProject params))
        end
    end
  | MultiGroupAutoPlans =>
    c <- getCatalog ;;
    match findGroupIDByPlanID c planID with
    | (gid, Some err) => failWith gid err
    | (gid, None) => clientFor gid
    end
  | DynamicPlans =>
    r <- catchErr (getGroupIDByInstanceID instanceID) ;;
    match r with
    | Failure err => failWith EmptyString err
    | Success gid =>
      if negb (bool_decide (gid = EmptyString)) then clientFor gid
      else
        r <- catchErr (parsePlan planID rawParams) ;;
        match r with
        | Failure err => failWith gid err
        | Success dp =>
          match planProject dp with
          | None => failWith gid ErrMissingProject
          | Some project =>
            if negb (bool_decide (projID project = EmptyString))
            then clientFor (projID project)
            else clientFor gid
          end
        end
    end
  end.

End Engine.

(** ** Predicates used in the statements *)

(** The bytes [normalizeID] may produce. *)
Definition out_char (c : ascii) : bool :=
  is_lower c || is_digit c || is_hyphen c || is_underscore c.

(** A string in normal form: lower-case letters, digits and hyphens, with
    single underscores between them; [afterUnderscore] forbids an underscore
    in first place. *)
Fixpoint canonical (afterUnderscore : bool) (s : string) : bool :=
  match s with
  | EmptyString => true
  | String c s' =>
    if is_underscore c then negb afterUnderscore && canonical true s'
    else (is_lower c || is_digit c || is_hyphen c) && canonical false s'
  end.

Arguments Build_ClientResult {AtlasClient} crClient crGid crErr.
Arguments crClient {AtlasClient} c.
Arguments crGid {AtlasClient} c.
Arguments crErr {AtlasClient} c.

(** The persisted metadata of [instanceID] records the tenant [tenant]. *)
Definition recordsTenant (GetInstance : string -> Fallible Instance)
  (instanceID tenant : string) : Prop :=
  exists i doc,
    GetInstance instanceID = Success i /\
    Parameters i = ParamsD doc /\
    D_Map doc !! "groupID" = Some (VString tenant) /\
    tenant <> EmptyString.

(** There is no persisted metadata for [instanceID]. *)
Definition noMetadata (GetInstance : string -> Fallible Instance)
  (instanceID : string) : Prop :=
  GetInstance instanceID = Failure ErrNoDocuments.

(** The request declares no tenant: in [MultiGroup] mode the decoded
    parameters have an empty project identifier, in [DynamicPlans] mode the
    plan rendered for the request has no project. *)
Definition declaresNoTenant
  (DefaultCtx : option Credentials -> Context)
  (yamlDecode : string -> Fallible Plan)
  (jsonUnmarshal : string -> Context -> Fallible Context)
  (s : State) (planID rawParams : string) : Prop :=
  match mode (broker s) with
  | MultiGroup =>
    exists params,
      decodeParams DefaultCtx jsonUnmarshal (broker s) rawParams = Success params /\
      projID (ctxProject params) = EmptyString
  | DynamicPlans =>
    exists s1 dp,
      parsePlan DefaultCtx yamlDecode jsonUnmarshal planID rawParams s = (s1, Ok dp) /\
      planProject dp = None
  | _ => False
  end.

(** The error that reports a missing tenant reference in each mode. *)
Definition missingTenantReference (md : Mode) : Error :=
  match md with
  | DynamicPlans => ErrMissingProject
  | _ => ErrProjectIDNotFound
  end.

(** The state with further entries written to the log. *)
Definition addLog (s : State) (l : list LogEntry) : State :=
  {| broker := broker s; log := log s ++ l; backendCalls := backendCalls s |}.

(** The state [buildCatalog] starts its loop in. *)
Definition withNewCatalog (s : State) : State :=
  {| broker := setCatalog (broker s) (Some newCatalog);
     log := log s; backendCalls := backendCalls s |}.

Definition notTenant (call : string * string) : Prop := call.2 <> "TENANT".

(** What every method of the broker leaves as it is: the configuration is
    not written, a catalog that is there stays there, and the log and the
    list of backend calls only grow, the latter by calls for providers other
    than the shared one. *)
Record stable (s s' : State) : Prop := {
  stable_whitelist : whitelist (broker s') = whitelist (broker s);
  stable_credentials : credentials (broker s') = credentials (broker s);
  stable_baseURL : baseURL (broker s') = baseURL (broker s);
  stable_mode : mode (broker s') = mode (broker s);
  stable_catalog : is_Some (bcatalog (broker s)) -> is_Some (bcatalog (broker s'));
  stable_calls : exists new,
    backendCalls s' = backendCalls s ++ new /\ Forall notTenant new;
  stable_log : exists l, log s' = log s ++ l
}.

Definition preserves {A} (m : M A) : Prop :=
  forall s s' o, m s = (s', o) -> stable s s'.

(** The provider names that pass the whitelist, in order. *)
Definition whitelistedNames
  (wl : option (gmap string (list string))) (names : list string) : list string :=
  match wl with
  | None => names
  | Some w => filter (fun n => is_Some (w !! n)) names
  end.

(** [svc] is what the build started in [s0] publishes for [providerName]:
    the service of that provider, obtained in a state [st] the build went
    through, with the whitelist applied to its plans when there is one. *)
Definition published
  (url_Parse_noPath : string -> option string)
  (GetProvider : string -> string -> Fallible Provider)
  (FromEnv : Fallible (list Template))
  (DefaultCtx : option Credentials -> Context)
  (yamlDecode : string -> Fallible Plan)
  (s0 : State) (providerName : string) (svc : Service) : Prop :=
  exists st st' svc0,
    stable s0 st /\
    providerService url_Parse_noPath GetProvider FromEnv DefaultCtx yamlDecode
      providerName st = (st', Ok svc0) /\
    svc = match whitelist (broker s0) with
          | None => svc0
          | Some wl =>
            withPlans svc0
              (filter (fun p => spName p ∈ default [] (wl !! providerName))
                      (svcPlans svc0))
          end.

(** The backend answers with the provider it was asked for. *)
Definition faithful (GetProvider : string -> string -> Fallible Provider) : Prop :=
  forall u name provider,
    GetProvider u name = Success provider -> provName provider = name.

Definition serviceIDs (c : catalog) : list string := svcID <$> services c.

Definition planIDs (c : catalog) : list string :=
  svc ← services c; spID <$> svcPlans svc.

(** A template is faulty in a context when its rendering fails, when the
    rendered text does not decode, or when the decoded plan does not pass
    the validity check. *)
Definition faulty (yamlDecode : string -> Fallible Plan)
  (ctx : Context) (t : Template) : bool :=
  match tplExecute t ctx with
  | Failure _ => true
  | Success raw =>
    match yamlDecode raw with
    | Failure _ => true
    | Success p => bool_decide (validSettings p = None)
    end
  end.

(** A log entry at error level that names the template [name]. *)
Definition reportsError (name : string) (e : LogEntry) : Prop :=
  logLevel e = ErrorLevel /\ LString name ∈ logArgs e.

(** The entry written when a template has been rendered. *)
Definition parsedEntry (raw : string) : LogEntry :=
  {| logLevel := InfoLevel; logMsg := "Parsed plan: %s";
     logArgs := [LString raw] |}.

(** What the plan identifiers of one provider start with. *)
Definition planPrefix (providerName : string) : string :=
  "aosb-cluster-plan-" +:+ ToLower providerName +:+ "-".

Definition hasPrefix (providerName : string) (p : ServicePlan) : Prop :=
  exists r, spID p = planPrefix providerName +:+ r.

Ltac each_byte c :=
  destruct c as [[] [] [] [] [] [] [] []]; vm_compute; try done; auto.

#[local] Arguments String.append !_ _ / : simpl nomatch.

(** ** A sample deployment

    Concrete collaborators on which the statements below are run. *)

Module Sample.

Definition parse (base : string) : option string := Some base.

Definition sizes : gmap string InstanceSize :=
  <["M10" := {| isName := "M10" |}]> (<["M20" := {| isName := "M20" |}]> ∅).

(** A backend that knows every provider, with the sizes M10 and M20. *)
Definition backend (base name : string) : Fallible Provider :=
  Success {| provName := name; InstanceSizes := sizes |}.

(** A backend that answers for AWS and fails for the other providers. *)
Definition failingBackend (base name : string) : Fallible Provider :=
  if decide (name = "AWS") then backend base name
  else Failure (ErrExternal "provider metadata unavailable").

Definition defaultCtx (creds : option Credentials) : Context :=
  {| ctxProject := {| projID := EmptyString |};
     ctxCluster := {| clProviderSettings := None |};
     ctxCredentials := creds |}.

(** Rendered texts are taken to be the plan name alone, or the plan name
    followed by [@] and a provider name; a text starting with [!] does not
    decode, one starting with [?] decodes to a plan without an
    instance-size name, and one starting with [+] to a plan with a project
    that has no identifier. *)
Fixpoint splitAt (s : string) : string * string :=
  match s with
  | EmptyString => (EmptyString, EmptyString)
  | String c s' =>
    if Ascii.eqb c "@" then (EmptyString, s')
    else let '(a, b) := splitAt s' in (String c a, b)
  end.

Definition planOf (name provider size : string) (project : option Project) : Plan :=
  {| planName := name; planDescription := "a plan"; planFree := None;
     planProject := project;
     planCluster :=
       Some {| clProviderSettings :=
                 Some {| ProviderName := provider; InstanceSizeName := size |} |} |}.

Definition yaml (raw : string) : Fallible Plan :=
  match raw with
  | String "!" _ => Failure (ErrExternal "yaml: did not find expected key")
  | String "?" rest => Success (planOf rest EmptyString EmptyString None)
  | String "+" rest =>
    Success (planOf rest EmptyString "M10" (Some {| projID := EmptyString |}))
  | _ => let '(name, provider) := splitAt raw in
         Success (planOf name provider "M10" None)
  end.

(** A template whose rendering does not look at the context. *)
Definition constTemplate (name text : string) : Template :=
  {| tplName := name; tplExecute := fun _ => Success text |}.

Definition brokenTemplate (name : string) : Template :=
  {| tplName := name;
     tplExecute := fun _ => Failure (ErrExternal "template: undefined field") |}.

Definition creds : Credentials :=
  {| Projects :=
       <["p1" := {| PublicKey := "pub1"; PrivateKey := "priv1"; Desc := "alpha" |}]>
       (<["p2" := {| PublicKey := "pub2"; PrivateKey := "priv2";
                     Desc := EmptyString |}]> ∅) |}.

Definition start (wl : option (gmap string (list string))) (md : Mode) : State :=
  {| broker := {| whitelist := wl; credentials := Some creds;
                  baseURL := "https://cloud.mongodb.com/api";
                  mode := md; bcatalog := None |};
     log := []; backendCalls := [] |}.

(** The metadata store: one provisioned instance, of tenant [p1]. *)
Definition store (instanceID : string) : Fallible Instance :=
  if decide (instanceID = "instance-1")
  then Success {| Parameters :=
                    ParamsD [("clusterName", VString "cluster-1");
                             ("groupID", VString "p1")] |}
  else Failure ErrNoDocuments.

(** The metadata store before anything was provisioned. *)
Definition emptyStore (instanceID : string) : Fallible Instance :=
  Failure ErrNoDocuments.

(** Request parameters are taken to be the project identifier alone. *)
Definition unmarshal (raw : string) (params : Context) : Fallible Context :=
  Success {| ctxProject := {| projID := raw |};
             ctxCluster := ctxCluster params;
             ctxCredentials := ctxCredentials params |}.

Definition digest (publicKey privateKey : string) : Fallible string :=
  Success (publicKey +:+ ":" +:+ privateKey).

Definition newAtlas (hc base : string) : Fallible string :=
  Success (hc +:+ "@" +:+ base).

Definition clientFromContext (_ : unit) : Fallible string :=
  Failure (ErrExternal "no client in context").

Definition groupFromContext (_ : unit) : string * option Error :=
  (EmptyString, Some (ErrExternal "no group in context")).

Definition findGroup (c : catalog) (planID : string) : string * option Error :=
  let notFound := (EmptyString, Some (ErrExternal "plan not found")) in
  match plans c !! planID with
  | Some {| spMetadata := Some {| mdGroupID := Some g |} |} => (g, None)
  | _ => notFound
  end.

(** The broker after [buildCatalog] on the given templates and mode. *)
Definition built (templates : list Template)
  (wl : option (gmap string (list string))) (md : Mode) : State :=
  (buildCatalog parse backend (Success templates) defaultCtx yaml (start wl md)).1.

Definition basic : Template := constTemplate "basic.yml.tpl" "basic".
Definition basicCopy : Template := constTemplate "basic-copy.yml.tpl" "basic".
Definition awsOnly : Template := constTemplate "aws-only.yml.tpl" "small@AWS".
Definition noSize : Template := constTemplate "no-size.yml.tpl" "?tiny".
Definition emptyProject : Template :=
  constTemplate "empty-project.yml.tpl" "+shared".

Definition provider (name : string) : Provider :=
  {| provName := name; InstanceSizes := sizes |}.

Definition resolve (s : State) (instanceID planID rawParams : string)
  : State * Outcome (ClientResult string) :=
  getClient defaultCtx yaml unmarshal store unit string string
    clientFromContext groupFromContext digest newAtlas findGroup
    tt instanceID planID rawParams s.

End Sample.

(** ** Further predicates and helpers *)

(** The plan index after the plans [ps] have been stored in it, in order. *)
Definition indexPlans (m : gmap string ServicePlan) (ps : list ServicePlan)
  : gmap string ServicePlan :=
  foldl (fun m p => <[spID p := p]> m) m ps.

(** The two lookups of a catalog agree with its list of services: the plan
    index holds exactly the identifiers of the listed plans, each entry is a
    listed plan stored under its own identifier, and each entry of the
    provider index is stored under the service identifier of its provider,
    which is the identifier of a listed service. *)
Record indexed (c : catalog) : Prop := {
  indexed_dom : forall id, is_Some (plans c !! id) <-> id ∈ planIDs c;
  indexed_plan : forall id p, plans c !! id = Some p ->
    spID p = id /\ exists svc, svc ∈ services c /\ p ∈ svcPlans svc;
  indexed_provider : forall id prov, providers c !! id = Some prov ->
    id = serviceIDForProvider (provName prov) /\ id ∈ serviceIDs c
}.

(** The entry [Services] writes on every call. *)
Definition retrievingEntry : LogEntry :=
  {| logLevel := InfoLevel; logMsg := "Retrieving service catalog";
     logArgs := [] |}.


(** The request of a new instance declares the tenant [tenant]: in
    [MultiGroup] mode the decoded parameters carry it as their project
    identifier, in [DynamicPlans] mode the plan rendered for the request,
    which leaves the state [s1], carries it in its project. *)
Definition declaresTenant
  (DefaultCtx : option Credentials -> Context)
  (yamlDecode : string -> Fallible Plan)
  (jsonUnmarshal : string -> Context -> Fallible Context)
  (s : State) (planID rawParams tenant : string) (s1 : State) : Prop :=
  match mode (broker s) with
  | MultiGroup =>
    s1 = s /\
    exists params,
      decodeParams DefaultCtx jsonUnmarshal (broker s) rawParams = Success params /\
      projID (ctxProject params) = tenant
  | DynamicPlans =>
    exists dp project,
      parsePlan DefaultCtx yamlDecode jsonUnmarshal planID rawParams s = (s1, Ok dp) /\
      planProject dp = Some project /\ projID project = tenant
  | _ => False
  end.

(** The last element of the document [doc] stored under [key]. *)
Definition lastElement (key : string) (doc : list (string * Value))
  : option (string * Value) :=
  last (filter (fun kv => kv.1 = key) doc).

(** The plan [p] carries one of the templates [ts]. *)
Definition templated (ts : list Template) (p : ServicePlan) : Prop :=
  exists t md, t ∈ ts /\ spMetadata p = Some md /\ mdTemplate md = Some t.

(** [GetDashboardURL] ([broker.go]). *)
Definition GetDashboardURL (b : Broker) (groupID clusterName : string) : string :=
  baseURL b +:+ "/v2/" +:+ groupID +:+ "#clusters/detail/" +:+ clusterName.

(** Strings without the fragment separator. *)
Definition hash_free (s : string) : bool :=
  all_chars (fun c => negb (Ascii.eqb c "#")) s.

(** * Properties *)

(** ** Bytes *)

(** The verb [%q] on a name of letters and digits, and on the bytes it
    escapes: the quote, the backslash, a tab, and two control bytes. *)
Example quoted_escapes :
  quoted "M10" = dquote +:+ "M10" +:+ dquote /\
  quoted ("a" +:+ dquote +:+ "b" +:+ backslash
              +:+ String (ascii_of_nat 9) (String (ascii_of_nat 1)
                    (String (ascii_of_nat 127) EmptyString)))
  = dquote +:+ "a" +:+ backslash +:+ dquote +:+ "b" +:+ backslash +:+ backslash
           +:+ backslash +:+ "t" +:+ backslash +:+ "x01" +:+ backslash +:+ "x7f"
           +:+ dquote.
Proof. vm_compute. done. Qed.

Lemma in_class_lower_char c :
  in_class c = true ->
  is_underscore (lower_char c) = false /\
  (is_lower (lower_char c) || is_digit (lower_char c) || is_hyphen (lower_char c)) = true.
Proof. each_byte c. Qed.

Lemma canonical_char_fixed c :
  is_underscore c = false ->
  (is_lower c || is_digit c || is_hyphen c) = true ->
  in_class c = true /\ lower_char c = c.
Proof. each_byte c. Qed.

Lemma underscore_spec c :
  is_underscore c = true -> in_class c = false /\ lower_char c = c /\ c = "_"%char.
Proof. each_byte c. Qed.

Lemma lower_char_hyphen c : is_hyphen (lower_char c) = is_hyphen c.
Proof. each_byte c. Qed.

Lemma is_hyphen_spec c : is_hyphen c = true <-> c = "-"%char.
Proof. unfold is_hyphen. apply Ascii.eqb_eq. Qed.

(** ** [normalizeID] *)

Lemma canonical_out_chars b s : canonical b s = true -> all_chars out_char s = true.
Proof.
  revert b. induction s as [|c s IH]; intros b; simpl; [done|].
  unfold out_char. destruct (is_underscore c).
  - rewrite !orb_true_r. simpl. intros [_ H]%andb_true_iff. eauto.
  - rewrite orb_false_r. intros [-> H]%andb_true_iff. simpl. eauto.
Qed.

Lemma replaceRuns_canonical b s : canonical b (ToLower (replaceRuns b s)) = true.
Proof.
  revert b. induction s as [|c s IH]; intros b; simpl; [done|].
  destruct (in_class c) eqn:Hc.
  - simpl. destruct (in_class_lower_char c Hc) as [-> ->]. simpl. apply IH.
  - destruct b; simpl; [apply IH|]. apply IH.
Qed.

Lemma canonical_fixed b s :
  canonical b s = true -> ToLower (replaceRuns b s) = s.
Proof.
  revert b. induction s as [|c s IH]; intros b; simpl; [done|].
  destruct (is_underscore c) eqn:Hu.
  - intros [Hb Hs]%andb_true_iff. destruct b; [done|].
    destruct (underscore_spec c Hu) as (-> & _ & ->). simpl.
    f_equal. by apply IH.
  - intros [Hc Hs]%andb_true_iff.
    destruct (canonical_char_fixed c Hu Hc) as [-> Hl]. simpl.
    rewrite Hl. f_equal. by apply IH.
Qed.

(** C9.  [normalizeID] is idempotent, and what it returns is made of
    lower-case letters, digits, hyphens and underscores only. *)
Theorem normalizeID_idempotent_charset (x : string) :
  normalizeID (normalizeID x) = normalizeID x /\
  all_chars out_char (normalizeID x) = true.
Proof.
  unfold normalizeID, forbiddenSymbols_ReplaceAllString. split.
  - apply canonical_fixed, replaceRuns_canonical.
  - eapply canonical_out_chars, replaceRuns_canonical.
Qed.

(** ** Plan identifiers *)

Lemma append_assoc (a b c : string) : (a +:+ b) +:+ c = a +:+ (b +:+ c).
Proof. induction a as [|x a IH]; simpl; [done|]. by rewrite IH. Qed.

Lemma append_inv_head (a x y : string) : a +:+ x = a +:+ y -> x = y.
Proof. induction a as [|c a IH]; simpl; [done|]. intros [= H]. auto. Qed.

Lemma ToLower_hyphen_free s : hyphen_free (ToLower s) = hyphen_free s.
Proof.
  unfold hyphen_free. induction s as [|c s IH]; simpl; [done|].
  by rewrite lower_char_hyphen, IH.
Qed.

Lemma hyphen_free_append a x : hyphen_free (a +:+ "-" +:+ x) = false.
Proof.
  unfold hyphen_free. induction a as [|c a IH]; simpl in *; [done|].
  rewrite IH. apply andb_false_r.
Qed.

(** A hyphen-free word followed by a hyphen is read back without doubt. *)
Lemma split_at_hyphen a b x y :
  hyphen_free a = true -> hyphen_free b = true ->
  a +:+ "-" +:+ x = b +:+ "-" +:+ y -> a = b /\ x = y.
Proof.
  unfold hyphen_free. revert b.
  induction a as [|c a IH]; intros [|d b]; simpl.
  - intros _ _ [= ->]. done.
  - intros _ [Hd _]%andb_true_iff [= <- _]. done.
  - intros [Hc _]%andb_true_iff _ [= -> _]. done.
  - intros [_ Ha]%andb_true_iff [_ Hb]%andb_true_iff [= -> H].
    destruct (IH b Ha Hb H) as [-> ->]. done.
Qed.

Lemma planIDForInstanceSize_unfold p s g :
  planIDForInstanceSize p s g =
  "aosb-cluster-plan-" +:+ ToLower p +:+ "-" +:+
    (if decide (g = EmptyString) then ToLower (isName s)
     else ToLower (isName s) +:+ "-" +:+ g).
Proof.
  unfold planIDForInstanceSize, idPrefix.
  destruct (decide (g = EmptyString)); [reflexivity|].
  rewrite !append_assoc. reflexivity.
Qed.

(** C1 (amended).  On provider and instance-size names made of ASCII bytes
    and without a hyphen, two plan identifiers are equal exactly when the
    provider names and the size names agree up to letter case and the
    tenant qualifiers are equal.  The names are ASCII so that [ToLower] is
    the lower-casing of the code; the tenant qualifier is not lower-cased
    and may be any string. *)
Theorem planIDForInstanceSize_injective_up_to_case p1 s1 g1 p2 s2 g2 :
  ascii_only p1 = true -> ascii_only (isName s1) = true ->
  ascii_only p2 = true -> ascii_only (isName s2) = true ->
  hyphen_free p1 = true -> hyphen_free (isName s1) = true ->
  hyphen_free p2 = true -> hyphen_free (isName s2) = true ->
  planIDForInstanceSize p1 s1 g1 = planIDForInstanceSize p2 s2 g2 <->
  ToLower p1 = ToLower p2 /\ ToLower (isName s1) = ToLower (isName s2) /\ g1 = g2.
Proof.
  intros _ _ _ _ Hp1 Hs1 Hp2 Hs2. rewrite !planIDForInstanceSize_unfold.
  rewrite <- ToLower_hyphen_free in Hp1, Hs1, Hp2, Hs2.
  split.
  - intros H%append_inv_head.
    apply split_at_hyphen in H as [Hp H]; [|done..]. split; [done|].
    destruct (decide (g1 = EmptyString)) as [->|n1],
             (decide (g2 = EmptyString)) as [->|n2].
    + done.
    + rewrite H, hyphen_free_append in Hs1. done.
    + rewrite <- H, hyphen_free_append in Hs2. done.
    + apply split_at_hyphen in H as [? ?]; done.
  - intros (-> & -> & ->). done.
Qed.

Lemma planIDForInstanceSize_injective_up_to_case_witness :
  (planIDForInstanceSize "AWS" {| isName := "M10" |} "p1"
   = planIDForInstanceSize "aws" {| isName := "m10" |} "p1" <->
   ToLower "AWS" = ToLower "aws" /\ ToLower "M10" = ToLower "m10" /\ "p1" = "p1") /\
  (planIDForInstanceSize "AWS" {| isName := "M10" |} "p1"
   = planIDForInstanceSize "AWS" {| isName := "M10" |} "p2" <->
   ToLower "AWS" = ToLower "AWS" /\ ToLower "M10" = ToLower "M10" /\ "p1" = "p2").
Proof.
  split.
  - apply (planIDForInstanceSize_injective_up_to_case
             "AWS" {| isName := "M10" |} "p1" "aws" {| isName := "m10" |} "p1");
      reflexivity.
  - apply (planIDForInstanceSize_injective_up_to_case
             "AWS" {| isName := "M10" |} "p1" "AWS" {| isName := "M10" |} "p2");
      reflexivity.
Defined.

(** C1, as stated, fails: identifiers are case-folded, so two size names
    that differ in case collide, and the hyphen that separates the parts may
    also occur inside a part. *)
Lemma planIDForInstanceSize_collisions :
  (("AWS", "M10", EmptyString) <> ("AWS", "m10", EmptyString) /\
   planIDForInstanceSize "AWS" {| isName := "M10" |} EmptyString
   = planIDForInstanceSize "AWS" {| isName := "m10" |} EmptyString) /\
  (("AWS", "M10", "p1") <> ("AWS", "M10-p1", EmptyString) /\
   planIDForInstanceSize "AWS" {| isName := "M10" |} "p1"
   = planIDForInstanceSize "AWS" {| isName := "M10-p1" |} EmptyString).
Proof. repeat split; try reflexivity; intros [=]. Qed.

(** ** The effect monad *)

Lemma addLog_nil s : addLog s [] = s.
Proof. destruct s. unfold addLog. simpl. by rewrite app_nil_r. Qed.

Lemma addLog_app s l1 l2 : addLog (addLog s l1) l2 = addLog s (l1 ++ l2).
Proof. unfold addLog. simpl. by rewrite app_assoc. Qed.

Lemma stable_refl s : stable s s.
Proof.
  split; try done.
  - exists []. by rewrite app_nil_r.
  - exists []. by rewrite app_nil_r.
Qed.

Lemma stable_trans s1 s2 s3 : stable s1 s2 -> stable s2 s3 -> stable s1 s3.
Proof.
  intros [W1 C1 U1 M1 K1 (n1 & E1 & F1) (l1 & L1)]
         [W2 C2 U2 M2 K2 (n2 & E2 & F2) (l2 & L2)].
  split; try congruence; auto.
  - exists (n1 ++ n2). rewrite E2, E1, app_assoc. split; [done|].
    by apply Forall_app.
  - exists (l1 ++ l2). by rewrite L2, L1, app_assoc.
Qed.

Lemma stable_addLog s l : stable s (addLog s l).
Proof.
  split; try done.
  - exists []. simpl. by rewrite app_nil_r.
  - by exists l.
Qed.

Lemma bind_ok_inv {A B} (m : M A) (k : A -> M B) s s' b :
  bind m k s = (s', Ok b) ->
  exists s1 a, m s = (s1, Ok a) /\ k a s1 = (s', Ok b).
Proof.
  unfold bind. destruct (m s) as [s1 [a| | |]]; try done. eauto.
Qed.

Lemma bind_ok {A B} (m : M A) (k : A -> M B) s s1 a :
  m s = (s1, Ok a) -> bind m k s = k a s1.
Proof. unfold bind. by intros ->. Qed.

Lemma bind_assoc {A B C} (m : M A) (k : A -> M B) (k' : B -> M C) s :
  bind (bind m k) k' s = bind m (fun a => bind (k a) k') s.
Proof. unfold bind. by destruct (m s) as [s1 [a| | |]]. Qed.

Lemma preserves_ret {A} (a : A) : preserves (ret a).
Proof. intros s s' o [= <- _]. apply stable_refl. Qed.

Lemma preserves_bind {A B} (m : M A) (k : A -> M B) :
  preserves m -> (forall a, preserves (k a)) -> preserves (bind m k).
Proof.
  intros Hm Hk s s' o. unfold bind.
  destruct (m s) as [s1 [a| | |]] eqn:E; specialize (Hm _ _ _ E).
  - intros H. eapply stable_trans; [done|]. by eapply Hk.
  - by intros [= <- _].
  - by intros [= <- _].
  - by intros [= <- _].
Qed.

Lemma preserves_raise {A} e : preserves (@raise A e).
Proof. intros s s' o [= <- _]. apply stable_refl. Qed.

Lemma preserves_panic {A} msg : preserves (@panic A msg).
Proof. intros s s' o [= <- _]. apply stable_refl. Qed.

Lemma preserves_exit {A} : preserves (@exit A).
Proof. intros s s' o [= <- _]. apply stable_refl. Qed.

Lemma preserves_getBroker : preserves getBroker.
Proof. intros s s' o [= <- _]. apply stable_refl. Qed.

Lemma preserves_writeLog lvl msg args : preserves (writeLog lvl msg args).
Proof. intros s s' o [= <- _]. apply (stable_addLog s). Qed.

Lemma preserves_liftF {A} (r : Fallible A) : preserves (liftF r).
Proof. destruct r; [apply preserves_ret|apply preserves_raise]. Qed.

Lemma preserves_recordCall u name :
  name <> "TENANT" -> preserves (recordCall u name).
Proof.
  intros Hn s s' o [= <- _]. split; try done.
  - exists [(u, name)]. split; [done|]. by constructor.
  - exists []. simpl. by rewrite app_nil_r.
Qed.

Lemma preserves_getCatalog : preserves getCatalog.
Proof.
  apply preserves_bind; [apply preserves_getBroker|]. intros b.
  destruct (bcatalog b); [apply preserves_ret|apply preserves_panic].
Qed.

Lemma preserves_modifyCatalog f : preserves (modifyCatalog f).
Proof.
  apply preserves_bind; [apply preserves_getCatalog|]. intros c.
  intros s s' o [= <- _]. split; try done.
  - exists []. simpl. by rewrite app_nil_r.
  - exists []. simpl. by rewrite app_nil_r.
Qed.

Lemma preserves_forM_ {A} (l : list A) (f : A -> M unit) :
  (forall x, preserves (f x)) -> preserves (forM_ l f).
Proof.
  intros Hf. induction l as [|x l IH]; simpl; [apply preserves_ret|].
  apply preserves_bind; auto.
Qed.

Lemma preserves_catchErr {A} (m : M A) : preserves m -> preserves (catchErr m).
Proof.
  intros Hm s s' o. unfold catchErr.
  destruct (m s) as [s1 [a| | |]] eqn:E; intros [= <- _]; eauto.
Qed.

Create HintDb pres.

#[local] Hint Resolve preserves_ret preserves_raise preserves_panic
  preserves_exit preserves_getBroker preserves_writeLog preserves_liftF
  preserves_getCatalog preserves_modifyCatalog preserves_forM_
  preserves_catchErr : pres.

Ltac pres_step :=
  first [ solve [eauto with pres]
        | apply preserves_bind; [|intros ?]
        | match goal with
          | |- preserves (match ?x with _ => _ end) => destruct x
          | |- preserves (if ?x then _ else _) => destruct x
          end ].

(** A successful catalog write leaves the other parts of the catalog. *)
Lemma modifyCatalog_ok f s s' :
  modifyCatalog f s = (s', Ok tt) ->
  exists c, bcatalog (broker s) = Some c /\
    s' = {| broker := setCatalog (broker s) (Some (f c));
            log := log s; backendCalls := backendCalls s |}.
Proof.
  unfold modifyCatalog, getCatalog, bind, getBroker, putBroker.
  destruct (bcatalog (broker s)) as [c|] eqn:E; simpl; [|done].
  intros [= <-]. eauto.
Qed.

(** ** The catalog builder *)

Section CatalogProperties.

Variable url_Parse_noPath : string -> option string.
Variable GetProvider : string -> string -> Fallible Provider.
Variable FromEnv : Fallible (list Template).
Variable DefaultCtx : option Credentials -> Context.
Variable yamlDecode : string -> Fallible Plan.

Local Abbreviation dynamicLoop' := (dynamicLoop yamlDecode).
Local Abbreviation buildPlansForProviderDynamic' :=
  (buildPlansForProviderDynamic FromEnv DefaultCtx yamlDecode).
Local Abbreviation buildPlansForProvider' :=
  (buildPlansForProvider FromEnv DefaultCtx yamlDecode).
Local Abbreviation buildService' := (buildService FromEnv DefaultCtx yamlDecode).
Local Abbreviation providerService' :=
  (providerService url_Parse_noPath GetProvider FromEnv DefaultCtx yamlDecode).
Local Abbreviation buildCatalogFor' :=
  (buildCatalogFor url_Parse_noPath GetProvider FromEnv DefaultCtx yamlDecode).
Local Abbreviation buildCatalog' :=
  (buildCatalog url_Parse_noPath GetProvider FromEnv DefaultCtx yamlDecode).

Lemma writeLog_then {A} lvl msg args (k : M A) s :
  (writeLog lvl msg args ;; k) s
  = k (addLog s [{| logLevel := lvl; logMsg := msg; logArgs := args |}]).
Proof. reflexivity. Qed.

(** The template loop only writes to the log and appends to the slice:
    which entries and which plans depends on the templates alone. *)
Lemma dynamicLoop_writer provider ctx ts :
  exists l plans,
    (forall acc s,
       dynamicLoop' provider ctx ts acc s = (addLog s l, Ok (acc ++ plans))) /\
    Forall (hasPrefix (provName provider)) plans.
Proof.
  induction ts as [|t ts (l & plans & IH & Hpre)]; simpl.
  { exists [], []. split; [|done]. intros acc s.
    by rewrite addLog_nil, app_nil_r. }
  destruct (tplExecute t ctx) as [raw|err].
  2:{ eexists _, plans. split; [|done]. intros acc s.
      by rewrite writeLog_then, IH, addLog_app. }
  destruct (yamlDecode raw) as [p|err].
  2:{ eexists _, plans. split; [|done]. intros acc s.
      by rewrite !writeLog_then, IH, !addLog_app. }
  destruct (validSettings p) as [ps|].
  2:{ eexists _, plans. split; [|done]. intros acc s.
      by rewrite !writeLog_then, IH, !addLog_app. }
  destruct (negb _ && negb _).
  - eexists _, plans. split; [|done]. intros acc s.
    by rewrite !writeLog_then, IH, !addLog_app.
  - eexists _, (_ :: plans). split.
    + intros acc s. rewrite !writeLog_then, IH, !addLog_app.
      by rewrite <- app_assoc.
    + constructor; [|done]. eexists. unfold planIDForDynamicPlan, planPrefix, idPrefix.
      simpl. rewrite !append_assoc. reflexivity.
Qed.

Lemma preserves_dynamicLoop provider ctx ts acc :
  preserves (dynamicLoop' provider ctx ts acc).
Proof.
  destruct (dynamicLoop_writer provider ctx ts) as (l & plans & H & _).
  intros s s' o. rewrite H. intros [= <- _]. apply stable_addLog.
Qed.

Lemma preserves_buildPlansForProviderAuto provider :
  preserves (buildPlansForProviderAuto provider).
Proof. unfold buildPlansForProviderAuto. repeat pres_step. Qed.

Lemma preserves_buildPlansForProvider provider :
  preserves (buildPlansForProvider' provider).
Proof.
  unfold buildPlansForProvider, buildPlansForProviderDynamic.
  repeat first [apply preserves_dynamicLoop
               |apply preserves_buildPlansForProviderAuto|pres_step].
Qed.

Lemma preserves_buildService provider : preserves (buildService' provider).
Proof.
  unfold buildService.
  repeat first [apply preserves_buildPlansForProvider|pres_step].
Qed.

Lemma preserves_providerService name : preserves (providerService' name).
Proof.
  unfold providerService.
  apply preserves_bind; [eauto with pres|]. intros b.
  destruct (decide (name = "TENANT")) as [|Hn]; [eauto with pres|].
  repeat first [apply preserves_buildService
               |by apply preserves_recordCall|pres_step].
Qed.

Lemma preserves_buildCatalogFor name : preserves (buildCatalogFor' name).
Proof.
  unfold buildCatalogFor.
  apply preserves_bind; [eauto with pres|]. intros b.
  destruct (_ && _); [eauto with pres|].
  repeat first [apply preserves_providerService|pres_step].
Qed.

Lemma buildCatalog_unfold s :
  buildCatalog' s = forM_ providerNames buildCatalogFor' (withNewCatalog s).
Proof. reflexivity. Qed.

Lemma stable_withNewCatalog s : stable s (withNewCatalog s).
Proof.
  split; simpl; try done.
  - exists []. by rewrite app_nil_r.
  - exists []. by rewrite app_nil_r.
Qed.

Lemma preserves_buildCatalog : preserves buildCatalog'.
Proof.
  intros s s' o. rewrite buildCatalog_unfold. intros H.
  eapply stable_trans; [apply stable_withNewCatalog|].
  revert H. apply preserves_forM_. apply preserves_buildCatalogFor.
Qed.

Local Abbreviation published' :=
  (published url_Parse_noPath GetProvider FromEnv DefaultCtx yamlDecode).

Lemma static_hasPrefix provider :
  Forall (hasPrefix (provName provider)) (buildPlansForProviderStatic provider).
Proof.
  unfold buildPlansForProviderStatic. apply Forall_fmap, Forall_true.
  intros sz. unfold hasPrefix, compose. simpl.
  rewrite planIDForInstanceSize_unfold. unfold planPrefix.
  eexists. rewrite !append_assoc. reflexivity.
Qed.

Lemma autoPlan_hasPrefix provider sz g k :
  hasPrefix (provName provider) (autoPlan provider sz g k).
Proof.
  unfold hasPrefix. simpl. rewrite planIDForInstanceSize_unfold.
  unfold planPrefix. eexists. rewrite !append_assoc. reflexivity.
Qed.

(** A service that was built: the broker is as before, and the identifiers
    are those of the provider. *)
Lemma buildService_ok provider s s' svc :
  buildService' provider s = (s', Ok svc) ->
  broker s' = broker s /\
  svcID svc = serviceIDForProvider (provName provider) /\
  Forall (hasPrefix (provName provider)) (svcPlans svc).
Proof.
  unfold buildService. intros (s1 & plans & Hp & [= <- <-])%bind_ok_inv.
  simpl. cut (broker s1 = broker s /\ Forall (hasPrefix (provName provider)) plans).
  { intros [? ?]. done. }
  revert Hp. unfold buildPlansForProvider.
  rewrite (bind_ok _ _ s s (broker s)) by done.
  destruct (mode (broker s)).
  - intros [= <- <-]. split; [done|]. apply static_hasPrefix.
  - done.
  - unfold buildPlansForProviderAuto.
    rewrite (bind_ok _ _ s s (broker s)) by done.
    destruct (credentials (broker s)) as [creds|].
    + intros [= <- <-]. split; [done|].
      apply Forall_bind, Forall_true. intros sz.
      apply Forall_fmap, Forall_true. intros [g k]. apply autoPlan_hasPrefix.
    + destruct (_ <$> _); [|done]. intros [= <- <-]. done.
  - unfold buildPlansForProviderDynamic.
    rewrite (bind_ok _ _ s s (broker s)) by done.
    destruct FromEnv as [ts|err]; [|done].
    rewrite (bind_ok _ _ s s ts) by done.
    destruct (dynamicLoop_writer provider
                (dynamicCtx DefaultCtx (broker s) provider) ts)
      as (l & plans' & H & Hpre).
    rewrite H. intros [= <- <-]. done.
Qed.

Lemma providerService_services name s s' svc c :
  bcatalog (broker s) = Some c ->
  providerService' name s = (s', Ok svc) ->
  exists c', bcatalog (broker s') = Some c' /\ services c' = services c.
Proof.
  intros Hc. unfold providerService.
  rewrite (bind_ok _ _ s s (broker s)) by done.
  destruct (decide (name = "TENANT")); [intros [= <- _]; eauto|].
  intros (s1 & u & Hu & H)%bind_ok_inv.
  assert (s1 = s) as ->.
  { destruct (url_Parse_noPath _); [|done]. by injection Hu. }
  apply bind_ok_inv in H as (s2 & [] & [= <-] & H).
  apply bind_ok_inv in H as (s3 & provider & Hg & H).
  destruct (GetProvider _ _); [|done]. injection Hg as <- <-.
  apply bind_ok_inv in H as (s4 & svc' & Hs & H).
  apply buildService_ok in Hs as (Hb & _ & _).
  apply bind_ok_inv in H as (s5 & [] & (c4 & Hc4 & ->)%modifyCatalog_ok & [= <- _]).
  simpl. eexists. split; [done|]. simpl.
  rewrite Hb in Hc4. simpl in Hc4. congruence.
Qed.

Lemma providerService_ids name s s' svc :
  faithful GetProvider ->
  providerService' name s = (s', Ok svc) ->
  svcID svc = serviceIDForProvider name /\ Forall (hasPrefix name) (svcPlans svc).
Proof.
  intros Hf. unfold providerService.
  rewrite (bind_ok _ _ s s (broker s)) by done.
  destruct (decide (name = "TENANT")) as [->|].
  { intros [= _ <-]. split; [done|].
    repeat constructor; eexists; reflexivity. }
  intros (s1 & u & Hu & H)%bind_ok_inv.
  apply bind_ok_inv in H as (s2 & [] & _ & H).
  apply bind_ok_inv in H as (s3 & provider & Hg & H).
  assert (provName provider = name) as Hn.
  { destruct (GetProvider _ _) eqn:E; [|done]. injection Hg as _ ->. eauto. }
  apply bind_ok_inv in H as (s4 & svc' & Hs & H).
  apply buildService_ok in Hs as (_ & Hid & Hpre). rewrite Hn in Hid, Hpre.
  apply bind_ok_inv in H as (s5 & [] & _ & [= _ <-]). done.
Qed.

Lemma forM_addPlan_ok ps s s' c :
  bcatalog (broker s) = Some c ->
  forM_ ps (fun p => modifyCatalog (addPlan p)) s = (s', Ok tt) ->
  stable s s' /\
  exists c', bcatalog (broker s') = Some c' /\ services c' = services c.
Proof.
  revert s c. induction ps as [|p ps IH]; intros s c Hc; simpl.
  { intros [= <-]. split; [apply stable_refl|eauto]. }
  intros (s1 & [] & H1 & H)%bind_ok_inv.
  pose proof (preserves_modifyCatalog _ _ _ _ H1) as St.
  apply modifyCatalog_ok in H1 as (c1 & Hc1 & ->).
  eapply IH in H as (St' & c' & Hc' & Hs); [|done].
  split; [by eapply stable_trans|].
  eexists. split; [done|]. rewrite Hs. simpl. congruence.
Qed.

(** One turn of the loop, when it ends well: a provider that passes the
    whitelist adds its service at the end of the list, any other adds
    nothing. *)
Lemma buildCatalogFor_ok s0 name s s' c :
  stable s0 s ->
  bcatalog (broker s) = Some c ->
  buildCatalogFor' name s = (s', Ok tt) ->
  exists c' svcs,
    bcatalog (broker s') = Some c' /\
    services c' = services c ++ svcs /\
    Forall2 (published' s0) (whitelistedNames (whitelist (broker s0)) [name]) svcs.
Proof.
  intros St0 Hc. unfold buildCatalogFor.
  rewrite (bind_ok _ _ s s (broker s)) by done.
  pose proof (stable_whitelist _ _ St0) as Hw.
  destruct (whitelist (broker s)) as [wl|] eqn:Ewl; simpl.
  - rewrite <- Hw. simpl. rewrite filter_cons, filter_nil.
    destruct (wl !! name) as [names|] eqn:En; simpl.
    + intros (s1 & svc0 & Hsvc & H)%bind_ok_inv.
      destruct (providerService_services _ _ _ _ _ Hc Hsvc) as (c1 & Hc1 & Hs1).
      apply bind_ok_inv in H as (s2 & [] & Hp & H).
      eapply forM_addPlan_ok in Hp as (_ & c2 & Hc2 & Hs2); [|done].
      apply modifyCatalog_ok in H as (c3 & Hc3 & ->).
      eexists _, [_]. split; [done|]. simpl. split.
      * f_equal. congruence.
      * constructor; [|constructor].
        exists s, s1, svc0. rewrite <- Hw, En. done.
    + intros [= <-]. exists c, []. by rewrite app_nil_r.
  - rewrite <- Hw. simpl.
    intros (s1 & svc0 & Hsvc & H)%bind_ok_inv.
    destruct (providerService_services _ _ _ _ _ Hc Hsvc) as (c1 & Hc1 & Hs1).
    apply bind_ok_inv in H as (s2 & [] & Hp & H).
    eapply forM_addPlan_ok in Hp as (_ & c2 & Hc2 & Hs2); [|done].
    apply modifyCatalog_ok in H as (c3 & Hc3 & ->).
    eexists _, [_]. split; [done|]. simpl. split.
    + f_equal. congruence.
    + constructor; [|constructor].
      exists s, s1, svc0. rewrite <- Hw. done.
Qed.

Lemma whitelistedNames_cons wl name names :
  whitelistedNames wl (name :: names)
  = whitelistedNames wl [name] ++ whitelistedNames wl names.
Proof.
  destruct wl as [w|]; simpl; [|done].
  rewrite !filter_cons, filter_nil. by destruct (decide _).
Qed.

Lemma buildCatalog_loop_ok s0 names s s' c :
  stable s0 s ->
  bcatalog (broker s) = Some c ->
  forM_ names buildCatalogFor' s = (s', Ok tt) ->
  exists c' svcs,
    bcatalog (broker s') = Some c' /\
    services c' = services c ++ svcs /\
    Forall2 (published' s0) (whitelistedNames (whitelist (broker s0)) names) svcs.
Proof.
  revert s c. induction names as [|name names IH]; intros s c St Hc; simpl.
  { intros [= <-]. exists c, []. rewrite app_nil_r.
    split; [done|]. split; [done|]. destruct (whitelist _); constructor. }
  intros (s1 & [] & H1 & H)%bind_ok_inv.
  pose proof (preserves_buildCatalogFor _ _ _ _ H1) as St1.
  eapply buildCatalogFor_ok in H1 as (c1 & svcs1 & Hc1 & Hs1 & F1); [|done..].
  eapply IH in H as (c2 & svcs2 & Hc2 & Hs2 & F2);
    [|by eapply stable_trans|done].
  exists c2, (svcs1 ++ svcs2). split; [done|]. split.
  - by rewrite Hs2, Hs1, app_assoc.
  - rewrite whitelistedNames_cons. by apply Forall2_app.
Qed.

(** What a successful build publishes: one service for each provider name
    that passes the whitelist, in the order of [providerNames]. *)
Lemma buildCatalog_ok s s' :
  buildCatalog' s = (s', Ok tt) ->
  exists c,
    bcatalog (broker s') = Some c /\
    Forall2 (published' s)
            (whitelistedNames (whitelist (broker s)) providerNames) (services c).
Proof.
  rewrite buildCatalog_unfold. intros H.
  eapply (buildCatalog_loop_ok (withNewCatalog s)) in H
    as (c & svcs & Hc & Hs & F); [|apply stable_refl|done].
  exists c. split; [done|]. simpl in Hs. rewrite Hs.
  eapply Forall2_impl; [done|].
  intros name svc (st & st' & svc0 & St & Hsvc & ->).
  exists st, st', svc0. split; [|done].
  eapply stable_trans; [apply stable_withNewCatalog|done].
Qed.

Lemma Forall2_and_l {A B} (P : A -> B -> Prop) (Q : A -> Prop) l k :
  Forall2 P l k -> Forall Q l -> Forall2 (fun x y => Q x /\ P x y) l k.
Proof.
  induction 1 as [|x y l k HP HF IH]; [constructor|].
  intros [HQ HQs]%Forall_cons. constructor; auto.
Qed.

Lemma whitelistedNames_app wl l1 l2 :
  whitelistedNames wl (l1 ++ l2) = whitelistedNames wl l1 ++ whitelistedNames wl l2.
Proof. destruct wl; simpl; [apply filter_app|done]. Qed.

Lemma providerService_tenant st st' svc :
  providerService' "TENANT" st = (st', Ok svc) -> svc = sharedService.
Proof. by intros [= _ <-]. Qed.

(** C8.  The service of the shared provider is the hardcoded one, with its
    two plans M2 and M5; whatever the mode and however the build ends, the
    backend is not asked for that provider; and a successful build that
    does not leave the shared provider out publishes the hardcoded service
    last, with the whitelist, if any, applied to its two plans. *)
Theorem tenant_service_hardcoded s s' o :
  buildCatalog' s = (s', o) ->
  ((fun p => (spName p, spID p)) <$> svcPlans sharedService
   = [("M2", "aosb-cluster-plan-tenant-m2"); ("M5", "aosb-cluster-plan-tenant-m5")]) /\
  (exists new, backendCalls s' = backendCalls s ++ new /\ Forall notTenant new) /\
  (o = Ok tt ->
   exists c, bcatalog (broker s') = Some c /\
     match whitelist (broker s) with
     | None => last (services c) = Some sharedService
     | Some wl =>
       forall names, wl !! "TENANT" = Some names ->
         last (services c)
         = Some (withPlans sharedService
                   (filter (fun p => spName p ∈ names) (svcPlans sharedService)))
     end).
Proof.
  intros H. split; [done|]. split.
  { by destruct (preserves_buildCatalog _ _ _ H). }
  intros ->. apply buildCatalog_ok in H as (c & Hc & F).
  exists c. split; [done|].
  change providerNames with (["AWS"; "GCP"; "AZURE"] ++ ["TENANT"]) in F.
  rewrite whitelistedNames_app in F. unfold published in F.
  destruct (whitelist (broker s)) as [wl|]; cbn [whitelistedNames] in F.
  - intros names Hn.
    apply Forall2_app_inv_l in F as (k1 & k2 & _ & F & ->).
    rewrite filter_cons, filter_nil, decide_True in F by eauto.
    apply Forall2_cons_inv_l in F as (svc & k & (st & st' & svc0 & _ & Hs & ->) & ->%Forall2_nil_inv_l & ->).
    apply providerService_tenant in Hs as ->. rewrite Hn. apply last_snoc.
  - apply Forall2_app_inv_l in F as (k1 & k2 & _ & F & ->).
    apply Forall2_cons_inv_l in F as (svc & k & (st & st' & svc0 & _ & Hs & ->) & ->%Forall2_nil_inv_l & ->).
    apply providerService_tenant in Hs as ->. apply last_snoc.
Qed.

Lemma providerNames_distinct n n' r r' :
  n ∈ providerNames -> n' ∈ providerNames ->
  (serviceIDForProvider n = serviceIDForProvider n' \/
   planPrefix n +:+ r = planPrefix n' +:+ r') ->
  n = n'.
Proof.
  unfold providerNames. rewrite !elem_of_cons, !elem_of_nil.
  intros [->|[->|[->|[->|[]]]]] [->|[->|[->|[->|[]]]]]; try done;
    (intros [H|H]; vm_compute in H; discriminate H).
Qed.

(** Services built for different provider names: their identifiers differ,
    and so do the identifiers of their plans. *)
Lemma tagged_NoDup names (svcs : list Service) :
  Forall2 (fun n svc => n ∈ providerNames /\
                        svcID svc = serviceIDForProvider n /\
                        Forall (hasPrefix n) (svcPlans svc)) names svcs ->
  NoDup names ->
  NoDup (svcID <$> svcs) /\
  (NoDup (svc ← svcs; spID <$> svcPlans svc) <->
   Forall (fun svc => NoDup (spID <$> svcPlans svc)) svcs) /\
  (forall id, id ∈ (svcID <$> svcs) ->
     exists n, n ∈ names /\ id = serviceIDForProvider n) /\
  (forall id, id ∈ (svc ← svcs; spID <$> svcPlans svc) ->
     exists n r, n ∈ names /\ id = planPrefix n +:+ r).
Proof.
  induction 1 as [|n svc names svcs (Hn & Hid & Hpre) F IH].
  { intros _. split; [constructor|]. split; [|split].
    - split; constructor.
    - intros id []%elem_of_nil.
    - intros id []%elem_of_nil. }
  intros [Hnin Hnd]%NoDup_cons.
  destruct (IH Hnd) as (IH1 & IH2 & IH3 & IH4).
  assert (forall n', n' ∈ names -> n' ∈ providerNames) as Hin.
  { clear -F. induction F as [|???? (?&_) ? IHF]; intros n' Hn'.
    - by apply elem_of_nil in Hn'.
    - apply elem_of_cons in Hn' as [->|?]; auto. }
  split; [|split; [|split]].
  - simpl. apply NoDup_cons. split; [|done].
    intros (n' & Hn' & E)%IH3. rewrite Hid in E.
    apply Hnin. erewrite (providerNames_distinct n n' "" ""); eauto.
  - rewrite bind_cons, Forall_cons, NoDup_app, IH2.
    split; [intros (? & _ & ?); done|]. intros [? ?]. split; [done|].
    split; [|done].
    intros id (p & -> & Hp)%list_elem_of_fmap (n' & r' & Hn' & E)%IH4.
    eapply Forall_forall in Hpre as [r Hr]; [|done]. rewrite Hr in E.
    apply Hnin. erewrite (providerNames_distinct n n'); eauto.
  - simpl. intros id [->|(n' & ? & ?)%IH3]%elem_of_cons.
    + exists n. split; [left|done].
    + exists n'. split; [by right|done].
  - rewrite bind_cons. intros id [Hp|(n' & r' & ? & ?)%IH4]%elem_of_app.
    + apply list_elem_of_fmap in Hp as (p & -> & Hp).
      eapply Forall_forall in Hpre as [r Hr]; [|done].
      exists n, r. split; [left|done].
    + exists n', r'. split; [by right|done].
Qed.

(** Plans of services built for different provider names have different
    identifiers, whatever the plans of one service look like. *)
Lemma tagged_disjoint names (svcs : list Service) :
  Forall2 (fun n svc => n ∈ providerNames /\
                        svcID svc = serviceIDForProvider n /\
                        Forall (hasPrefix n) (svcPlans svc)) names svcs ->
  NoDup names ->
  forall i j svc1 svc2 p1 p2,
    i <> j ->
    svcs !! i = Some svc1 -> svcs !! j = Some svc2 ->
    p1 ∈ svcPlans svc1 -> p2 ∈ svcPlans svc2 ->
    spID p1 <> spID p2.
Proof.
  intros F Hnd i j svc1 svc2 p1 p2 Hij H1 H2 Hp1 Hp2 E.
  destruct (Forall2_lookup_r _ _ _ _ _ F H1) as (n1 & Hn1 & Hin1 & _ & Hpre1).
  destruct (Forall2_lookup_r _ _ _ _ _ F H2) as (n2 & Hn2 & Hin2 & _ & Hpre2).
  eapply Forall_forall in Hpre1 as [r1 Hr1]; [|done].
  eapply Forall_forall in Hpre2 as [r2 Hr2]; [|done].
  rewrite Hr1, Hr2 in E.
  assert (n1 = n2) as -> by (eapply providerNames_distinct; eauto).
  apply Hij. by eapply NoDup_lookup.
Qed.

(** C2 (amended).  When the backend answers with the provider it was asked
    for, a successful build gives services with pairwise distinct
    identifiers, and plans of different services never share an identifier,
    whatever the plans inside one service are; the plan identifiers of the
    whole catalog are therefore pairwise distinct exactly when those of each
    single service are. *)
Theorem catalog_ids_unique_across_services s s' :
  faithful GetProvider ->
  buildCatalog' s = (s', Ok tt) ->
  exists c,
    bcatalog (broker s') = Some c /\
    NoDup (serviceIDs c) /\
    (forall i j svc1 svc2 p1 p2,
       i <> j ->
       services c !! i = Some svc1 -> services c !! j = Some svc2 ->
       p1 ∈ svcPlans svc1 -> p2 ∈ svcPlans svc2 ->
       spID p1 <> spID p2) /\
    (NoDup (planIDs c) <->
     Forall (fun svc => NoDup (spID <$> svcPlans svc)) (services c)).
Proof.
  intros Hf (c & Hc & F)%buildCatalog_ok. exists c. split; [done|].
  assert (NoDup providerNames) as Hnd.
  { compute_done. }
  assert (whitelistedNames (whitelist (broker s)) providerNames ⊆ providerNames
          /\ NoDup (whitelistedNames (whitelist (broker s)) providerNames))
    as [Hsub Hnd'].
  { destruct (whitelist (broker s)); simpl; [|done]. split.
    - intros x [_ ?]%list_elem_of_filter. done.
    - by apply NoDup_filter. }
  eapply Forall2_and_l with (Q := fun n => n ∈ providerNames) in F;
    [|apply Forall_forall; auto].
  eapply Forall2_impl in F.
  - destruct (tagged_NoDup _ _ F Hnd') as (H1 & H2 & _).
    split; [done|]. split; [|done]. by apply (tagged_disjoint _ _ F Hnd').
  - simpl. intros n svc [Hn (st & st' & svc0 & _ & Hs & ->)].
    split; [done|]. apply (providerService_ids _ _ _ _ Hf) in Hs as [Hid Hpre].
    destruct (whitelist (broker s)); simpl; [|done]. split; [done|].
    apply Forall_forall. intros p [_ Hp]%list_elem_of_filter.
    eapply Forall_forall in Hpre; done.
Qed.

End CatalogProperties.

(** ** Dynamic plans *)

Section DynamicProperties.

Variable DefaultCtx : option Credentials -> Context.
Variable yamlDecode : string -> Fallible Plan.

Local Abbreviation dynamicLoop' := (dynamicLoop yamlDecode).
Local Abbreviation dynamicPlans' ts :=
  (buildPlansForProviderDynamic (Success ts) DefaultCtx yamlDecode).

Lemma dynamicPlans_unfold ts provider s :
  dynamicPlans' ts provider s
  = dynamicLoop' provider (dynamicCtx DefaultCtx (broker s) provider) ts [] s.
Proof. reflexivity. Qed.

Lemma dynamicLoop_app provider ctx ts1 ts2 acc s :
  dynamicLoop' provider ctx (ts1 ++ ts2) acc s
  = (plans <- dynamicLoop' provider ctx ts1 acc ;;
     dynamicLoop' provider ctx ts2 plans) s.
Proof.
  revert acc s. induction ts1 as [|t ts1 IH]; intros acc s; simpl; [done|].
  destruct (tplExecute t ctx) as [raw|err];
    [|by rewrite bind_assoc, !writeLog_then, IH].
  rewrite bind_assoc, !writeLog_then.
  destruct (yamlDecode raw) as [p|err];
    [|by rewrite bind_assoc, !writeLog_then, IH].
  destruct (validSettings p) as [ps|];
    [|by rewrite bind_assoc, !writeLog_then, IH].
  destruct (negb _ && negb _); by rewrite IH.
Qed.

(** The loop on a list with [t] inside, given what the loop does on [t]
    alone: the entries and plans of the three parts follow one another. *)
Lemma dynamicLoop_middle provider ctx ts1 t ts2 lt pt :
  (forall acc s, dynamicLoop' provider ctx [t] acc s = (addLog s lt, Ok (acc ++ pt))) ->
  exists l1 plans1 l2 plans2,
    (forall acc s, dynamicLoop' provider ctx ts1 acc s
                   = (addLog s l1, Ok (acc ++ plans1))) /\
    (forall acc s, dynamicLoop' provider ctx ts2 acc s
                   = (addLog s l2, Ok (acc ++ plans2))) /\
    (forall acc s, dynamicLoop' provider ctx (ts1 ++ ts2) acc s
                   = (addLog s (l1 ++ l2), Ok (acc ++ plans1 ++ plans2))) /\
    (forall acc s, dynamicLoop' provider ctx (ts1 ++ t :: ts2) acc s
                   = (addLog s (l1 ++ lt ++ l2), Ok (acc ++ plans1 ++ pt ++ plans2))).
Proof.
  intros Ht.
  destruct (dynamicLoop_writer yamlDecode provider ctx ts1) as (l1 & plans1 & H1 & _).
  destruct (dynamicLoop_writer yamlDecode provider ctx ts2) as (l2 & plans2 & H2 & _).
  exists l1, plans1, l2, plans2. split; [done|]. split; [done|]. split.
  - intros acc s. rewrite dynamicLoop_app. erewrite bind_ok by apply H1.
    by rewrite H2, addLog_app, app_assoc.
  - intros acc s. rewrite dynamicLoop_app. erewrite bind_ok by apply H1.
    change (t :: ts2) with ([t] ++ ts2).
    rewrite dynamicLoop_app. erewrite bind_ok by apply Ht.
    rewrite H2, !addLog_app. by rewrite <- !app_assoc.
Qed.

Lemma faulty_alone provider ctx t :
  faulty yamlDecode ctx t = true ->
  exists lt, Exists (reportsError (tplName t)) lt /\
    forall acc s, dynamicLoop' provider ctx [t] acc s = (addLog s lt, Ok (acc ++ [])).
Proof.
  unfold faulty. simpl. destruct (tplExecute t ctx) as [raw|err].
  2:{ intros _. eexists. split; cycle 1.
      - intros acc s. rewrite writeLog_then, app_nil_r. reflexivity.
      - left. split; [done|]. simpl. left. }
  destruct (yamlDecode raw) as [p|err].
  2:{ intros _. eexists. split; cycle 1.
      - intros acc s. rewrite !writeLog_then, addLog_app, app_nil_r.
        reflexivity.
      - right. left. split; [done|]. simpl. right. left. }
  intros ->%bool_decide_eq_true. eexists. split; cycle 1.
  - intros acc s. rewrite !writeLog_then, addLog_app, app_nil_r. reflexivity.
  - right. left. split; [done|]. simpl. right. left.
Qed.

(** C6.  In [DynamicPlans] mode, a template that is faulty for the provider
    at hand (its rendering fails, its text does not decode, or the decoded
    plan has no cluster, no provider settings or an empty instance-size
    name) does not stop the construction: the plans of the provider are
    built, an error entry naming the template is in the log, the plans are
    those that the other templates give without it, and the service of the
    provider is built with them. *)
Theorem dynamic_faulty_template_skipped provider s ts1 t ts2 :
  mode (broker s) = DynamicPlans ->
  faulty yamlDecode (dynamicCtx DefaultCtx (broker s) provider) t = true ->
  exists l plans,
    dynamicPlans' (ts1 ++ t :: ts2) provider s = (addLog s l, Ok plans) /\
    Exists (reportsError (tplName t)) l /\
    (dynamicPlans' (ts1 ++ ts2) provider s).2 = Ok plans /\
    exists svc,
      buildService (Success (ts1 ++ t :: ts2)) DefaultCtx yamlDecode provider s
      = (addLog s l, Ok svc) /\
      svcPlans svc = plans.
Proof.
  intros Hm (lt & Hlt & Ht)%(faulty_alone provider).
  destruct (dynamicLoop_middle _ _ ts1 t ts2 _ _ Ht)
    as (l1 & plans1 & l2 & plans2 & _ & _ & Hwithout & Hwith).
  exists (l1 ++ lt ++ l2), (plans1 ++ plans2).
  assert (dynamicPlans' (ts1 ++ t :: ts2) provider s
          = (addLog s (l1 ++ lt ++ l2), Ok (plans1 ++ plans2))) as Hrun.
  { by rewrite dynamicPlans_unfold, Hwith. }
  split; [done|]. split.
  { apply Exists_app. right. apply Exists_app. by left. }
  split.
  { by rewrite dynamicPlans_unfold, Hwithout. }
  eexists. unfold buildService, buildPlansForProvider.
  erewrite bind_ok; [|by rewrite (bind_ok _ _ s s (broker s)), Hm].
  done.
Qed.

(** C7.  A template that decodes, for [provider], to a valid plan naming
    another provider gives [provider] no plan and no error: the call
    returns the plans of the other templates, and the template adds to the
    log the entry of its rendering alone.  The same template, decoding for
    [other] to a valid plan that names [other], gives [other] its plan, at
    the template's place among the plans. *)
Theorem dynamic_template_provider_mismatch
  provider other s ts1 t ts2 raw p ps raw' p' ps' :
  tplExecute t (dynamicCtx DefaultCtx (broker s) provider) = Success raw ->
  yamlDecode raw = Success p ->
  validSettings p = Some ps ->
  ProviderName ps <> EmptyString ->
  ProviderName ps <> provName provider ->
  tplExecute t (dynamicCtx DefaultCtx (broker s) other) = Success raw' ->
  yamlDecode raw' = Success p' ->
  validSettings p' = Some ps' ->
  ProviderName ps' = provName other ->
  (exists l1 plans1 l2 plans2,
     dynamicPlans' ts1 provider s = (addLog s l1, Ok plans1) /\
     dynamicPlans' ts2 provider s = (addLog s l2, Ok plans2) /\
     dynamicPlans' (ts1 ++ t :: ts2) provider s
     = (addLog s (l1 ++ [parsedEntry raw] ++ l2), Ok (plans1 ++ plans2))) /\
  (exists l1 plans1 l2 plans2,
     dynamicPlans' ts1 other s = (addLog s l1, Ok plans1) /\
     dynamicPlans' ts2 other s = (addLog s l2, Ok plans2) /\
     dynamicPlans' (ts1 ++ t :: ts2) other s
     = (addLog s (l1 ++ [parsedEntry raw'] ++ l2),
        Ok (plans1 ++ [dynamicPlan other t p' (InstanceSizeName ps')] ++ plans2))).
Proof.
  intros Hr Hd Hv Hne Hmis Hr' Hd' Hv' Hsame. split.
  - destruct (dynamicLoop_middle provider
                (dynamicCtx DefaultCtx (broker s) provider) ts1 t ts2
                [parsedEntry raw] [])
      as (l1 & plans1 & l2 & plans2 & H1 & H2 & _ & Hwith).
    { intros acc st. simpl. rewrite Hr, writeLog_then, Hd, Hv.
      rewrite !bool_decide_eq_false_2 by done. simpl. by rewrite app_nil_r. }
    exists l1, plans1, l2, plans2. rewrite !dynamicPlans_unfold.
    by rewrite H1, H2, Hwith.
  - destruct (dynamicLoop_middle other
                (dynamicCtx DefaultCtx (broker s) other) ts1 t ts2
                [parsedEntry raw'] [dynamicPlan other t p' (InstanceSizeName ps')])
      as (l1 & plans1 & l2 & plans2 & H1 & H2 & _ & Hwith).
    { intros acc st. simpl. rewrite Hr', writeLog_then, Hd', Hv'.
      rewrite (bool_decide_eq_true_2 (ProviderName ps' = provName other)) by done.
      by rewrite andb_false_r. }
    exists l1, plans1, l2, plans2. rewrite !dynamicPlans_unfold.
    by rewrite H1, H2, Hwith.
Qed.

End DynamicProperties.

(** ** The tenant and credential resolver *)

Section ResolverProperties.

Variable DefaultCtx : option Credentials -> Context.
Variable yamlDecode : string -> Fallible Plan.
Variable jsonUnmarshal : string -> Context -> Fallible Context.
Variable GetInstance : string -> Fallible Instance.
Variable context : Type.
Variable AtlasClient : Type.
Variable HTTPClient : Type.
Variable atlasClientFromContext : context -> Fallible AtlasClient.
Variable groupIDFromContext : context -> string * option Error.
Variable digestClient : string -> string -> Fallible HTTPClient.
Variable mongodbatlas_New : HTTPClient -> string -> Fallible AtlasClient.
Variable findGroupIDByPlanID : catalog -> string -> string * option Error.

Local Abbreviation parsePlan' := (parsePlan DefaultCtx yamlDecode jsonUnmarshal).
Local Abbreviation getGroupIDByInstanceID' := (getGroupIDByInstanceID GetInstance).
Local Abbreviation clientFor' :=
  (clientFor AtlasClient HTTPClient digestClient mongodbatlas_New).
Local Abbreviation getClient' :=
  (getClient DefaultCtx yamlDecode jsonUnmarshal GetInstance
     context AtlasClient HTTPClient atlasClientFromContext groupIDFromContext
     digestClient mongodbatlas_New findGroupIDByPlanID).

Lemma preserves_parsePlan planID rawParams : preserves (parsePlan' planID rawParams).
Proof. unfold parsePlan. repeat pres_step. Qed.

Lemma getGroupID_recorded instanceID tenant s :
  recordsTenant GetInstance instanceID tenant ->
  getGroupIDByInstanceID' instanceID s = (s, Ok tenant).
Proof.
  intros (i & doc & Hi & Hd & Hg & _).
  unfold getGroupIDByInstanceID, getInstanceState, catchErr, bind.
  rewrite Hi. simpl. rewrite Hd. simpl. by rewrite Hg.
Qed.

Lemma getGroupID_noMetadata instanceID s :
  noMetadata GetInstance instanceID ->
  getGroupIDByInstanceID' instanceID s = (s, Ok EmptyString).
Proof.
  intros Hi. unfold getGroupIDByInstanceID, getInstanceState, catchErr, bind.
  by rewrite Hi.
Qed.

(** With credentials at hand, the statements after the [switch] return the
    tenant they were entered with. *)
Lemma clientFor_gid gid s creds :
  credentials (broker s) = Some creds ->
  exists r, clientFor' gid s = (s, Ok r) /\ crGid r = gid.
Proof.
  intros Hc. unfold clientFor. rewrite (bind_ok _ _ s s (broker s)) by done.
  rewrite Hc. destruct (Projects creds !! gid) as [c|]; [|by eexists].
  destruct (digestClient _ _) as [hc|]; [|by eexists].
  destruct (mongodbatlas_New _ _); by eexists.
Qed.

(** C3.  In the [MultiGroup] and [DynamicPlans] modes, with credentials at
    hand.  Whenever the persisted metadata of an instance records a tenant,
    the resolution does what the statements after the [switch] do for that
    tenant, whatever the plan and the request parameters, and returns that
    tenant.  Whenever an instance has no persisted metadata and its request
    declares no tenant, the resolution returns no client, no tenant and the
    error that reports the missing reference.  The two cases stand apart:
    neither needs an instance of the other kind to exist. *)
Theorem getClient_tenant_resolution ctx s creds :
  credentials (broker s) = Some creds ->
  mode (broker s) = MultiGroup \/ mode (broker s) = DynamicPlans ->
  (forall existing tenant planID rawParams,
     recordsTenant GetInstance existing tenant ->
     getClient' ctx existing planID rawParams s = clientFor' tenant s /\
     exists r, getClient' ctx existing planID rawParams s = (s, Ok r) /\
               crGid r = tenant) /\
  (forall fresh planID rawParams,
     noMetadata GetInstance fresh ->
     declaresNoTenant DefaultCtx yamlDecode jsonUnmarshal s planID rawParams ->
     exists s1,
       getClient' ctx fresh planID rawParams s
       = (s1, Ok {| crClient := None; crGid := EmptyString;
                    crErr := Some (missingTenantReference (mode (broker s))) |})).
Proof.
  intros Hc Hm. split.
  - intros existing tenant p r Hrec.
    pose proof Hrec as (_ & _ & _ & _ & _ & Hne).
    assert (getClient' ctx existing p r s = clientFor' tenant s) as Hex.
    { unfold getClient.
      rewrite (bind_ok _ _ s s (broker s)) by done.
      destruct Hm as [-> | ->];
        (erewrite bind_ok
           by (unfold catchErr; rewrite (getGroupID_recorded _ _ _ Hrec); done));
        cbv beta iota; by rewrite bool_decide_eq_false_2. }
    split; [done|]. rewrite Hex. by eapply clientFor_gid.
  - intros fresh planID rawParams Hno Hdecl.
    unfold declaresNoTenant in Hdecl. unfold getClient.
    rewrite (bind_ok _ _ s s (broker s)) by done.
    destruct Hm as [Hm | Hm]; rewrite Hm in Hdecl |- *;
      (erewrite bind_ok
         by (unfold catchErr; rewrite (getGroupID_noMetadata _ _ Hno); done));
      simpl.
    + destruct Hdecl as (params & -> & Hp). exists s.
      by rewrite bool_decide_eq_true_2.
    + destruct Hdecl as (s1 & dp & Hpp & Hproj). exists s1.
      erewrite bind_ok by (unfold catchErr; rewrite Hpp; done).
      cbv beta iota. by rewrite Hproj.
Qed.

(** C10.  In [DynamicPlans] mode, for an instance without persisted
    metadata whose plan renders with a project that has an empty
    identifier, the resolution does not report a missing project: it goes on
    with the empty tenant and, when no credentials are stored under the
    empty identifier, fails at the lookup of the credentials for it. *)
Theorem getClient_empty_project_id
  ctx s s1 creds instanceID planID rawParams dp project :
  mode (broker s) = DynamicPlans ->
  noMetadata GetInstance instanceID ->
  parsePlan' planID rawParams s = (s1, Ok dp) ->
  planProject dp = Some project ->
  projID project = EmptyString ->
  credentials (broker s) = Some creds ->
  Projects creds !! EmptyString = None ->
  getClient' ctx instanceID planID rawParams s
  = (s1, Ok {| crClient := None; crGid := EmptyString;
               crErr := Some (ErrCredentialsNotFound EmptyString) |}).
Proof.
  intros Hm Hno Hpp Hproj Hid Hc Hnone.
  pose proof (stable_credentials _ _ (preserves_parsePlan _ _ _ _ _ Hpp)) as Hc1.
  unfold getClient. rewrite (bind_ok _ _ s s (broker s)) by done.
  rewrite Hm.
  erewrite bind_ok
    by (unfold catchErr; rewrite (getGroupID_noMetadata _ _ Hno); done).
  simpl. erewrite bind_ok by (unfold catchErr; rewrite Hpp; done).
  cbv beta iota. rewrite Hproj, Hid. simpl. unfold clientFor.
  rewrite (bind_ok _ _ s1 s1 (broker s1)) by done.
  by rewrite Hc1, Hc, Hnone.
Qed.

End ResolverProperties.

(** ** The statements on the sample deployment *)

(** C2, as stated, fails: two templates that render the same plan name give
    every provider's service two plans with one identifier, and the build
    succeeds. *)
Lemma duplicate_plan_ids_in_catalog :
  let r := buildCatalog Sample.parse Sample.backend
             (Success [Sample.basic; Sample.basicCopy])
             Sample.defaultCtx Sample.yaml (Sample.start None DynamicPlans) in
  r.2 = Ok tt /\
  (planIDs <$> bcatalog (broker r.1))
  = Some ["aosb-cluster-plan-aws-basic"; "aosb-cluster-plan-aws-basic";
          "aosb-cluster-plan-gcp-basic"; "aosb-cluster-plan-gcp-basic";
          "aosb-cluster-plan-azure-basic"; "aosb-cluster-plan-azure-basic";
          "aosb-cluster-plan-tenant-m2"; "aosb-cluster-plan-tenant-m5"] /\
  (exists c, bcatalog (broker r.1) = Some c /\ ~ NoDup (planIDs c)).
Proof.
  intros r.
  assert (r.2 = Ok tt /\
          (planIDs <$> bcatalog (broker r.1))
          = Some ["aosb-cluster-plan-aws-basic"; "aosb-cluster-plan-aws-basic";
                  "aosb-cluster-plan-gcp-basic"; "aosb-cluster-plan-gcp-basic";
                  "aosb-cluster-plan-azure-basic"; "aosb-cluster-plan-azure-basic";
                  "aosb-cluster-plan-tenant-m2"; "aosb-cluster-plan-tenant-m5"])
    as [H1 H2] by (vm_compute; done).
  split; [done|]. split; [done|].
  destruct (bcatalog (broker r.1)) as [c|]; [|done].
  injection H2 as H2. exists c. split; [done|]. rewrite H2.
  intros [H _]%NoDup_cons. apply H. left.
Qed.

Lemma faithful_sample_backend : faithful Sample.backend.
Proof. by intros u name provider [= <-]. Qed.

Lemma catalog_ids_unique_across_services_witness :
  let s' := Sample.built [Sample.basic; Sample.basicCopy] None DynamicPlans in
  exists c,
    bcatalog (broker s') = Some c /\
    NoDup (serviceIDs c) /\
    (forall i j svc1 svc2 p1 p2,
       i <> j ->
       services c !! i = Some svc1 -> services c !! j = Some svc2 ->
       p1 ∈ svcPlans svc1 -> p2 ∈ svcPlans svc2 ->
       spID p1 <> spID p2) /\
    (NoDup (planIDs c) <->
     Forall (fun svc => NoDup (spID <$> svcPlans svc)) (services c)).
Proof.
  apply (catalog_ids_unique_across_services Sample.parse Sample.backend
           (Success [Sample.basic; Sample.basicCopy]) Sample.defaultCtx
           Sample.yaml (Sample.start None DynamicPlans)).
  - apply faithful_sample_backend.
  - vm_compute. reflexivity.
Defined.

(** The branch of [Services] that builds a missing catalog is not reached on
    a broker made by [New], whose catalog is always there.  On a broker put
    together by hand with a nil catalog, and a backend that answers for AWS
    and fails for GCP, the first catalog query returns the error of the
    backend and the second returns the AWS service alone. *)
Remark Services_lazy_branch_on_nil_catalog :
  let services :=
    Services Sample.parse Sample.failingBackend (Success [])
             Sample.defaultCtx Sample.yaml in
  let first := services (Sample.start None BasicAuth) in
  let second := services first.1 in
  first.2 = Err (ErrExternal "provider metadata unavailable") /\
  (serviceIDs <$> bcatalog (broker first.1)) = Some ["aosb-cluster-service-aws"] /\
  (fmap (M := list) svcID <$> (match second.2 with Ok l => Some l | _ => None end))
  = Some ["aosb-cluster-service-aws"].
Proof. vm_compute. done. Qed.

(** Through [New] the same failure ends the process. *)
Example New_exits_on_backend_failure :
  (New Sample.parse Sample.failingBackend (Success []) Sample.defaultCtx
       Sample.yaml (Some Sample.creds) "https://cloud.mongodb.com/api" None
       BasicAuth (Sample.start None BasicAuth)).2 = Exit.
Proof. vm_compute. reflexivity. Qed.

(** The example of the specification: whitelisting M10 for AWS over the
    static catalog leaves the M10 plan of AWS and nothing else. *)
Example whitelist_aws_m10 :
  let s' := Sample.built [] (Some {["AWS" := ["M10"]]}) BasicAuth in
  (serviceIDs <$> bcatalog (broker s')) = Some ["aosb-cluster-service-aws"] /\
  (planIDs <$> bcatalog (broker s')) = Some ["aosb-cluster-plan-aws-m10"] /\
  backendCalls s' = [("https://cloud.mongodb.com/api", "AWS")].
Proof. vm_compute. done. Qed.

Lemma tenant_service_hardcoded_witness :
  let s := Sample.start None DynamicPlans in
  let s' := Sample.built [Sample.basic] None DynamicPlans in
  ((fun p => (spName p, spID p)) <$> svcPlans sharedService
   = [("M2", "aosb-cluster-plan-tenant-m2"); ("M5", "aosb-cluster-plan-tenant-m5")]) /\
  (exists new, backendCalls s' = backendCalls s ++ new /\ Forall notTenant new) /\
  (Ok tt = Ok tt ->
   exists c, bcatalog (broker s') = Some c /\
             last (services c) = Some sharedService).
Proof.
  apply (tenant_service_hardcoded Sample.parse Sample.backend
           (Success [Sample.basic]) Sample.defaultCtx Sample.yaml
           (Sample.start None DynamicPlans)).
  vm_compute. reflexivity.
Defined.

Lemma dynamic_faulty_template_skipped_witness :
  let s := Sample.start None DynamicPlans in
  let aws := Sample.provider "AWS" in
  let plansOf ts :=
    buildPlansForProviderDynamic (Success ts) Sample.defaultCtx Sample.yaml aws s in
  faulty Sample.yaml (dynamicCtx Sample.defaultCtx (broker s) aws) Sample.noSize
  = true /\
  exists l plans,
    plansOf ([Sample.basic] ++ Sample.noSize :: [Sample.awsOnly])
    = (addLog s l, Ok plans) /\
    Exists (reportsError (tplName Sample.noSize)) l /\
    (plansOf ([Sample.basic] ++ [Sample.awsOnly])).2 = Ok plans /\
    exists svc,
      buildService (Success ([Sample.basic] ++ Sample.noSize :: [Sample.awsOnly]))
        Sample.defaultCtx Sample.yaml aws s
      = (addLog s l, Ok svc) /\
      svcPlans svc = plans.
Proof.
  split; [reflexivity|].
  apply (dynamic_faulty_template_skipped Sample.defaultCtx Sample.yaml
           (Sample.provider "AWS") (Sample.start None DynamicPlans)
           [Sample.basic] Sample.noSize [Sample.awsOnly]);
    reflexivity.
Defined.

(** A template whose rendering fails, between two sound ones: the plans are
    those of the two others, and the failure is in the log. *)
Example broken_template_between_sound_ones :
  let r := buildPlansForProviderDynamic
             (Success [Sample.basic; Sample.brokenTemplate "broken.yml.tpl";
                       Sample.awsOnly])
             Sample.defaultCtx Sample.yaml (Sample.provider "AWS")
             (Sample.start None DynamicPlans) in
  (fmap (M := list) spID <$> (match r.2 with Ok l => Some l | _ => None end))
  = Some ["aosb-cluster-plan-aws-basic"; "aosb-cluster-plan-aws-small"] /\
  (logLevel <$> log r.1) = [InfoLevel; ErrorLevel; InfoLevel].
Proof. vm_compute. done. Qed.

Lemma dynamic_template_provider_mismatch_witness :
  let s := Sample.start None DynamicPlans in
  let gcp := Sample.provider "GCP" in
  let aws := Sample.provider "AWS" in
  let raw := "small@AWS" in
  let p := Sample.planOf "small" "AWS" "M10" None in
  let plansOf ts provider :=
    buildPlansForProviderDynamic (Success ts) Sample.defaultCtx Sample.yaml
      provider s in
  (exists l1 plans1 l2 plans2,
     plansOf [Sample.basic] gcp = (addLog s l1, Ok plans1) /\
     plansOf [Sample.noSize] gcp = (addLog s l2, Ok plans2) /\
     plansOf ([Sample.basic] ++ Sample.awsOnly :: [Sample.noSize]) gcp
     = (addLog s (l1 ++ [parsedEntry raw] ++ l2), Ok (plans1 ++ plans2))) /\
  (exists l1 plans1 l2 plans2,
     plansOf [Sample.basic] aws = (addLog s l1, Ok plans1) /\
     plansOf [Sample.noSize] aws = (addLog s l2, Ok plans2) /\
     plansOf ([Sample.basic] ++ Sample.awsOnly :: [Sample.noSize]) aws
     = (addLog s (l1 ++ [parsedEntry raw] ++ l2),
        Ok (plans1 ++ [dynamicPlan aws Sample.awsOnly p "M10"] ++ plans2))).
Proof.
  apply (dynamic_template_provider_mismatch Sample.defaultCtx Sample.yaml
           (Sample.provider "GCP") (Sample.provider "AWS")
           (Sample.start None DynamicPlans)
           [Sample.basic] Sample.awsOnly [Sample.noSize]
           "small@AWS" (Sample.planOf "small" "AWS" "M10" None)
           {| ProviderName := "AWS"; InstanceSizeName := "M10" |}
           "small@AWS" (Sample.planOf "small" "AWS" "M10" None)
           {| ProviderName := "AWS"; InstanceSizeName := "M10" |});
    try reflexivity; simpl; discriminate.
Defined.

Lemma sample_recordsTenant : recordsTenant Sample.store "instance-1" "p1".
Proof. eexists _, _. repeat split; try reflexivity. discriminate. Qed.

(** The first case on a deployment whose only template declares a project,
    the second on a store that holds nothing yet. *)
Lemma getClient_tenant_resolution_witness :
  (let s := Sample.built [Sample.emptyProject] None DynamicPlans in
   forall planID rawParams,
     Sample.resolve s "instance-1" planID rawParams
     = clientFor string string Sample.digest Sample.newAtlas "p1" s /\
     exists r, Sample.resolve s "instance-1" planID rawParams = (s, Ok r) /\
               crGid r = "p1") /\
  (let s := Sample.built [Sample.basic] None DynamicPlans in
   exists s1,
     getClient Sample.defaultCtx Sample.yaml Sample.unmarshal Sample.emptyStore
       unit string string Sample.clientFromContext Sample.groupFromContext
       Sample.digest Sample.newAtlas Sample.findGroup
       tt "instance-1" "aosb-cluster-plan-aws-basic" EmptyString s
     = (s1, Ok {| crClient := None; crGid := EmptyString;
                  crErr := Some ErrMissingProject |})).
Proof.
  split.
  - intros s planID rawParams.
    assert (credentials (broker s) = Some Sample.creds) as Hc
      by (vm_compute; reflexivity).
    assert (mode (broker s) = MultiGroup \/ mode (broker s) = DynamicPlans) as Hm
      by (right; vm_compute; reflexivity).
    exact (proj1 (getClient_tenant_resolution Sample.defaultCtx Sample.yaml
                    Sample.unmarshal Sample.store unit string string
                    Sample.clientFromContext Sample.groupFromContext
                    Sample.digest Sample.newAtlas Sample.findGroup tt
                    s Sample.creds Hc Hm)
             "instance-1" "p1" planID rawParams sample_recordsTenant).
  - intros s.
    assert (credentials (broker s) = Some Sample.creds) as Hc
      by (vm_compute; reflexivity).
    assert (mode (broker s) = DynamicPlans) as Hmd by (vm_compute; reflexivity).
    assert (mode (broker s) = MultiGroup \/ mode (broker s) = DynamicPlans) as Hm
      by (right; exact Hmd).
    pose proof (proj2 (getClient_tenant_resolution Sample.defaultCtx Sample.yaml
                         Sample.unmarshal Sample.emptyStore unit string string
                         Sample.clientFromContext Sample.groupFromContext
                         Sample.digest Sample.newAtlas Sample.findGroup tt
                         s Sample.creds Hc Hm)
                  "instance-1" "aosb-cluster-plan-aws-basic" EmptyString) as H.
    rewrite Hmd in H. apply H; [reflexivity|].
    unfold declaresNoTenant. rewrite Hmd.
    exists (parsePlan Sample.defaultCtx Sample.yaml Sample.unmarshal
              "aosb-cluster-plan-aws-basic" EmptyString s).1,
           (Sample.planOf "basic" EmptyString "M10" None).
    split; [vm_compute; reflexivity|reflexivity].
Defined.

(** The same in [MultiGroup] mode, where the catalog holds the shared
    service alone: empty request parameters name no project. *)
Example multigroup_missing_project_id :
  let s := Sample.built [] (Some {["TENANT" := ["M2"; "M5"]]}) MultiGroup in
  (Sample.resolve s "instance-2" "aosb-cluster-plan-tenant-m2" EmptyString).2
  = Ok {| crClient := None; crGid := EmptyString;
          crErr := Some ErrProjectIDNotFound |} /\
  (Sample.resolve s "instance-1" "aosb-cluster-plan-tenant-m2" "p2").2
  = Ok {| crClient := Some "pub1:priv1@https://cloud.mongodb.com/api";
          crGid := "p1"; crErr := None |}.
Proof. vm_compute. done. Qed.

Lemma getClient_empty_project_id_witness :
  let s := Sample.built [Sample.emptyProject] None DynamicPlans in
  exists s1,
    Sample.resolve s "instance-2" "aosb-cluster-plan-aws-shared" EmptyString
    = (s1, Ok {| crClient := None; crGid := EmptyString;
                 crErr := Some (ErrCredentialsNotFound EmptyString) |}).
Proof.
  eexists.
  apply (getClient_empty_project_id Sample.defaultCtx Sample.yaml
           Sample.unmarshal Sample.store unit string string
           Sample.clientFromContext Sample.groupFromContext
           Sample.digest Sample.newAtlas Sample.findGroup tt
           (Sample.built [Sample.emptyProject] None DynamicPlans)
           (parsePlan Sample.defaultCtx Sample.yaml Sample.unmarshal
              "aosb-cluster-plan-aws-shared" EmptyString
              (Sample.built [Sample.emptyProject] None DynamicPlans)).1
           Sample.creds "instance-2" "aosb-cluster-plan-aws-shared" EmptyString
           (Sample.planOf "shared" EmptyString "M10"
              (Some {| projID := EmptyString |}))
           {| projID := EmptyString |}).
  - vm_compute. reflexivity.
  - reflexivity.
  - vm_compute. reflexivity.
  - reflexivity.
  - reflexivity.
  - vm_compute. reflexivity.
  - vm_compute. reflexivity.
Defined.

(** * Further properties of the code *)

(** ** Identifiers *)

Lemma in_class_lower c : in_class (lower_char c) = in_class c.
Proof. each_byte c. Qed.

Lemma lower_char_idem c : lower_char (lower_char c) = lower_char c.
Proof. each_byte c. Qed.

Lemma replaceRuns_ToLower b s :
  replaceRuns b (ToLower s) = ToLower (replaceRuns b (ToLower s)) /\
  ToLower (replaceRuns b (ToLower s)) = ToLower (replaceRuns b s).
Proof.
  revert b. induction s as [|c s IH]; intros b; simpl; [done|].
  rewrite in_class_lower. destruct (in_class c).
  - simpl. rewrite lower_char_idem. destruct (IH false) as [<- ->]. done.
  - destruct b; [apply IH|]. simpl. destruct (IH true) as [<- ->]. done.
Qed.

Lemma length_ToLower s : String.length (ToLower s) = String.length s.
Proof. induction s as [|c s IH]; simpl; [done|]. by rewrite IH. Qed.

Lemma length_replaceRuns b s :
  String.length (replaceRuns b s) <= String.length s.
Proof.
  revert b. induction s as [|c s IH]; intros b; simpl; [done|].
  destruct (in_class c); simpl.
  - specialize (IH false). lia.
  - destruct b; simpl; specialize (IH true); lia.
Qed.

(** X1.  The fixed points of [normalizeID] are exactly the strings in
    normal form: lower-case letters, digits and hyphens, with single
    underscores in between. *)
Theorem normalizeID_fixed_points (x : string) :
  normalizeID x = x <-> canonical false x = true.
Proof.
  unfold normalizeID, forbiddenSymbols_ReplaceAllString. split.
  - intros <-. apply replaceRuns_canonical.
  - apply canonical_fixed.
Qed.

(** X2.  [normalizeID] never makes a string longer, and it gives the empty
    string for the empty string only. *)
Theorem normalizeID_length (x : string) :
  String.length (normalizeID x) <= String.length x /\
  (normalizeID x = EmptyString <-> x = EmptyString).
Proof.
  unfold normalizeID, forbiddenSymbols_ReplaceAllString. split.
  - rewrite length_ToLower. apply length_replaceRuns.
  - split; [|by intros ->].
    destruct x as [|c x]; [done|]. simpl. by destruct (in_class c).
Qed.

(** X3.  [normalizeID] does not see the case of ASCII letters: a string and
    its lower-case form have the same normal form. *)
Theorem normalizeID_ToLower (x : string) :
  normalizeID (ToLower x) = normalizeID x.
Proof.
  unfold normalizeID, forbiddenSymbols_ReplaceAllString.
  apply replaceRuns_ToLower.
Qed.

(** X4.  Two providers with names made of ASCII bytes get the same service
    identifier exactly when their names agree up to letter case. *)
Theorem serviceIDForProvider_injective_up_to_case (p1 p2 : string) :
  ascii_only p1 = true -> ascii_only p2 = true ->
  serviceIDForProvider p1 = serviceIDForProvider p2 <-> ToLower p1 = ToLower p2.
Proof.
  intros _ _. unfold serviceIDForProvider, idPrefix. split.
  - intros H. simpl in H. by simplify_eq.
  - by intros ->.
Qed.

Lemma serviceIDForProvider_injective_up_to_case_witness :
  (serviceIDForProvider "AWS" = serviceIDForProvider "aws" <->
   ToLower "AWS" = ToLower "aws") /\
  (serviceIDForProvider "AWS" = serviceIDForProvider "AZURE" <->
   ToLower "AWS" = ToLower "AZURE").
Proof.
  split.
  - apply (serviceIDForProvider_injective_up_to_case "AWS" "aws"); reflexivity.
  - apply (serviceIDForProvider_injective_up_to_case "AWS" "AZURE"); reflexivity.
Defined.

(** X5.  On names made of ASCII bytes, the provider names without a hyphen,
    two dynamic plan identifiers are equal exactly when the provider names
    and the plan names agree up to letter case; the plan names may hold
    hyphens. *)
Theorem planIDForDynamicPlan_injective_up_to_case p1 n1 p2 n2 :
  ascii_only p1 = true -> ascii_only n1 = true ->
  ascii_only p2 = true -> ascii_only n2 = true ->
  hyphen_free p1 = true -> hyphen_free p2 = true ->
  planIDForDynamicPlan p1 n1 = planIDForDynamicPlan p2 n2 <->
  ToLower p1 = ToLower p2 /\ ToLower n1 = ToLower n2.
Proof.
  intros _ _ _ _ H1 H2. rewrite <- ToLower_hyphen_free in H1, H2.
  unfold planIDForDynamicPlan, idPrefix. split.
  - intros H. simpl in H. simplify_eq.
    by apply split_at_hyphen.
  - by intros [-> ->].
Qed.

Lemma planIDForDynamicPlan_injective_up_to_case_witness :
  (planIDForDynamicPlan "AWS" "Basic-Plan" = planIDForDynamicPlan "aws" "basic-plan" <->
   ToLower "AWS" = ToLower "aws" /\ ToLower "Basic-Plan" = ToLower "basic-plan") /\
  (planIDForDynamicPlan "AWS" "basic" = planIDForDynamicPlan "AWS" "basic-plan" <->
   ToLower "AWS" = ToLower "AWS" /\ ToLower "basic" = ToLower "basic-plan").
Proof.
  split.
  - apply (planIDForDynamicPlan_injective_up_to_case
             "AWS" "Basic-Plan" "aws" "basic-plan"); reflexivity.
  - apply (planIDForDynamicPlan_injective_up_to_case
             "AWS" "basic" "AWS" "basic-plan"); reflexivity.
Defined.

(** ** The plans of one provider *)

Lemma NoDup_fmap_elem_inj {A B} (f : A -> B) (l : list A) x y :
  NoDup (f <$> l) -> x ∈ l -> y ∈ l -> f x = f y -> x = y.
Proof.
  induction l as [|a l IH]; simpl; [by intros _ ?%elem_of_nil|].
  intros [Ha Hl]%NoDup_cons [->|Hx]%elem_of_cons [->|Hy]%elem_of_cons E; auto.
  - destruct Ha. rewrite E. apply list_elem_of_fmap. eauto.
  - destruct Ha. rewrite <- E. apply list_elem_of_fmap. eauto.
Qed.

Lemma list_fmap_of_bind {A B C} (g : B -> C) (f : A -> list B) (l : list A) :
  g <$> (l ≫= f) = l ≫= (fun x => g <$> f x).
Proof.
  induction l as [|x l IH]; [done|].
  by rewrite !bind_cons, fmap_app, IH.
Qed.

Lemma length_bind_const {A B} (f : A -> list B) (l : list A) n :
  (forall x, length (f x) = n) -> length (l ≫= f) = length l * n.
Proof.
  intros Hf. induction l as [|x l IH]; [done|].
  rewrite bind_cons, length_app, Hf, IH. simpl. lia.
Qed.

(** The identifiers of one provider's plans, read back: the size name up to
    case, and the tenant. *)
Lemma planIDForInstanceSize_same_provider p s1 g1 s2 g2 :
  hyphen_free (isName s1) = true -> hyphen_free (isName s2) = true ->
  planIDForInstanceSize p s1 g1 = planIDForInstanceSize p s2 g2 ->
  ToLower (isName s1) = ToLower (isName s2) /\ g1 = g2.
Proof.
  intros H1 H2. rewrite !planIDForInstanceSize_unfold.
  rewrite <- ToLower_hyphen_free in H1, H2.
  intros H%append_inv_head%append_inv_head%append_inv_head.
  destruct (decide (g1 = EmptyString)) as [->|n1],
           (decide (g2 = EmptyString)) as [->|n2].
  - done.
  - rewrite H, hyphen_free_append in H1. done.
  - rewrite <- H, hyphen_free_append in H2. done.
  - apply split_at_hyphen in H as [? ?]; done.
Qed.

(** X6.  For a provider whose instance sizes have names made of ASCII
    bytes, the static strategy gives one plan for each entry of the
    provider's instance sizes, named after the size (its [Name], not the key
    it is stored under); the identifiers of these plans are pairwise
    distinct exactly when the names are pairwise distinct up to letter
    case. *)
Theorem static_plans_of_provider (provider : Provider) :
  (forall k sz, InstanceSizes provider !! k = Some sz ->
                ascii_only (isName sz) = true) ->
  let plans := buildPlansForProviderStatic provider in
  length plans = size (InstanceSizes provider) /\
  (forall name, name ∈ spName <$> plans <->
     exists k sz, InstanceSizes provider !! k = Some sz /\ isName sz = name) /\
  (NoDup (spID <$> plans) <-> NoDup (ToLower <$> (spName <$> plans))).
Proof.
  intros _. unfold buildPlansForProviderStatic. split; [|split].
  - by rewrite !length_fmap, length_map_to_list.
  - intros name. rewrite <- !list_fmap_compose, list_elem_of_fmap. split.
    + intros ([k sz] & -> & H%elem_of_map_to_list). eauto.
    + intros (k & sz & H%elem_of_map_to_list & <-). by exists (k, sz).
  - rewrite <- !list_fmap_compose.
    set (l := map_to_list (InstanceSizes provider)).
    set (f := fun x : string * InstanceSize => ToLower (isName x.2)).
    match goal with
    | |- NoDup (?g <$> l) <-> _ =>
      assert (g <$> l = (fun n => planPrefix (provName provider) +:+ n)
                        <$> (f <$> l)) as ->
    end.
    { rewrite <- list_fmap_compose.
      apply list_fmap_ext. intros _ [k sz] _. unfold compose, f. simpl.
      rewrite planIDForInstanceSize_unfold. unfold planPrefix.
      by rewrite decide_True, !append_assoc. }
    match goal with
    | |- _ <-> NoDup (?g <$> l) => change (g <$> l) with (f <$> l)
    end.
    apply NoDup_fmap. intros a b. apply append_inv_head.
Qed.

(** X7.  With credentials at hand, the auto strategy returns, without
    touching the state, one plan for each pair of an instance size and a
    configured tenant, and nothing else. *)
Theorem auto_plans_of_provider (provider : Provider) s creds :
  credentials (broker s) = Some creds ->
  exists plans,
    buildPlansForProviderAuto provider s = (s, Ok plans) /\
    length plans = size (InstanceSizes provider) * size (Projects creds) /\
    (forall p, p ∈ plans <->
       exists k sz g key,
         InstanceSizes provider !! k = Some sz /\
         Projects creds !! g = Some key /\
         p = autoPlan provider sz g key).
Proof.
  intros Hc. unfold buildPlansForProviderAuto.
  rewrite (bind_ok _ _ s s (broker s)) by done. rewrite Hc.
  eexists. split; [reflexivity|]. split.
  - erewrite length_bind_const.
    + by rewrite length_fmap, length_map_to_list.
    + intros sz. by rewrite length_fmap, length_map_to_list.
  - intros p. rewrite list_elem_of_bind. split.
    + intros (sz & ([g key] & -> & Hg%elem_of_map_to_list)%list_elem_of_fmap
                 & ([k sz'] & -> & Hk%elem_of_map_to_list)%list_elem_of_fmap).
      by exists k, sz', g, key.
    + intros (k & sz & g & key & Hk%elem_of_map_to_list
                & Hg%elem_of_map_to_list & ->).
      exists sz. split.
      * apply list_elem_of_fmap. by exists (g, key).
      * apply list_elem_of_fmap. by exists (k, sz).
Qed.

Lemma auto_plans_of_provider_witness :
  let s := Sample.start None MultiGroupAutoPlans in
  exists plans,
    buildPlansForProviderAuto (Sample.provider "AWS") s = (s, Ok plans) /\
    length plans = size Sample.sizes * size (Projects Sample.creds) /\
    (forall p, p ∈ plans <->
       exists k sz g key,
         Sample.sizes !! k = Some sz /\
         Projects Sample.creds !! g = Some key /\
         p = autoPlan (Sample.provider "AWS") sz g key).
Proof.
  apply (auto_plans_of_provider (Sample.provider "AWS")
           (Sample.start None MultiGroupAutoPlans) Sample.creds).
  reflexivity.
Defined.

(** X8.  With credentials at hand, when the instance-size names of the
    provider are made of ASCII bytes, hold no hyphen and differ from one
    another by more than letter case, the plans of the auto strategy have
    pairwise distinct identifiers: one tenant never takes the plan of
    another. *)
Theorem auto_plan_ids_distinct (provider : Provider) s creds :
  credentials (broker s) = Some creds ->
  (forall k sz, InstanceSizes provider !! k = Some sz ->
                ascii_only (isName sz) = true) ->
  (forall k sz, InstanceSizes provider !! k = Some sz ->
                hyphen_free (isName sz) = true) ->
  (forall k1 sz1 k2 sz2,
     InstanceSizes provider !! k1 = Some sz1 ->
     InstanceSizes provider !! k2 = Some sz2 ->
     ToLower (isName sz1) = ToLower (isName sz2) -> k1 = k2) ->
  exists plans,
    buildPlansForProviderAuto provider s = (s, Ok plans) /\
    NoDup (spID <$> plans).
Proof.
  intros Hc _ Hhy Hinj. unfold buildPlansForProviderAuto.
  rewrite (bind_ok _ _ s s (broker s)) by done. rewrite Hc.
  eexists. split; [reflexivity|]. rewrite list_fmap_of_bind.
  set (sizes := map_to_list (InstanceSizes provider)).
  assert (NoDup (snd <$> sizes)) as Hnd.
  { apply NoDup_fmap_2_strong; [|apply NoDup_map_to_list].
    intros [k1 sz1] [k2 sz2] H1%elem_of_map_to_list H2%elem_of_map_to_list.
    simpl. intros ->. f_equal. by eapply Hinj. }
  apply NoDup_bind; [| |done].
  - intros sz1 sz2 id
      ([k1 z1] & -> & H1%elem_of_map_to_list)%list_elem_of_fmap
      ([k2 z2] & -> & H2%elem_of_map_to_list)%list_elem_of_fmap
      (p1 & -> & ([g1 key1] & -> & _)%list_elem_of_fmap)%list_elem_of_fmap
      (p2 & E & ([g2 key2] & -> & _)%list_elem_of_fmap)%list_elem_of_fmap.
    simpl in *.
    apply planIDForInstanceSize_same_provider in E as [E _]; [|by eauto..].
    assert (k1 = k2) as -> by by eapply Hinj. congruence.
  - intros sz ([k z] & -> & Hk%elem_of_map_to_list)%list_elem_of_fmap.
    simpl. rewrite <- list_fmap_compose.
    apply NoDup_fmap_2_strong; [|apply NoDup_map_to_list].
    intros [g1 key1] [g2 key2] H1%elem_of_map_to_list H2%elem_of_map_to_list.
    unfold compose. simpl.
    intros [_ ->]%planIDForInstanceSize_same_provider; [|by eauto..].
    congruence.
Qed.

Lemma sample_sizes_lookup k sz :
  Sample.sizes !! k = Some sz ->
  (k = "M10" /\ sz = {| isName := "M10" |}) \/
  (k = "M20" /\ sz = {| isName := "M20" |}).
Proof.
  unfold Sample.sizes.
  destruct (decide (k = "M10")) as [->|];
    [rewrite lookup_insert_eq; intros [= <-]; auto|].
  rewrite lookup_insert_ne by done.
  destruct (decide (k = "M20")) as [->|];
    [rewrite lookup_insert_eq; intros [= <-]; auto|].
  by rewrite lookup_insert_ne.
Qed.

Lemma auto_plan_ids_distinct_witness :
  let s := Sample.start None MultiGroupAutoPlans in
  exists plans,
    buildPlansForProviderAuto (Sample.provider "AWS") s = (s, Ok plans) /\
    NoDup (spID <$> plans).
Proof.
  apply (auto_plan_ids_distinct (Sample.provider "AWS")
           (Sample.start None MultiGroupAutoPlans) Sample.creds).
  - reflexivity.
  - intros k sz [[_ ->]|[_ ->]]%sample_sizes_lookup; reflexivity.
  - intros k sz [[_ ->]|[_ ->]]%sample_sizes_lookup; reflexivity.
  - intros k1 sz1 k2 sz2 [[-> ->]|[-> ->]]%sample_sizes_lookup
                         [[-> ->]|[-> ->]]%sample_sizes_lookup; done.
Defined.

Section MoreDynamic.

Variable DefaultCtx : option Credentials -> Context.
Variable yamlDecode : string -> Fallible Plan.

(** What the loop appends: at most one plan for each template, each with
    the identifier of its name and with the template it came from. *)
Lemma dynamicLoop_plans provider ctx ts :
  exists l plans,
    (forall acc s,
       dynamicLoop yamlDecode provider ctx ts acc s
       = (addLog s l, Ok (acc ++ plans))) /\
    length plans <= length ts /\
    Forall (fun p =>
              spID p = planIDForDynamicPlan (provName provider) (spName p) /\
              exists t md, t ∈ ts /\ spMetadata p = Some md /\
                           mdTemplate md = Some t) plans.
Proof.
  induction ts as [|t ts (l & plans & IH & Hlen & Hall)]; simpl.
  { exists [], []. split; [|split; [done|constructor]]. intros acc s.
    by rewrite addLog_nil, app_nil_r. }
  assert (Forall (fun p =>
            spID p = planIDForDynamicPlan (provName provider) (spName p) /\
            exists t' md, t' ∈ t :: ts /\ spMetadata p = Some md /\
                          mdTemplate md = Some t') plans) as Hall'.
  { eapply Forall_impl; [done|]. intros p (? & t' & md & ? & ? & ?).
    split; [done|]. exists t', md. split; [by right|done]. }
  destruct (tplExecute t ctx) as [raw|err].
  2:{ eexists _, plans. split; [|split; [lia|done]]. intros acc s.
      by rewrite writeLog_then, IH, addLog_app. }
  destruct (yamlDecode raw) as [p|err].
  2:{ eexists _, plans. split; [|split; [lia|done]]. intros acc s.
      by rewrite !writeLog_then, IH, !addLog_app. }
  destruct (validSettings p) as [ps|].
  2:{ eexists _, plans. split; [|split; [lia|done]]. intros acc s.
      by rewrite !writeLog_then, IH, !addLog_app. }
  destruct (negb _ && negb _).
  - eexists _, plans. split; [|split; [lia|done]]. intros acc s.
    by rewrite !writeLog_then, IH, !addLog_app.
  - eexists _, (_ :: plans). split; [|split].
    + intros acc s. rewrite !writeLog_then, IH, !addLog_app.
      by rewrite <- app_assoc.
    + simpl. lia.
    + constructor; [|done]. split; [done|].
      eexists t, _. split; [left|]. done.
Qed.


End MoreDynamic.

(** ** The catalog and its lookups *)

Section MoreCatalog.

Variable url_Parse_noPath : string -> option string.
Variable GetProvider : string -> string -> Fallible Provider.
Variable FromEnv : Fallible (list Template).
Variable DefaultCtx : option Credentials -> Context.
Variable yamlDecode : string -> Fallible Plan.

Local Abbreviation buildService' := (buildService FromEnv DefaultCtx yamlDecode).
Local Abbreviation providerService' :=
  (providerService url_Parse_noPath GetProvider FromEnv DefaultCtx yamlDecode).
Local Abbreviation buildCatalogFor' :=
  (buildCatalogFor url_Parse_noPath GetProvider FromEnv DefaultCtx yamlDecode).
Local Abbreviation buildCatalog' :=
  (buildCatalog url_Parse_noPath GetProvider FromEnv DefaultCtx yamlDecode).
Local Abbreviation Services' :=
  (Services url_Parse_noPath GetProvider FromEnv DefaultCtx yamlDecode).
Local Abbreviation New' :=
  (New url_Parse_noPath GetProvider FromEnv DefaultCtx yamlDecode).

(** Building a service writes to the log and to nothing else, however it
    ends. *)
Lemma buildService_frame provider s s' o :
  buildService' provider s = (s', o) -> exists l, s' = addLog s l.
Proof.
  unfold buildService, buildPlansForProvider, bind at 1.
  rewrite (bind_ok _ _ s s (broker s)) by done.
  destruct (mode (broker s)).
  - intros [= <- _]. exists []. by rewrite addLog_nil.
  - intros [= <- _]. exists []. by rewrite addLog_nil.
  - unfold buildPlansForProviderAuto.
    rewrite (bind_ok _ _ s s (broker s)) by done.
    destruct (credentials (broker s)); [|destruct (_ <$> _)];
      intros [= <- _]; exists []; by rewrite addLog_nil.
  - unfold buildPlansForProviderDynamic.
    rewrite (bind_ok _ _ s s (broker s)) by done.
    destruct FromEnv as [ts|err].
    + rewrite (bind_ok _ _ s s ts) by done.
      destruct (dynamicLoop_writer yamlDecode provider
                  (dynamicCtx DefaultCtx (broker s) provider) ts)
        as (l & plans & H & _).
      rewrite H. intros [= <- _]. eauto.
    + intros [= <- _]. eauto.
Qed.

Lemma buildService_MultiGroup provider s :
  mode (broker s) = MultiGroup ->
  buildService' provider s = (s, Panic "not implemented").
Proof.
  intros Hm. unfold buildService, buildPlansForProvider, bind at 1.
  rewrite (bind_ok _ _ s s (broker s)) by done. by rewrite Hm.
Qed.

Lemma buildService_dynamic provider s s' svc :
  mode (broker s) = DynamicPlans ->
  buildService' provider s = (s', Ok svc) ->
  exists ts, FromEnv = Success ts /\ Forall (templated ts) (svcPlans svc).
Proof.
  intros Hm. unfold buildService, buildPlansForProvider, bind at 1.
  rewrite (bind_ok _ _ s s (broker s)) by done. rewrite Hm.
  unfold buildPlansForProviderDynamic.
  rewrite (bind_ok _ _ s s (broker s)) by done.
  destruct FromEnv as [ts|err]; [|done].
  rewrite (bind_ok _ _ s s ts) by done.
  destruct (dynamicLoop_plans yamlDecode provider
              (dynamicCtx DefaultCtx (broker s) provider) ts)
    as (l & plans & H & _ & Hall).
  rewrite H. intros [= _ <-]. exists ts. split; [done|]. simpl.
  eapply Forall_impl; [done|]. by intros p [_ ?].
Qed.

Lemma buildService_no_err provider s s' e :
  buildService' provider s <> (s', Err e).
Proof.
  unfold buildService, buildPlansForProvider, bind at 1.
  rewrite (bind_ok _ _ s s (broker s)) by done.
  destruct (mode (broker s)); try done.
  - unfold buildPlansForProviderAuto.
    rewrite (bind_ok _ _ s s (broker s)) by done.
    by destruct (credentials (broker s)); [|destruct (_ <$> _)].
  - unfold buildPlansForProviderDynamic.
    rewrite (bind_ok _ _ s s (broker s)) by done.
    destruct FromEnv as [ts|err]; [|done].
    rewrite (bind_ok _ _ s s ts) by done.
    destruct (dynamicLoop_writer yamlDecode provider
                (dynamicCtx DefaultCtx (broker s) provider) ts)
      as (l & plans & H & _).
    by rewrite H.
Qed.

Lemma modifyCatalog_run f s c :
  bcatalog (broker s) = Some c ->
  modifyCatalog f s
  = ({| broker := setCatalog (broker s) (Some (f c));
        log := log s; backendCalls := backendCalls s |}, Ok tt).
Proof.
  intros Hc. unfold modifyCatalog, getCatalog, bind, getBroker, putBroker.
  by rewrite Hc.
Qed.

Lemma forM_addPlan_run ps s c :
  bcatalog (broker s) = Some c ->
  forM_ ps (fun p => modifyCatalog (addPlan p)) s
  = ({| broker := setCatalog (broker s)
                    (Some {| services := services c;
                             plans := indexPlans (plans c) ps;
                             providers := providers c |});
        log := log s; backendCalls := backendCalls s |}, Ok tt).
Proof.
  revert s c. induction ps as [|p ps IH]; intros s c Hc; simpl.
  { unfold ret. destruct s as [b l calls], b, c. simpl in *. by subst. }
  erewrite bind_ok by by apply modifyCatalog_run.
  erewrite IH by done. done.
Qed.

(** What one turn of the loop does when it ends well. *)
Lemma buildCatalogFor_step name s s' c :
  bcatalog (broker s) = Some c ->
  buildCatalogFor' name s = (s', Ok tt) ->
  (s' = s /\ whitelistedNames (whitelist (broker s)) [name] = []) \/
  (exists svc provs l calls,
     whitelistedNames (whitelist (broker s)) [name] = [name] /\
     s' = {| broker := setCatalog (broker s)
                         (Some {| services := services c ++ [svc];
                                  plans := indexPlans (plans c) (svcPlans svc);
                                  providers := provs |});
             log := log s ++ l;
             backendCalls := backendCalls s ++ calls |} /\
     ((name = "TENANT" /\ provs = providers c /\ calls = [] /\
       exists ps, svc = withPlans sharedService ps /\
                  ps ⊆ svcPlans sharedService) \/
      (name <> "TENANT" /\
       exists u provider,
         url_Parse_noPath (baseURL (broker s)) = Some u /\
         GetProvider u name = Success provider /\
         provs = <[svcID svc := provider]> (providers c) /\
         calls = [(u, name)] /\
         mode (broker s) <> MultiGroup /\
         (mode (broker s) = DynamicPlans ->
          exists ts, FromEnv = Success ts /\ Forall (templated ts) (svcPlans svc)) /\
         svcID svc = serviceIDForProvider (provName provider) /\
         Forall (hasPrefix (provName provider)) (svcPlans svc)))).
Proof.
  intros Hc. unfold buildCatalogFor.
  rewrite (bind_ok _ _ s s (broker s)) by done.
  set (entry := whitelist (broker s) ≫= (.!! name)).
  assert (whitelistedNames (whitelist (broker s)) [name]
          = if bool_decide (is_Some (whitelist (broker s)))
               && negb (bool_decide (is_Some entry))
            then [] else [name]) as Hwl.
  { unfold entry. destruct (whitelist (broker s)) as [wl|]; simpl; [|done].
    rewrite filter_cons, filter_nil.
    by destruct (wl !! name). }
  rewrite Hwl. destruct (_ && _).
  { intros [= <-]. by left. }
  intros (s1 & svc0 & Hsvc & H)%bind_ok_inv. right.
  set (svc := if bool_decide (is_Some (whitelist (broker s)))
              then withPlans svc0 (applyWhitelist (svcPlans svc0) (default [] entry))
              else svc0) in *.
  assert (svcID svc = svcID svc0) as Hid by (unfold svc; by destruct (bool_decide _)).
  assert (svcPlans svc ⊆ svcPlans svc0) as Hsub.
  { unfold svc. destruct (bool_decide _); [|done]. simpl.
    intros p [_ ?]%list_elem_of_filter. done. }
  revert Hsvc. unfold providerService.
  rewrite (bind_ok _ _ s s (broker s)) by done.
  destruct (decide (name = "TENANT")) as [->|Hn].
  - intros [= <- <-].
    erewrite bind_ok in H by (by apply forM_addPlan_run).
    erewrite modifyCatalog_run in H by done. injection H as <-.
    eexists svc, _, [], []. split; [done|]. split.
    { simpl. by rewrite !app_nil_r. }
    left. split; [done|]. split; [done|]. split; [done|].
    exists (svcPlans svc). split; [|done].
    unfold svc. by destruct (bool_decide _).
  - intros (s2 & u & Hu & Hrest)%bind_ok_inv.
    destruct (url_Parse_noPath (baseURL (broker s))) as [u'|] eqn:Eu; [|done].
    injection Hu as <- <-.
    apply bind_ok_inv in Hrest as (s3 & [] & [= <-] & Hrest).
    apply bind_ok_inv in Hrest as (s4 & provider & Hg & Hrest).
    destruct (GetProvider u' name) as [prov|] eqn:Eg; [|done].
    injection Hg as <- <-.
    apply bind_ok_inv in Hrest as (s5 & svc' & Hb & Hrest).
    destruct (buildService_frame _ _ _ _ Hb) as (l & ->).
    assert (mode (broker s) <> MultiGroup) as Hmode.
    { intros Hm. rewrite buildService_MultiGroup in Hb by done. done. }
    assert (mode (broker s) = DynamicPlans ->
            exists ts, FromEnv = Success ts /\ Forall (templated ts) (svcPlans svc'))
      as Hdyn0 by (intros Hm; eapply buildService_dynamic; [|exact Hb]; exact Hm).
    apply buildService_ok in Hb as (_ & Hsid & Hpre).
    erewrite bind_ok in Hrest by (by apply modifyCatalog_run).
    injection Hrest as <- <-.
    assert (mode (broker s) = DynamicPlans ->
            exists ts, FromEnv = Success ts /\ Forall (templated ts) (svcPlans svc))
      as Hdyn.
    { intros Hm. destruct (Hdyn0 Hm) as (ts & ? & Hts).
      exists ts. split; [done|]. apply Forall_forall. intros p Hp%Hsub.
      eapply Forall_forall in Hts; done. }
    erewrite bind_ok in H by (by apply forM_addPlan_run).
    erewrite modifyCatalog_run in H by done. injection H as <-.
    eexists svc, _, l, [_]. split; [done|]. split; [reflexivity|].
    right. split; [done|]. exists u', prov.
    split; [done|]. split; [done|]. rewrite Hid.
    split; [done|]. split; [done|]. split; [done|]. split; [done|].
    split; [done|].
    apply Forall_forall. intros p Hp%Hsub.
    eapply Forall_forall in Hpre; done.
Qed.

Lemma indexPlans_snoc m ps p :
  indexPlans m (ps ++ [p]) = <[spID p := p]> (indexPlans m ps).
Proof. unfold indexPlans. by rewrite foldl_app. Qed.

Lemma indexPlans_lookup m ps id p :
  indexPlans m ps !! id = Some p ->
  (p ∈ ps /\ spID p = id) \/ m !! id = Some p.
Proof.
  induction ps as [|q ps IH] using rev_ind; [by right|].
  rewrite indexPlans_snoc.
  destruct (decide (spID q = id)) as [<-|Hne].
  - rewrite lookup_insert_eq. intros [= <-]. left.
    split; [|done]. apply elem_of_app. right. left.
  - rewrite lookup_insert_ne by done. intros [[? ?]|?]%IH; [left|by right].
    split; [|done]. apply elem_of_app. by left.
Qed.

Lemma indexPlans_is_Some m ps id :
  is_Some (indexPlans m ps !! id) <-> is_Some (m !! id) \/ id ∈ spID <$> ps.
Proof.
  induction ps as [|q ps IH] using rev_ind.
  { simpl. split; [by left|]. by intros [?|?%elem_of_nil]. }
  rewrite indexPlans_snoc, fmap_app, elem_of_app. simpl.
  rewrite list_elem_of_singleton.
  destruct (decide (spID q = id)) as [<-|Hne].
  - rewrite lookup_insert_eq. split; [auto|]. intros _. by eexists.
  - rewrite lookup_insert_ne, IH by done.
    split; [intros [?|?]; auto|]. intros [?|[?|E]]; auto. by destruct Hne.
Qed.

Lemma indexed_newCatalog : indexed newCatalog.
Proof.
  split.
  - intros id. unfold planIDs. simpl. rewrite lookup_empty. split.
    + by intros [? ?].
    + by intros ?%elem_of_nil.
  - intros id p. simpl. by rewrite lookup_empty.
  - intros id p. simpl. by rewrite lookup_empty.
Qed.

(** A turn of the loop that ends well keeps the lookups of the catalog in
    agreement with its services. *)
Lemma buildCatalogFor_indexed name s s' c :
  bcatalog (broker s) = Some c -> indexed c ->
  buildCatalogFor' name s = (s', Ok tt) ->
  exists c', bcatalog (broker s') = Some c' /\ indexed c'.
Proof.
  intros Hc [Hdom Hplan Hprov] H.
  apply (buildCatalogFor_step _ _ _ _ Hc) in H
    as [[-> _]|(svc & provs & l & calls & _ & -> & Hcase)].
  { by exists c. }
  eexists. split; [reflexivity|].
  assert (forall id prov, provs !! id = Some prov ->
            id = serviceIDForProvider (provName prov) /\
            id ∈ svcID <$> (services c ++ [svc])) as Hprov'.
  { intros id prov Hl. rewrite fmap_app, elem_of_app.
    destruct Hcase as [(_ & -> & _)|(_ & u & provider & _ & _ & -> & _ & _ & _ & Hid & _)].
    - apply Hprov in Hl as [? ?]. auto.
    - destruct (decide (svcID svc = id)) as [<-|Hne].
      + rewrite lookup_insert_eq in Hl. injection Hl as <-.
        split; [done|]. right. left.
      + rewrite lookup_insert_ne in Hl by done.
        apply Hprov in Hl as [? ?]. auto. }
  split; simpl.
  - intros id. unfold planIDs. simpl.
    rewrite bind_app, bind_singleton, elem_of_app, indexPlans_is_Some.
    by rewrite Hdom.
  - intros id p [[Hp <-]|Hl]%indexPlans_lookup.
    + split; [done|]. exists svc. split; [|done].
      apply elem_of_app. right. left.
    + apply Hplan in Hl as (? & svc' & ? & ?). split; [done|].
      exists svc'. split; [|done]. apply elem_of_app. by left.
  - done.
Qed.

(** The build keeps the two lookups of the catalog in step with its list
    of services. *)
Lemma buildCatalog_keeps_index s s' :
  buildCatalog' s = (s', Ok tt) ->
  exists c, bcatalog (broker s') = Some c /\ indexed c.
Proof.
  rewrite buildCatalog_unfold.
  assert (exists c, bcatalog (broker (withNewCatalog s)) = Some c /\ indexed c)
    as Hstart by (eexists; split; [reflexivity|apply indexed_newCatalog]).
  revert Hstart. generalize (withNewCatalog s). generalize providerNames.
  intros names. induction names as [|name names IH]; intros s0 (c & Hc & Hi); simpl.
  { intros [= <-]. eauto. }
  intros (s1 & [] & H1 & H)%bind_ok_inv.
  eapply IH; [|done]. by eapply buildCatalogFor_indexed.
Qed.

(** X10.  After a successful build the two lookups of the catalog agree
    with its list of services: an identifier is in the plan index exactly
    when a listed plan has it, the plan stored under an identifier has that
    identifier and is a plan of a listed service, and every provider is
    stored under the identifier of its own service, which is listed. *)
Theorem buildCatalog_indexed s s' :
  buildCatalog' s = (s', Ok tt) ->
  exists c, bcatalog (broker s') = Some c /\ indexed c.
Proof. apply buildCatalog_keeps_index. Qed.

(** X11.  A successful build asks the backend once for each provider that
    passes the whitelist, the shared one left out, in the order of
    [providerNames], always through the client made from the broker's base
    URL, and for nothing else. *)
Theorem buildCatalog_backend_calls s s' :
  buildCatalog' s = (s', Ok tt) ->
  exists calls,
    backendCalls s' = backendCalls s ++ calls /\
    calls.*2 = filter (fun name => name <> "TENANT")
                      (whitelistedNames (whitelist (broker s)) providerNames) /\
    Forall (fun call => url_Parse_noPath (baseURL (broker s)) = Some call.1) calls.
Proof.
  rewrite buildCatalog_unfold.
  change (backendCalls s) with (backendCalls (withNewCatalog s)).
  change (whitelist (broker s)) with (whitelist (broker (withNewCatalog s))).
  change (baseURL (broker s)) with (baseURL (broker (withNewCatalog s))).
  assert (is_Some (bcatalog (broker (withNewCatalog s)))) as Hstart by by eexists.
  revert Hstart. generalize (withNewCatalog s). generalize providerNames.
  intros names. induction names as [|name names IH]; intros s0 [c Hc]; simpl.
  { intros [= <-]. exists []. rewrite app_nil_r.
    split; [done|]. split; [|done]. by destruct (whitelist _). }
  intros (s1 & [] & H1 & H)%bind_ok_inv.
  rewrite whitelistedNames_cons, filter_app.
  apply (buildCatalogFor_step _ _ _ _ Hc) in H1
    as [[-> ->]|(svc & provs & l & calls & -> & -> & Hcase)].
  { by apply IH in H. }
  apply IH in H as (calls' & Hcalls & Hnames & Hurl); [|by eexists].
  simpl in *. exists (calls ++ calls'). rewrite Hcalls, app_assoc.
  split; [done|]. rewrite fmap_app, Hnames, filter_cons, filter_nil.
  destruct Hcase as [(-> & _ & -> & _)|(Hn & u & provider & Hu & _ & _ & -> & _)].
  - rewrite decide_False by (by intros []). done.
  - rewrite decide_True by done. split; [done|].
    apply Forall_app. split; [|done]. by repeat constructor.
Qed.

Lemma providerService_err name s s' e :
  providerService' name s = (s', Err e) ->
  name <> "TENANT" /\
  exists u,
    url_Parse_noPath (baseURL (broker s)) = Some u /\
    GetProvider u name = Failure e /\
    s' = {| broker := broker s; log := log s;
            backendCalls := backendCalls s ++ [(u, name)] |}.
Proof.
  unfold providerService. rewrite (bind_ok _ _ s s (broker s)) by done.
  destruct (decide (name = "TENANT")) as [->|Hn]; [done|].
  destruct (url_Parse_noPath (baseURL (broker s))) as [u|]; [|done].
  rewrite (bind_ok _ _ s s u) by done.
  erewrite bind_ok by reflexivity.
  destruct (GetProvider u name) as [provider|err] eqn:Eg.
  - erewrite bind_ok by reflexivity. unfold bind at 1.
    destruct (buildService' provider _) as [s1 [svc|err| |]] eqn:Eb; try done.
    + unfold bind, modifyCatalog, getCatalog, bind, getBroker.
      by destruct (bcatalog (broker s1)).
    + by apply buildService_no_err in Eb.
  - intros [= <- <-]. split; [done|]. eauto.
Qed.

(** A turn of the loop ends with an error only when the backend fails for
    the provider at hand, and the error is that of the backend. *)
Lemma buildCatalogFor_err name s s' e c :
  bcatalog (broker s) = Some c ->
  buildCatalogFor' name s = (s', Err e) ->
  name ∈ whitelistedNames (whitelist (broker s)) [name] /\
  name <> "TENANT" /\
  exists u,
    url_Parse_noPath (baseURL (broker s)) = Some u /\
    GetProvider u name = Failure e /\
    s' = {| broker := broker s; log := log s;
            backendCalls := backendCalls s ++ [(u, name)] |}.
Proof.
  intros Hc. unfold buildCatalogFor.
  rewrite (bind_ok _ _ s s (broker s)) by done.
  set (entry := whitelist (broker s) ≫= (.!! name)).
  assert (whitelistedNames (whitelist (broker s)) [name]
          = if bool_decide (is_Some (whitelist (broker s)))
               && negb (bool_decide (is_Some entry))
            then [] else [name]) as ->.
  { unfold entry. destruct (whitelist (broker s)) as [wl|]; simpl; [|done].
    rewrite filter_cons, filter_nil. by destruct (wl !! name). }
  destruct (_ && _); [done|]. unfold bind at 1.
  destruct (providerService' name s) as [s1 [svc0|err| |]] eqn:Es; try done.
  - destruct (providerService_services _ _ _ _ _ _ _ _ _ _ Hc Es) as (c1 & Hc1 & _).
    erewrite bind_ok by (by apply forM_addPlan_run).
    by erewrite modifyCatalog_run.
  - intros [= <- <-]. split; [left|]. by apply providerService_err.
Qed.

(** The error of a build is the error of the backend. *)
Lemma buildCatalog_err s s' e :
  buildCatalog' s = (s', Err e) ->
  exists u name,
    name ∈ whitelistedNames (whitelist (broker s)) providerNames /\
    name <> "TENANT" /\
    url_Parse_noPath (baseURL (broker s)) = Some u /\
    GetProvider u name = Failure e /\
    last (backendCalls s') = Some (u, name).
Proof.
  rewrite buildCatalog_unfold.
  change (whitelist (broker s)) with (whitelist (broker (withNewCatalog s))).
  change (baseURL (broker s)) with (baseURL (broker (withNewCatalog s))).
  assert (is_Some (bcatalog (broker (withNewCatalog s)))) as Hstart by by eexists.
  revert Hstart. generalize (withNewCatalog s). generalize providerNames.
  intros names. induction names as [|name names IH]; intros s0 [c Hc]; simpl.
  { done. }
  unfold bind at 1.
  destruct (buildCatalogFor' name s0) as [s1 [[]|err| |]] eqn:E1; try done.
  - intros H. rewrite whitelistedNames_cons.
    apply (buildCatalogFor_step _ _ _ _ Hc) in E1
      as [[-> _]|(svc & provs & l & calls & _ & -> & _)].
    + apply IH in H as (u & n & ? & ?); [|by eexists].
      exists u, n. split; [|done]. apply elem_of_app. by right.
    + apply IH in H as (u & n & ? & ?); [|by eexists].
      exists u, n. split; [|done]. apply elem_of_app. by right.
  - intros [= <- <-]. rewrite whitelistedNames_cons.
    apply (buildCatalogFor_err _ _ _ _ _ Hc) in E1
      as (Hin & Hn & u & Hu & Hg & ->).
    exists u, name. split; [apply elem_of_app; by left|].
    split; [done|]. split; [done|]. split; [done|]. apply last_snoc.
Qed.

(** X12.  A build ends with an error only when the backend fails for a
    provider that passes the whitelist: the error returned is the one of the
    backend, and the failed call is the last one made. *)
Theorem buildCatalog_error_is_backend_error s s' e :
  buildCatalog' s = (s', Err e) ->
  exists u name,
    name ∈ whitelistedNames (whitelist (broker s)) providerNames /\
    name <> "TENANT" /\
    url_Parse_noPath (baseURL (broker s)) = Some u /\
    GetProvider u name = Failure e /\
    last (backendCalls s') = Some (u, name).
Proof. apply buildCatalog_err. Qed.

(** X13.  In [MultiGroup] mode, for which no plans can be built, a build
    succeeds only when the whitelist leaves nothing but the shared
    provider. *)
Theorem buildCatalog_MultiGroup_only_shared s s' :
  mode (broker s) = MultiGroup ->
  buildCatalog' s = (s', Ok tt) ->
  Forall (fun name => name = "TENANT")
         (whitelistedNames (whitelist (broker s)) providerNames).
Proof.
  intros Hm. rewrite buildCatalog_unfold.
  change (whitelist (broker s)) with (whitelist (broker (withNewCatalog s))).
  assert (is_Some (bcatalog (broker (withNewCatalog s))) /\
          mode (broker (withNewCatalog s)) = MultiGroup) as Hstart
    by (split; [by eexists|done]).
  revert Hstart. generalize (withNewCatalog s). generalize providerNames.
  intros names. induction names as [|name names IH]; intros s0 [[c Hc] Hm0]; simpl.
  { intros _. destruct (whitelist _); constructor. }
  intros (s1 & [] & H1 & H)%bind_ok_inv.
  rewrite whitelistedNames_cons. apply Forall_app.
  apply (buildCatalogFor_step _ _ _ _ Hc) in H1
    as [[-> ->]|(svc & provs & l & calls & -> & -> & Hcase)].
  { split; [constructor|]. eapply IH; [|done]. eauto. }
  destruct Hcase as [(-> & _)|(_ & u & provider & _ & _ & _ & _ & Hno & _)];
    [|done].
  split; [by repeat constructor|].
  refine (IH _ _ H). split; [by eexists|done].
Qed.

(** X14.  In [MultiGroup] mode without a whitelist the build panics as soon
    as the first provider has been fetched: the catalog is left empty and
    one backend call has been made. *)
Theorem buildCatalog_MultiGroup_panics s u provider :
  mode (broker s) = MultiGroup ->
  whitelist (broker s) = None ->
  url_Parse_noPath (baseURL (broker s)) = Some u ->
  GetProvider u "AWS" = Success provider ->
  buildCatalog' s
  = ({| broker := setCatalog (broker s) (Some newCatalog);
        log := log s;
        backendCalls := backendCalls s ++ [(u, "AWS")] |},
     Panic "not implemented").
Proof.
  intros Hm Hw Hu Hg. rewrite buildCatalog_unfold.
  unfold providerNames, forM_, bind at 1, buildCatalogFor.
  rewrite (bind_ok _ _ _ (withNewCatalog s) (broker (withNewCatalog s))) by done.
  simpl. rewrite Hw. simpl. unfold bind at 1, providerService.
  rewrite (bind_ok _ _ _ (withNewCatalog s) (broker (withNewCatalog s))) by done.
  simpl. rewrite Hu.
  erewrite bind_ok by reflexivity. erewrite bind_ok by reflexivity.
  rewrite Hg. erewrite bind_ok by reflexivity.
  unfold bind at 1. rewrite buildService_MultiGroup by done. done.
Qed.

Lemma buildCatalogFor_skip name s wl :
  whitelist (broker s) = Some wl -> wl !! name = None ->
  buildCatalogFor' name s = (s, Ok tt).
Proof.
  intros Hw Hn. unfold buildCatalogFor.
  rewrite (bind_ok _ _ s s (broker s)) by done.
  rewrite Hw. simpl. by rewrite Hn.
Qed.

Lemma buildCatalogFor_tenant s c wl names :
  bcatalog (broker s) = Some c ->
  whitelist (broker s) = Some wl -> wl !! "TENANT" = Some names ->
  let ps := filter (fun p => spName p ∈ names) (svcPlans sharedService) in
  buildCatalogFor' "TENANT" s
  = ({| broker := setCatalog (broker s)
                    (Some {| services := services c ++ [withPlans sharedService ps];
                             plans := indexPlans (plans c) ps;
                             providers := providers c |});
        log := log s; backendCalls := backendCalls s |}, Ok tt).
Proof.
  intros Hc Hw Ht ps. unfold buildCatalogFor.
  rewrite (bind_ok _ _ s s (broker s)) by done.
  rewrite Hw. simpl. rewrite Ht. simpl.
  erewrite (bind_ok (providerService' "TENANT")) by reflexivity.
  erewrite bind_ok by (by apply forM_addPlan_run).
  erewrite modifyCatalog_run by done. reflexivity.
Qed.

Lemma buildCatalogFor_tenant_none s c :
  bcatalog (broker s) = Some c ->
  whitelist (broker s) = None ->
  buildCatalogFor' "TENANT" s
  = ({| broker := setCatalog (broker s)
                    (Some {| services := services c ++ [sharedService];
                             plans := indexPlans (plans c) (svcPlans sharedService);
                             providers := providers c |});
        log := log s; backendCalls := backendCalls s |}, Ok tt).
Proof.
  intros Hc Hw. unfold buildCatalogFor.
  rewrite (bind_ok _ _ s s (broker s)) by done.
  rewrite Hw. simpl.
  erewrite (bind_ok (providerService' "TENANT")) by reflexivity.
  erewrite bind_ok by (by apply forM_addPlan_run).
  erewrite modifyCatalog_run by done. reflexivity.
Qed.

(** X15.  When the whitelist has an entry for the shared provider and none
    for the three others, the build succeeds in every mode, whatever the
    backend and the templates are: it makes no backend call, writes nothing
    to the log, and the catalog holds the hardcoded service alone, with its
    whitelisted plans listed and indexed. *)
Theorem buildCatalog_shared_only s wl names :
  whitelist (broker s) = Some wl ->
  wl !! "AWS" = None -> wl !! "GCP" = None -> wl !! "AZURE" = None ->
  wl !! "TENANT" = Some names ->
  let ps := filter (fun p => spName p ∈ names) (svcPlans sharedService) in
  buildCatalog' s
  = ({| broker := setCatalog (broker s)
                    (Some {| services := [withPlans sharedService ps];
                             plans := indexPlans ∅ ps;
                             providers := ∅ |});
        log := log s; backendCalls := backendCalls s |}, Ok tt).
Proof.
  intros Hw Ha Hg Hz Ht ps. rewrite buildCatalog_unfold.
  unfold providerNames, forM_.
  erewrite bind_ok by (by eapply buildCatalogFor_skip).
  erewrite bind_ok by (by eapply buildCatalogFor_skip).
  erewrite bind_ok by (by eapply buildCatalogFor_skip).
  erewrite bind_ok by (by eapply buildCatalogFor_tenant).
  reflexivity.
Qed.

(** X16.  Once [Services] has returned a list of services, every later call
    returns the same list without building anything: it adds its one log
    entry and leaves the broker and the backend alone. *)
Theorem Services_cached s s1 l :
  Services' s = (s1, Ok l) ->
  Services' s1 = (addLog s1 [retrievingEntry], Ok l).
Proof.
  unfold Services. rewrite !writeLog_then.
  fold retrievingEntry.
  intros (s2 & b & [= <- <-] & H)%bind_ok_inv.
  apply bind_ok_inv in H as (s3 & [] & _ & H).
  apply bind_ok_inv in H as (s4 & c & Hc & [= <- <-]).
  unfold getCatalog in Hc.
  rewrite (bind_ok _ _ s3 s3 (broker s3)) in Hc by done.
  destruct (bcatalog (broker s3)) as [c'|] eqn:Ec; [|done].
  injection Hc as <- <-.
  set (s4 := addLog s3 [retrievingEntry]).
  rewrite (bind_ok _ _ s4 s4 (broker s3)) by done.
  rewrite Ec. simpl.
  erewrite bind_ok by reflexivity.
  unfold getCatalog, bind, getBroker. simpl. by rewrite Ec.
Qed.

(** X18.  [New] never returns an error: a build that fails ends the
    process.  When it returns a broker, this is the broker of the state, it
    has the configuration it was asked for, and its catalog is built. *)
Theorem New_returns_built_broker creds base wl md s s' o :
  New' creds base wl md s = (s', o) ->
  (forall e, o <> Err e) /\
  (forall b, o = Ok b ->
     b = broker s' /\
     whitelist b = wl /\ credentials b = creds /\ baseURL b = base /\
     mode b = md /\ is_Some (bcatalog b)).
Proof.
  unfold New. erewrite bind_ok by reflexivity.
  set (s0 := {| broker := _; log := log s; backendCalls := backendCalls s |}).
  unfold bind at 1.
  destruct (buildCatalog' s0) as [s1 [[]|err| |]] eqn:Eb.
  - intros [= <- <-]. split; [done|]. intros b [= <-].
    destruct (preserves_buildCatalog _ _ _ _ _ _ _ _ Eb) as [? ? ? ? _ _ _].
    apply buildCatalog_ok in Eb as (c & Hc & _).
    split; [done|]. repeat split; try done; by eexists.
  - intros [= <- <-]. done.
  - intros [= <- <-]. done.
  - intros [= <- <-]. done.
Qed.

(** X19.  In [DynamicPlans] mode, every plan in the plan index of a built
    catalog is a plan of the hardcoded service or carries one of the loaded
    templates: looking up the template of an indexed plan can only fail on
    the plans of the shared provider. *)
Theorem dynamic_catalog_plans_templated s s' :
  mode (broker s) = DynamicPlans ->
  buildCatalog' s = (s', Ok tt) ->
  exists c,
    bcatalog (broker s') = Some c /\
    forall id sp, plans c !! id = Some sp ->
      sp ∈ svcPlans sharedService \/
      exists ts, FromEnv = Success ts /\ templated ts sp.
Proof.
  intros Hm H.
  destruct (buildCatalog_keeps_index _ _ H) as (c & Hc & Hi).
  exists c. split; [done|]. intros id sp (_ & svc & Hsvc & Hsp)%(indexed_plan _ Hi).
  cut (Forall (fun svc => Forall (fun sp =>
         sp ∈ svcPlans sharedService \/
         exists ts, FromEnv = Success ts /\ templated ts sp) (svcPlans svc))
       (services c)).
  { intros Hall. eapply Forall_forall in Hall; [|done].
    eapply Forall_forall in Hall; done. }
  clear id sp svc Hsvc Hsp Hi. revert H Hc. rewrite buildCatalog_unfold.
  assert (exists c0, bcatalog (broker (withNewCatalog s)) = Some c0 /\
            mode (broker (withNewCatalog s)) = DynamicPlans /\
            Forall (fun svc => Forall (fun sp =>
              sp ∈ svcPlans sharedService \/
              exists ts, FromEnv = Success ts /\ templated ts sp) (svcPlans svc))
            (services c0)) as Hstart.
  { eexists. split; [reflexivity|]. split; [done|]. constructor. }
  revert Hstart. generalize (withNewCatalog s). generalize providerNames.
  intros names. induction names as [|name names IH];
    intros s0 (c0 & Hc0 & Hm0 & Hall); simpl.
  { intros [= <-] Hc. rewrite Hc0 in Hc. by injection Hc as <-. }
  intros (s1 & [] & H1 & H)%bind_ok_inv Hc.
  eapply IH; [|done..].
  apply (buildCatalogFor_step _ _ _ _ Hc0) in H1
    as [[-> _]|(svc & provs & l & calls & _ & -> & Hcase)].
  { eauto. }
  eexists. split; [reflexivity|]. split; [done|]. simpl.
  apply Forall_app. split; [done|]. constructor; [|done].
  destruct Hcase as [(_ & _ & _ & ps & -> & Hps)
                    |(_ & u & provider & _ & _ & _ & _ & _ & Hdyn & _)].
  - apply Forall_forall. intros sp Hsp%Hps. by left.
  - destruct (Hdyn Hm0) as (ts & Hts & Hall').
    eapply Forall_impl; [done|]. intros sp ?. right. eauto.
Qed.

(** ** The whitelist *)

(** C5.  With a whitelist, a successful build publishes exactly one service
    for each provider name that has an entry, in order, and nothing for the
    others (the shared provider included); a published service has the
    identifier and the name of the provider's service, and its plans are
    what [applyWhitelist] makes of the plans of the provider's service and
    of the entry, that is, those plans whose name is in the entry and no
    others; the plan index holds plans with a whitelisted name only.
    Without a whitelist every provider name has its service, with all of
    its plans. *)
Theorem buildCatalog_whitelist s s' :
  buildCatalog' s = (s', Ok tt) ->
  exists c,
    bcatalog (broker s') = Some c /\
    match whitelist (broker s) with
    | Some wl =>
      Forall2
        (fun name svc =>
           exists names st st' svc0,
             wl !! name = Some names /\ stable s st /\
             providerService' name st = (st', Ok svc0) /\
             svcID svc = svcID svc0 /\ svcName svc = svcName svc0 /\
             svcPlans svc = applyWhitelist (svcPlans svc0) names /\
             (forall p, p ∈ svcPlans svc <->
                        p ∈ svcPlans svc0 /\ spName p ∈ names))
        (filter (fun name => is_Some (wl !! name)) providerNames)
        (services c) /\
      (forall id p, plans c !! id = Some p ->
         exists name names, wl !! name = Some names /\ spName p ∈ names)
    | None =>
      Forall2
        (fun name svc =>
           exists st st',
             stable s st /\ providerService' name st = (st', Ok svc))
        providerNames (services c)
    end.
Proof.
  intros H. destruct (buildCatalog_keeps_index _ _ H) as (c & Hc & Hi).
  apply buildCatalog_ok in H as (c' & Hc' & F).
  assert (c' = c) as -> by congruence.
  exists c. split; [done|].
  unfold published in F. destruct (whitelist (broker s)) as [wl|]; simpl in F.
  - assert (Forall2
              (fun name svc =>
                 exists names st st' svc0,
                   wl !! name = Some names /\ stable s st /\
                   providerService' name st = (st', Ok svc0) /\
                   svcID svc = svcID svc0 /\ svcName svc = svcName svc0 /\
                   svcPlans svc = applyWhitelist (svcPlans svc0) names /\
                   (forall p, p ∈ svcPlans svc <->
                              p ∈ svcPlans svc0 /\ spName p ∈ names))
              (filter (fun name => is_Some (wl !! name)) providerNames)
              (services c)) as F'.
    { eapply Forall2_and_l with (Q := fun n => is_Some (wl !! n)) in F.
      - eapply Forall2_impl; [done|]. simpl.
        intros name svc [[names Hn] (st & st' & svc0 & St & Hsvc & ->)].
        exists names, st, st', svc0. rewrite Hn. simpl.
        repeat (split; [done|]). intros p. unfold applyWhitelist.
        rewrite list_elem_of_filter. tauto.
      - apply Forall_forall. by intros x [? _]%list_elem_of_filter. }
    split; [done|].
    intros id p (_ & svc & Hsvc & Hp)%(indexed_plan _ Hi).
    apply list_elem_of_lookup in Hsvc as [i Hsvc].
    destruct (Forall2_lookup_r _ _ _ _ _ F' Hsvc)
      as (name & _ & names & st & st' & svc0 & Hn & _ & _ & _ & _ & _ & Hps).
    apply Hps in Hp as [_ Hin]. eauto.
  - eapply Forall2_impl; [done|]. simpl.
    intros name svc (st & st' & svc0 & St & Hsvc & ->). eauto.
Qed.

(** ** A failed fetch *)




End MoreCatalog.

(** ** More on the tenant and credential resolver *)

(** [primitive.D.Map()] keeps, for each key, the value of the last element
    of the document with that key. *)
Lemma D_Map_lookup (doc : list (string * Value)) (key : string) :
  D_Map doc !! key = snd <$> lastElement key doc.
Proof.
  unfold D_Map, lastElement.
  induction doc as [|[k v] doc IH] using rev_ind; [done|].
  rewrite foldl_app, filter_app, filter_cons, filter_nil. simpl.
  destruct (decide (k = key)) as [->|Hne].
  - by rewrite lookup_insert_eq, last_snoc.
  - by rewrite lookup_insert_ne, app_nil_r.
Qed.

Section MoreResolver.

Variable DefaultCtx : option Credentials -> Context.
Variable yamlDecode : string -> Fallible Plan.
Variable jsonUnmarshal : string -> Context -> Fallible Context.
Variable GetInstance : string -> Fallible Instance.
Variable context : Type.
Variable AtlasClient : Type.
Variable HTTPClient : Type.
Variable atlasClientFromContext : context -> Fallible AtlasClient.
Variable groupIDFromContext : context -> string * option Error.
Variable digestClient : string -> string -> Fallible HTTPClient.
Variable mongodbatlas_New : HTTPClient -> string -> Fallible AtlasClient.
Variable findGroupIDByPlanID : catalog -> string -> string * option Error.

Local Abbreviation parsePlan' := (parsePlan DefaultCtx yamlDecode jsonUnmarshal).
Local Abbreviation getGroupIDByInstanceID' := (getGroupIDByInstanceID GetInstance).
Local Abbreviation clientFor' :=
  (clientFor AtlasClient HTTPClient digestClient mongodbatlas_New).
Local Abbreviation getClient' :=
  (getClient DefaultCtx yamlDecode jsonUnmarshal GetInstance
     context AtlasClient HTTPClient atlasClientFromContext groupIDFromContext
     digestClient mongodbatlas_New findGroupIDByPlanID).

(** X20.  [getGroupIDByInstanceID] never changes the state.  It returns a
    tenant in two cases only: the empty one when the store has no document
    for the instance, and otherwise the string that the last [groupID]
    element of the stored document holds. *)
Theorem getGroupIDByInstanceID_returns instanceID s s' o :
  getGroupIDByInstanceID' instanceID s = (s', o) ->
  s' = s /\
  forall gid,
    o = Ok gid <->
    (gid = EmptyString /\ GetInstance instanceID = Failure ErrNoDocuments) \/
    (exists doc,
       GetInstance instanceID = Success {| Parameters := ParamsD doc |} /\
       lastElement "groupID" doc = Some ("groupID", VString gid)).
Proof.
  unfold getGroupIDByInstanceID, getInstanceState, catchErr, bind.
  destruct (GetInstance instanceID) as [[[doc|t]]|err]; simpl.
  - rewrite D_Map_lookup. unfold lastElement.
    destruct (last _) as [[k v]|] eqn:El; simpl.
    + assert (k = "groupID") as ->.
      { apply last_Some_elem_of, list_elem_of_filter in El as [? _]. done. }
      destruct v as [g|t]; intros [= <- <-]; (split; [done|]); intros gid.
      * split; [intros [= <-]; right; eauto|].
        intros [[_ [=]]|(doc' & [= <-] & E)].
        unfold lastElement in E. rewrite El in E. by injection E as <-.
      * split; [done|]. intros [[_ [=]]|(doc' & [= <-] & E)].
        unfold lastElement in E. rewrite El in E. done.
    + intros [= <- <-]. split; [done|]. intros gid. split; [done|].
      intros [[_ [=]]|(doc' & [= <-] & E)].
      unfold lastElement in E. rewrite El in E. done.
  - intros [= <- <-]. split; [done|]. intros gid. split; [done|].
    by intros [[_ [=]]|(doc' & [=] & _)].
  - destruct (decide (err = ErrNoDocuments)) as [->|Hne]; intros [= <- <-];
      (split; [done|]); intros gid.
    + split; [intros [= <-]; by left|]. by intros [[-> _]|(doc' & [=] & _)].
    + split; [done|]. intros [[_ [= ->]]|(doc' & [=] & _)]. done.
Qed.

Lemma getGroupID_frame instanceID s s' o :
  getGroupIDByInstanceID' instanceID s = (s', o) ->
  s' = s /\ o <> Exit /\ forall msg, o <> Panic msg.
Proof.
  unfold getGroupIDByInstanceID, getInstanceState, catchErr, bind.
  destruct (GetInstance instanceID) as [[[doc|t]]|err]; simpl.
  - destruct (D_Map doc !! "groupID") as [[g|t]|]; by intros [= <- <-].
  - by intros [= <- <-].
  - destruct (decide (err = ErrNoDocuments)); by intros [= <- <-].
Qed.

Lemma getCatalog_run s :
  getCatalog s
  = (s, match bcatalog (broker s) with
        | Some c => Ok c
        | None => Panic nilDeref
        end).
Proof.
  unfold getCatalog. rewrite (bind_ok _ _ s s (broker s)) by done.
  by destruct (bcatalog (broker s)).
Qed.

(** Rendering a plan reads the catalog and writes to the log only. *)
Lemma parsePlan_frame planID rawParams s s' o :
  parsePlan' planID rawParams s = (s', o) ->
  (exists l, s' = addLog s l) /\ o <> Exit.
Proof.
  assert (s = addLog s []) as Hs by by rewrite addLog_nil.
  unfold parsePlan. unfold bind at 1. rewrite getCatalog_run.
  destruct (bcatalog (broker s)) as [c|]; [|intros [= <- <-]; by eauto].
  rewrite (bind_ok _ _ s s (broker s)) by done.
  destruct (plans c !! planID) as [sp|]; [|intros [= <- <-]; by eauto].
  destruct (spMetadata sp) as [md|]; [|intros [= <- <-]; by eauto].
  destruct (mdTemplate md) as [tpl|]; [|intros [= <- <-]; by eauto].
  unfold bind at 1.
  destruct (decodeParams _ _ _ _) as [params|]; [|intros [= <- <-]; by eauto].
  simpl. unfold bind at 1.
  destruct (tplExecute tpl params) as [raw|]; [|intros [= <- <-]; by eauto].
  simpl. unfold bind at 1.
  destruct (credentials (broker s)); [|intros [= <- <-]; by eauto].
  simpl. destruct (yamlDecode raw); intros [= <- <-]; by eauto.
Qed.

Lemma clientFor_frame gid s s' o :
  clientFor' gid s = (s', o) ->
  s' = s /\ (forall e, o <> Err e) /\ o <> Exit.
Proof.
  unfold clientFor. rewrite (bind_ok _ _ s s (broker s)) by done.
  destruct (credentials (broker s)) as [creds|]; [|by intros [= <- <-]].
  destruct (Projects creds !! gid) as [c|]; [|by intros [= <- <-]].
  destruct (digestClient _ _) as [hc|]; [|by intros [= <- <-]].
  destruct (mongodbatlas_New _ _); by intros [= <- <-].
Qed.

(** X21.  Resolving a tenant changes nothing but the log: the broker, its
    catalog and the list of backend calls are as before.  It never returns
    a Go error of its own and never ends the process: a failure is part of
    the returned triple, or a panic. *)
Theorem getClient_frame ctx instanceID planID rawParams s s' o :
  getClient' ctx instanceID planID rawParams s = (s', o) ->
  (exists l, s' = addLog s l) /\ (forall e, o <> Err e) /\ o <> Exit.
Proof.
  assert (s = addLog s []) as Hs by by rewrite addLog_nil.
  unfold getClient. rewrite (bind_ok _ _ s s (broker s)) by done.
  destruct (mode (broker s)).
  - destruct (atlasClientFromContext ctx); [destruct (groupIDFromContext ctx)|];
      intros [= <- <-]; eauto.
  - unfold bind at 1, catchErr.
    destruct (getGroupIDByInstanceID' instanceID s) as [s1 o1] eqn:Eg.
    apply getGroupID_frame in Eg as (-> & Hexit & Hpanic).
    destruct o1 as [gid|err|msg|];
      [|intros [= <- <-]; by eauto|intros [= <- <-]; by eauto|done].
    destruct (negb _).
    { intros (-> & ? & ?)%clientFor_frame. eauto. }
    destruct (decodeParams _ _ _ _) as [params|]; [|intros [= <- <-]; by eauto].
    destruct (bool_decide _); [intros [= <- <-]; by eauto|].
    intros (-> & ? & ?)%clientFor_frame. eauto.
  - unfold bind at 1. rewrite getCatalog_run.
    destruct (bcatalog (broker s)) as [c|]; [|intros [= <- <-]; by eauto].
    destruct (findGroupIDByPlanID c planID) as [gid [err|]];
      [intros [= <- <-]; by eauto|].
    intros (-> & ? & ?)%clientFor_frame. eauto.
  - unfold bind at 1, catchErr.
    destruct (getGroupIDByInstanceID' instanceID s) as [s1 o1] eqn:Eg.
    apply getGroupID_frame in Eg as (-> & Hexit & Hpanic).
    destruct o1 as [gid|err|msg|];
      [|intros [= <- <-]; by eauto|intros [= <- <-]; by eauto|done].
    destruct (negb _).
    { intros (-> & ? & ?)%clientFor_frame. eauto. }
    unfold bind at 1, catchErr.
    destruct (parsePlan' planID rawParams s) as [s1 o1] eqn:Ep.
    apply parsePlan_frame in Ep as [[l ->] Hne].
    destruct o1 as [dp|err|msg|];
      [|intros [= <- <-]; by eauto|intros [= <- <-]; by eauto|done].
    destruct (planProject dp) as [project|]; [|intros [= <- <-]; by eauto].
    destruct (negb _); intros (-> & ? & ?)%clientFor_frame; eauto.
Qed.

Lemma clientFor_success gid s s' r :
  clientFor' gid s = (s', Ok r) ->
  crGid r = gid /\
  (crErr r = None ->
   exists creds key hc client,
     credentials (broker s) = Some creds /\
     Projects creds !! gid = Some key /\
     digestClient (PublicKey key) (PrivateKey key) = Success hc /\
     mongodbatlas_New hc (baseURL (broker s)) = Success client /\
     crClient r = Some client) /\
  (crErr r <> None -> crClient r = None).
Proof.
  unfold clientFor. rewrite (bind_ok _ _ s s (broker s)) by done.
  destruct (credentials (broker s)) as [creds|]; [|done].
  destruct (Projects creds !! gid) as [c|] eqn:Ek; [|by intros [= <- <-]].
  destruct (digestClient _ _) as [hc|] eqn:Ed; [|by intros [= <- <-]].
  destruct (mongodbatlas_New _ _) as [client|] eqn:En; intros [= <- <-];
    [|done].
  split; [done|]. split; [|done]. intros _. by exists creds, c, hc, client.
Qed.

(** X22.  Outside [BasicAuth] mode, a resolution that returns without an
    error returns a client of the tenant it names: that tenant has an entry
    in the credentials of the broker, and the client was made from the key
    pair of that entry and the base URL of the broker.  A resolution that
    returns an error returns no client. *)
Theorem getClient_client_of_tenant ctx instanceID planID rawParams s s' r :
  mode (broker s) <> BasicAuth ->
  getClient' ctx instanceID planID rawParams s = (s', Ok r) ->
  (crErr r = None ->
   exists creds key hc client,
     credentials (broker s) = Some creds /\
     Projects creds !! crGid r = Some key /\
     digestClient (PublicKey key) (PrivateKey key) = Success hc /\
     mongodbatlas_New hc (baseURL (broker s)) = Success client /\
     crClient r = Some client) /\
  (crErr r <> None -> crClient r = None).
Proof.
  intros Hm.
  assert (forall gid l,
            clientFor' gid (addLog s l) = (s', Ok r) ->
            (crErr r = None ->
             exists creds key hc client,
               credentials (broker s) = Some creds /\
               Projects creds !! crGid r = Some key /\
               digestClient (PublicKey key) (PrivateKey key) = Success hc /\
               mongodbatlas_New hc (baseURL (broker s)) = Success client /\
               crClient r = Some client) /\
            (crErr r <> None -> crClient r = None)) as Hfor.
  { intros gid l (<- & H & ?)%clientFor_success. done. }
  assert (forall gid, clientFor' gid s = clientFor' gid (addLog s []))
    as Hnil by (intros; by rewrite addLog_nil).
  unfold getClient. rewrite (bind_ok _ _ s s (broker s)) by done.
  destruct (mode (broker s)); [done| | |].
  - unfold bind at 1, catchErr.
    destruct (getGroupIDByInstanceID' instanceID s) as [s1 o1] eqn:Eg.
    apply getGroupID_frame in Eg as (-> & Hexit & Hpanic).
    destruct o1 as [gid|err| |]; try done; [|by intros [= <- <-]].
    destruct (negb _).
    { rewrite Hnil. apply Hfor. }
    destruct (decodeParams _ _ _ _) as [params|]; [|by intros [= <- <-]].
    destruct (bool_decide _); [by intros [= <- <-]|].
    rewrite Hnil. apply Hfor.
  - unfold bind at 1. rewrite getCatalog_run.
    destruct (bcatalog (broker s)) as [c|]; [|done].
    destruct (findGroupIDByPlanID c planID) as [gid [err|]];
      [by intros [= <- <-]|].
    rewrite Hnil. apply Hfor.
  - unfold bind at 1, catchErr.
    destruct (getGroupIDByInstanceID' instanceID s) as [s1 o1] eqn:Eg.
    apply getGroupID_frame in Eg as (-> & Hexit & Hpanic).
    destruct o1 as [gid|err| |]; try done; [|by intros [= <- <-]].
    destruct (negb _).
    { rewrite Hnil. apply Hfor. }
    unfold bind at 1, catchErr.
    destruct (parsePlan' planID rawParams s) as [s1 o1] eqn:Ep.
    apply parsePlan_frame in Ep as [[l ->] Hne].
    destruct o1 as [dp|err| |]; try done; [|by intros [= <- <-]].
    destruct (planProject dp) as [project|]; [|by intros [= <- <-]].
    destruct (negb _); apply Hfor.
Qed.

(** X23.  For an instance without persisted metadata whose request declares
    a tenant, the resolution goes on with that tenant: the one of the
    decoded parameters in [MultiGroup] mode, the one of the rendered plan in
    [DynamicPlans] mode. *)
Theorem getClient_declared_tenant ctx s s1 fresh planID rawParams tenant :
  noMetadata GetInstance fresh ->
  declaresTenant DefaultCtx yamlDecode jsonUnmarshal s planID rawParams tenant s1 ->
  tenant <> EmptyString ->
  getClient' ctx fresh planID rawParams s = clientFor' tenant s1.
Proof.
  intros Hno Hd Hne. unfold declaresTenant in Hd. unfold getClient.
  rewrite (bind_ok _ _ s s (broker s)) by done.
  destruct (mode (broker s)); try done.
  - destruct Hd as (-> & params & Hp & <-).
    erewrite bind_ok
      by (unfold catchErr; rewrite (getGroupID_noMetadata _ _ _ Hno); done).
    simpl. rewrite Hp. by rewrite bool_decide_eq_false_2.
  - destruct Hd as (dp & project & Hp & Hproj & <-).
    erewrite bind_ok
      by (unfold catchErr; rewrite (getGroupID_noMetadata _ _ _ Hno); done).
    simpl. erewrite bind_ok by (unfold catchErr; rewrite Hp; done).
    cbv beta iota. rewrite Hproj. by rewrite bool_decide_eq_false_2.
Qed.

(** X24.  In [DynamicPlans] mode, for an instance without persisted
    metadata, a plan that is not in the plan index of the catalog is
    answered with the plan-not-found error: no client, no tenant, and the
    state as it was. *)
Theorem getClient_unknown_plan ctx s c fresh planID rawParams :
  mode (broker s) = DynamicPlans ->
  noMetadata GetInstance fresh ->
  bcatalog (broker s) = Some c ->
  plans c !! planID = None ->
  getClient' ctx fresh planID rawParams s
  = (s, Ok {| crClient := None; crGid := EmptyString;
              crErr := Some (ErrPlanNotFound planID) |}).
Proof.
  intros Hm Hno Hc Hp. unfold getClient.
  rewrite (bind_ok _ _ s s (broker s)) by done. rewrite Hm.
  erewrite bind_ok
    by (unfold catchErr; rewrite (getGroupID_noMetadata _ _ _ Hno); done).
  simpl.
  assert (parsePlan' planID rawParams s = (s, Err (ErrPlanNotFound planID))) as Hpp.
  { unfold parsePlan, getCatalog, bind, getBroker. rewrite Hc. simpl.
    by rewrite Hp. }
  erewrite bind_ok by (unfold catchErr; rewrite Hpp; done).
  done.
Qed.

(** X25.  In [BasicAuth] mode the resolution looks at the request context
    alone: it returns, whatever the instance, the plan and the parameters
    are and even without credentials or catalog, and it leaves the state as
    it was. *)
Theorem getClient_BasicAuth ctx s instanceID planID rawParams :
  mode (broker s) = BasicAuth ->
  exists r,
    getClient DefaultCtx yamlDecode jsonUnmarshal GetInstance context
      AtlasClient HTTPClient atlasClientFromContext groupIDFromContext
      digestClient mongodbatlas_New findGroupIDByPlanID
      ctx instanceID planID rawParams s = (s, Ok r) /\
    (forall instanceID' planID' rawParams',
       getClient' ctx instanceID' planID' rawParams' s = (s, Ok r)) /\
    crGid r = (match atlasClientFromContext ctx with
               | Success _ => (groupIDFromContext ctx).1
               | Failure _ => EmptyString
               end).
Proof.
  intros Hm. unfold getClient.
  rewrite (bind_ok _ _ s s (broker s)) by done. rewrite Hm.
  destruct (atlasClientFromContext ctx) as [client|err].
  - destruct (groupIDFromContext ctx) as [gid err]. eexists.
    split; [reflexivity|]. split; [|done]. intros i p r.
    rewrite (bind_ok _ _ s s (broker s)) by done. by rewrite Hm.
  - eexists. split; [reflexivity|]. split; [|done]. intros i p r.
    rewrite (bind_ok _ _ s s (broker s)) by done. by rewrite Hm.
Qed.

End MoreResolver.

(** ** The shared plans in [DynamicPlans] mode *)

Section SharedPlans.

Variable url_Parse_noPath : string -> option string.
Variable GetProvider : string -> string -> Fallible Provider.
Variable FromEnv : Fallible (list Template).
Variable DefaultCtx : option Credentials -> Context.
Variable yamlDecode : string -> Fallible Plan.
Variable jsonUnmarshal : string -> Context -> Fallible Context.
Variable GetInstance : string -> Fallible Instance.
Variable context : Type.
Variable AtlasClient : Type.
Variable HTTPClient : Type.
Variable atlasClientFromContext : context -> Fallible AtlasClient.
Variable groupIDFromContext : context -> string * option Error.
Variable digestClient : string -> string -> Fallible HTTPClient.
Variable mongodbatlas_New : HTTPClient -> string -> Fallible AtlasClient.
Variable findGroupIDByPlanID : catalog -> string -> string * option Error.

Local Abbreviation buildCatalogFor' :=
  (buildCatalogFor url_Parse_noPath GetProvider FromEnv DefaultCtx yamlDecode).
Local Abbreviation buildCatalog' :=
  (buildCatalog url_Parse_noPath GetProvider FromEnv DefaultCtx yamlDecode).
Local Abbreviation parsePlan' := (parsePlan DefaultCtx yamlDecode jsonUnmarshal).
Local Abbreviation getClient' :=
  (getClient DefaultCtx yamlDecode jsonUnmarshal GetInstance
     context AtlasClient HTTPClient atlasClientFromContext groupIDFromContext
     digestClient mongodbatlas_New findGroupIDByPlanID).

Lemma indexPlans_lookup_elem m ps p :
  NoDup (spID <$> ps) -> p ∈ ps -> indexPlans m ps !! spID p = Some p.
Proof.
  induction ps as [|q ps IH] using rev_ind; [by intros _ ?%elem_of_nil|].
  rewrite fmap_app, NoDup_app, indexPlans_snoc. simpl.
  intros (Hnd & Hdis & _) [Hp | ->%list_elem_of_singleton]%elem_of_app.
  - rewrite lookup_insert_ne; [by apply IH|].
    intros E. apply (Hdis (spID p)).
    + apply list_elem_of_fmap. eauto.
    + rewrite E. left.
  - apply lookup_insert_eq.
Qed.

Lemma NoDup_fmap_filter {A B} (f : A -> B) (P : A -> Prop)
  `{forall x, Decision (P x)} (l : list A) :
  NoDup (f <$> l) -> NoDup (f <$> filter P l).
Proof.
  induction l as [|x l IH]; [done|]. simpl.
  intros [Hx Hl]%NoDup_cons. rewrite filter_cons.
  destruct (decide (P x)); [|auto]. simpl. apply NoDup_cons. split; [|auto].
  intros (y & E & [_ Hy]%list_elem_of_filter)%list_elem_of_fmap.
  apply Hx. rewrite E. apply list_elem_of_fmap. eauto.
Qed.

(** The last turn of the loop of a successful build is the one of the
    shared provider, entered with a catalog. *)
Lemma buildCatalog_last_turn s s' :
  buildCatalog' s = (s', Ok tt) ->
  exists s3 c3,
    bcatalog (broker s3) = Some c3 /\
    whitelist (broker s3) = whitelist (broker s) /\
    mode (broker s3) = mode (broker s) /\
    buildCatalogFor' "TENANT" s3 = (s', Ok tt).
Proof.
  rewrite buildCatalog_unfold. unfold providerNames, forM_.
  intros (s1 & [] & H1 & H)%bind_ok_inv.
  apply bind_ok_inv in H as (s2 & [] & H2 & H).
  apply bind_ok_inv in H as (s3 & [] & H3 & H).
  apply bind_ok_inv in H as (s4 & [] & H4 & [= <-]).
  apply preserves_buildCatalogFor in H1, H2, H3.
  pose proof (stable_trans _ _ _ (stable_withNewCatalog s)
                (stable_trans _ _ _ H1 (stable_trans _ _ _ H2 H3))) as St.
  destruct (stable_catalog _ _ (stable_trans _ _ _ H1 (stable_trans _ _ _ H2 H3)))
    as [c3 Hc3]; [by eexists|].
  exists s3, c3. split; [done|].
  split; [apply (stable_whitelist _ _ St)|].
  split; [apply (stable_mode _ _ St)|done].
Qed.

(** X26.  In [DynamicPlans] mode, after a successful build, resolving the
    tenant of a new instance for a plan of the shared provider that the
    whitelist keeps panics: the plan is in the index, but it has no
    metadata to take a template from. *)
Theorem getClient_shared_plan_panics ctx s s' fresh sp rawParams :
  mode (broker s) = DynamicPlans ->
  buildCatalog' s = (s', Ok tt) ->
  sp ∈ svcPlans sharedService ->
  (forall wl, whitelist (broker s) = Some wl ->
     exists names, wl !! "TENANT" = Some names /\ spName sp ∈ names) ->
  noMetadata GetInstance fresh ->
  getClient' ctx fresh (spID sp) rawParams s' = (s', Panic nilDeref).
Proof.
  intros Hm (s3 & c3 & Hc3 & Hw & Hm3 & Hlast)%buildCatalog_last_turn Hsp Hkept Hno.
  assert (spMetadata sp = None) as Hmd.
  { unfold sharedService in Hsp. simpl in Hsp.
    apply elem_of_cons in Hsp as [->|Hsp]; [done|].
    by apply list_elem_of_singleton in Hsp as ->. }
  assert (NoDup (spID <$> svcPlans sharedService)) as Hnd by compute_done.
  assert (mode (broker s') = DynamicPlans /\
          exists c, bcatalog (broker s') = Some c /\
                    plans c !! spID sp = Some sp) as (Hm' & c & Hc & Hl).
  { destruct (whitelist (broker s)) as [wl|] eqn:Ew.
    - destruct (Hkept wl eq_refl) as (names & Ht & Hin).
      rewrite (buildCatalogFor_tenant _ _ _ _ _ _ _ _ _ Hc3 Hw Ht) in Hlast.
      injection Hlast as <-. split; [simpl; congruence|].
      eexists. split; [reflexivity|]. cbn [plans].
      apply indexPlans_lookup_elem.
      + by apply NoDup_fmap_filter.
      + by apply list_elem_of_filter.
    - rewrite (buildCatalogFor_tenant_none _ _ _ _ _ _ _ Hc3 Hw) in Hlast.
      injection Hlast as <-. split; [simpl; congruence|].
      eexists. split; [reflexivity|].
      exact (indexPlans_lookup_elem _ _ _ Hnd Hsp). }
  unfold getClient. rewrite (bind_ok _ _ s' s' (broker s')) by done.
  rewrite Hm'.
  erewrite bind_ok
    by (unfold catchErr; rewrite (getGroupID_noMetadata _ _ _ Hno); done).
  simpl. unfold bind at 1, catchErr.
  assert (parsePlan' (spID sp) rawParams s' = (s', Panic nilDeref)) as ->; [|done].
  unfold parsePlan. unfold bind at 1. rewrite getCatalog_run, Hc.
  rewrite (bind_ok _ _ s' s' (broker s')) by done.
  by rewrite Hl, Hmd.
Qed.

End SharedPlans.

(** ** The dashboard link *)

Lemma split_at_hash a b x y :
  hash_free a = true -> hash_free b = true ->
  a +:+ String "#" x = b +:+ String "#" y -> a = b /\ x = y.
Proof.
  unfold hash_free. revert b.
  induction a as [|c a IH]; intros [|d b]; simpl.
  - intros _ _ [= ->]. done.
  - intros _ [Hd _]%andb_true_iff [= <- _]. done.
  - intros [Hc _]%andb_true_iff _ [= -> _]. done.
  - intros [_ Ha]%andb_true_iff [_ Hb]%andb_true_iff [= -> H].
    destruct (IH b Ha Hb H) as [-> ->]. done.
Qed.

(** X27.  For group identifiers without [#], the dashboard link of a broker
    tells the group and the cluster apart: two links are equal only for the
    same group and the same cluster. *)
Theorem GetDashboardURL_injective b g1 c1 g2 c2 :
  hash_free g1 = true -> hash_free g2 = true ->
  GetDashboardURL b g1 c1 = GetDashboardURL b g2 c2 <-> g1 = g2 /\ c1 = c2.
Proof.
  intros H1 H2. split; [|by intros [-> ->]].
  unfold GetDashboardURL.
  intros H%append_inv_head%(append_inv_head "/v2/").
  apply (split_at_hash _ _ _ _ H1 H2) in H as [-> H%(append_inv_head "clusters/detail/")].
  done.
Qed.

(** Two groups with one cluster name, and two clusters of one group whose
    names hold the separator. *)
Lemma GetDashboardURL_injective_witness :
  let b := broker (Sample.start None BasicAuth) in
  (GetDashboardURL b "5e8f1a" "cluster-1" = GetDashboardURL b "5e8f1b" "cluster-1" <->
   "5e8f1a" = "5e8f1b" /\ "cluster-1" = "cluster-1") /\
  (GetDashboardURL b "5e8f1a" "a#b" = GetDashboardURL b "5e8f1a" "a#c" <->
   "5e8f1a" = "5e8f1a" /\ "a#b" = "a#c").
Proof.
  split.
  - apply (GetDashboardURL_injective (broker (Sample.start None BasicAuth))
             "5e8f1a" "cluster-1" "5e8f1b" "cluster-1"); reflexivity.
  - apply (GetDashboardURL_injective (broker (Sample.start None BasicAuth))
             "5e8f1a" "a#b" "5e8f1a" "a#c"); reflexivity.
Defined.

(** ** The further statements on the sample deployment *)

Lemma buildCatalog_indexed_witness :
  exists c,
    bcatalog (broker (Sample.built [Sample.basic] None DynamicPlans)) = Some c /\
    indexed c.
Proof.
  apply (buildCatalog_indexed Sample.parse Sample.backend
           (Success [Sample.basic]) Sample.defaultCtx Sample.yaml
           (Sample.start None DynamicPlans)
           (Sample.built [Sample.basic] None DynamicPlans)).
  vm_compute. reflexivity.
Defined.

Lemma buildCatalog_backend_calls_witness :
  let wl := <["GCP" := ["M10"]]> {["TENANT" := ["M2"]]} in
  let s := Sample.start (Some wl) BasicAuth in
  let s' := Sample.built [] (Some wl) BasicAuth in
  exists calls,
    backendCalls s' = backendCalls s ++ calls /\
    calls.*2 = filter (fun name => name <> "TENANT")
                 (whitelistedNames (whitelist (broker s)) providerNames) /\
    Forall (fun call => Sample.parse (baseURL (broker s)) = Some call.1) calls.
Proof.
  apply (buildCatalog_backend_calls Sample.parse Sample.backend (Success [])
           Sample.defaultCtx Sample.yaml
           (Sample.start (Some (<["GCP" := ["M10"]]> {["TENANT" := ["M2"]]})) BasicAuth)
           (Sample.built [] (Some (<["GCP" := ["M10"]]> {["TENANT" := ["M2"]]})) BasicAuth)).
  vm_compute. reflexivity.
Defined.

Lemma buildCatalog_error_is_backend_error_witness :
  let s := Sample.start None BasicAuth in
  let s' := (buildCatalog Sample.parse Sample.failingBackend (Success [])
               Sample.defaultCtx Sample.yaml s).1 in
  exists u name,
    name ∈ whitelistedNames (whitelist (broker s)) providerNames /\
    name <> "TENANT" /\
    Sample.parse (baseURL (broker s)) = Some u /\
    Sample.failingBackend u name
    = Failure (ErrExternal "provider metadata unavailable") /\
    last (backendCalls s') = Some (u, name).
Proof.
  apply (buildCatalog_error_is_backend_error Sample.parse Sample.failingBackend
           (Success []) Sample.defaultCtx Sample.yaml
           (Sample.start None BasicAuth)
           (buildCatalog Sample.parse Sample.failingBackend (Success [])
              Sample.defaultCtx Sample.yaml (Sample.start None BasicAuth)).1
           (ErrExternal "provider metadata unavailable")).
  vm_compute. reflexivity.
Defined.

Lemma buildCatalog_MultiGroup_only_shared_witness :
  Forall (fun name => name = "TENANT")
    (whitelistedNames
       (whitelist (broker (Sample.start (Some {["TENANT" := ["M2"]]}) MultiGroup)))
       providerNames).
Proof.
  apply (buildCatalog_MultiGroup_only_shared Sample.parse Sample.backend
           (Success []) Sample.defaultCtx Sample.yaml
           (Sample.start (Some {["TENANT" := ["M2"]]}) MultiGroup)
           (Sample.built [] (Some {["TENANT" := ["M2"]]}) MultiGroup)).
  - reflexivity.
  - vm_compute. reflexivity.
Defined.

Lemma buildCatalog_MultiGroup_panics_witness :
  let s := Sample.start None MultiGroup in
  buildCatalog Sample.parse Sample.backend (Success []) Sample.defaultCtx
    Sample.yaml s
  = ({| broker := setCatalog (broker s) (Some newCatalog);
        log := log s;
        backendCalls := backendCalls s ++ [("https://cloud.mongodb.com/api", "AWS")] |},
     Panic "not implemented").
Proof.
  apply (buildCatalog_MultiGroup_panics Sample.parse Sample.backend (Success [])
           Sample.defaultCtx Sample.yaml (Sample.start None MultiGroup)
           "https://cloud.mongodb.com/api" (Sample.provider "AWS"));
    reflexivity.
Defined.

Lemma buildCatalog_shared_only_witness :
  let s := Sample.start (Some {["TENANT" := ["M5"]]}) DynamicPlans in
  let ps := filter (fun p => spName p ∈ ["M5"]) (svcPlans sharedService) in
  buildCatalog Sample.parse Sample.failingBackend
    (Failure (ErrExternal "no templates")) Sample.defaultCtx Sample.yaml s
  = ({| broker := setCatalog (broker s)
                    (Some {| services := [withPlans sharedService ps];
                             plans := indexPlans ∅ ps;
                             providers := ∅ |});
        log := log s;
        backendCalls := backendCalls s |},
     Ok tt).
Proof.
  apply (buildCatalog_shared_only Sample.parse Sample.failingBackend
           (Failure (ErrExternal "no templates")) Sample.defaultCtx Sample.yaml
           (Sample.start (Some {["TENANT" := ["M5"]]}) DynamicPlans)
           {["TENANT" := ["M5"]]} ["M5"]);
    vm_compute; reflexivity.
Defined.

Lemma Services_cached_witness :
  let services := Services Sample.parse Sample.backend (Success [])
                    Sample.defaultCtx Sample.yaml in
  let s1 := (services (Sample.start None BasicAuth)).1 in
  exists l, services s1 = (addLog s1 [retrievingEntry], Ok l) /\ length l = 4.
Proof.
  assert (exists l,
            Services Sample.parse Sample.backend (Success [])
              Sample.defaultCtx Sample.yaml (Sample.start None BasicAuth)
            = ((Services Sample.parse Sample.backend (Success [])
                  Sample.defaultCtx Sample.yaml (Sample.start None BasicAuth)).1,
               Ok l) /\ length l = 4) as (l & E & Hl).
  { vm_compute. eexists. split; reflexivity. }
  exists l. split; [|exact Hl].
  exact (Services_cached Sample.parse Sample.backend (Success [])
           Sample.defaultCtx Sample.yaml (Sample.start None BasicAuth) _ l E).
Defined.

Lemma New_returns_built_broker_witness :
  let r := New Sample.parse Sample.backend (Success []) Sample.defaultCtx
             Sample.yaml (Some Sample.creds) "https://cloud.mongodb.com/api"
             None BasicAuth (Sample.start None BasicAuth) in
  (forall e, r.2 <> Err e) /\
  forall b, r.2 = Ok b ->
    b = broker r.1 /\ whitelist b = None /\ credentials b = Some Sample.creds /\
    baseURL b = "https://cloud.mongodb.com/api" /\ mode b = BasicAuth /\
    is_Some (bcatalog b).
Proof.
  apply (New_returns_built_broker Sample.parse Sample.backend (Success [])
           Sample.defaultCtx Sample.yaml (Some Sample.creds)
           "https://cloud.mongodb.com/api" None BasicAuth
           (Sample.start None BasicAuth)).
  apply surjective_pairing.
Defined.

Lemma dynamic_catalog_plans_templated_witness :
  exists c,
    bcatalog (broker (Sample.built [Sample.basic] None DynamicPlans)) = Some c /\
    forall id sp, plans c !! id = Some sp ->
      sp ∈ svcPlans sharedService \/
      exists ts, Success [Sample.basic] = Success ts /\ templated ts sp.
Proof.
  apply (dynamic_catalog_plans_templated Sample.parse Sample.backend
           (Success [Sample.basic]) Sample.defaultCtx Sample.yaml
           (Sample.start None DynamicPlans)
           (Sample.built [Sample.basic] None DynamicPlans)).
  - reflexivity.
  - vm_compute. reflexivity.
Defined.

Lemma getGroupIDByInstanceID_returns_witness :
  let s := Sample.start None MultiGroup in
  s = s /\
  forall gid,
    Ok "p1" = Ok gid <->
    (gid = EmptyString /\ Sample.store "instance-1" = Failure ErrNoDocuments) \/
    (exists doc,
       Sample.store "instance-1" = Success {| Parameters := ParamsD doc |} /\
       lastElement "groupID" doc = Some ("groupID", VString gid)).
Proof.
  apply (getGroupIDByInstanceID_returns Sample.store "instance-1"
           (Sample.start None MultiGroup) (Sample.start None MultiGroup) (Ok "p1")).
  reflexivity.
Defined.

Lemma getClient_frame_witness :
  let s := Sample.built [Sample.basic] None DynamicPlans in
  let r := Sample.resolve s "instance-2" "aosb-cluster-plan-aws-basic" EmptyString in
  (exists l, r.1 = addLog s l) /\ (forall e, r.2 <> Err e) /\ r.2 <> Exit.
Proof.
  cbv zeta. unfold Sample.resolve.
  apply (getClient_frame Sample.defaultCtx Sample.yaml
           Sample.unmarshal Sample.store unit string string
           Sample.clientFromContext Sample.groupFromContext
           Sample.digest Sample.newAtlas Sample.findGroup tt
           "instance-2" "aosb-cluster-plan-aws-basic" EmptyString
           (Sample.built [Sample.basic] None DynamicPlans)).
  apply surjective_pairing.
Defined.

Lemma getClient_client_of_tenant_witness :
  let s := Sample.built [] (Some {["TENANT" := ["M2"; "M5"]]}) MultiGroup in
  let r := {| crClient := Some "pub1:priv1@https://cloud.mongodb.com/api";
              crGid := "p1"; crErr := None |} in
  (crErr r = None ->
   exists creds key hc client,
     credentials (broker s) = Some creds /\
     Projects creds !! crGid r = Some key /\
     Sample.digest (PublicKey key) (PrivateKey key) = Success hc /\
     Sample.newAtlas hc (baseURL (broker s)) = Success client /\
     crClient r = Some client) /\
  (crErr r <> None -> crClient r = None).
Proof.
  apply (getClient_client_of_tenant Sample.defaultCtx Sample.yaml
           Sample.unmarshal Sample.store unit string string
           Sample.clientFromContext Sample.groupFromContext
           Sample.digest Sample.newAtlas Sample.findGroup tt
           "instance-1" "aosb-cluster-plan-tenant-m2" EmptyString
           (Sample.built [] (Some {["TENANT" := ["M2"; "M5"]]}) MultiGroup)
           (Sample.built [] (Some {["TENANT" := ["M2"; "M5"]]}) MultiGroup)).
  - vm_compute. discriminate.
  - vm_compute. reflexivity.
Defined.

Lemma getClient_declared_tenant_witness :
  let s := Sample.built [] (Some {["TENANT" := ["M2"; "M5"]]}) MultiGroup in
  Sample.resolve s "instance-2" "aosb-cluster-plan-tenant-m2" "p2"
  = clientFor string string Sample.digest Sample.newAtlas "p2" s.
Proof.
  apply (getClient_declared_tenant Sample.defaultCtx Sample.yaml
           Sample.unmarshal Sample.store unit string string
           Sample.clientFromContext Sample.groupFromContext
           Sample.digest Sample.newAtlas Sample.findGroup tt
           (Sample.built [] (Some {["TENANT" := ["M2"; "M5"]]}) MultiGroup)
           (Sample.built [] (Some {["TENANT" := ["M2"; "M5"]]}) MultiGroup)
           "instance-2" "aosb-cluster-plan-tenant-m2" "p2" "p2").
  - reflexivity.
  - unfold declaresTenant.
    assert (mode (broker (Sample.built [] (Some {["TENANT" := ["M2"; "M5"]]})
                            MultiGroup)) = MultiGroup) as ->
      by (vm_compute; reflexivity).
    split; [reflexivity|].
    exists {| ctxProject := {| projID := "p2" |};
              ctxCluster := {| clProviderSettings := None |};
              ctxCredentials := Some Sample.creds |}.
    split; [vm_compute; reflexivity|reflexivity].
  - discriminate.
Defined.

Lemma getClient_unknown_plan_witness :
  let s := Sample.built [Sample.basic] None DynamicPlans in
  Sample.resolve s "instance-2" "aosb-cluster-plan-aws-premium" EmptyString
  = (s, Ok {| crClient := None; crGid := EmptyString;
              crErr := Some (ErrPlanNotFound "aosb-cluster-plan-aws-premium") |}).
Proof.
  apply (getClient_unknown_plan Sample.defaultCtx Sample.yaml
           Sample.unmarshal Sample.store unit string string
           Sample.clientFromContext Sample.groupFromContext
           Sample.digest Sample.newAtlas Sample.findGroup tt
           (Sample.built [Sample.basic] None DynamicPlans)
           (default newCatalog
              (bcatalog (broker (Sample.built [Sample.basic] None DynamicPlans))))
           "instance-2" "aosb-cluster-plan-aws-premium" EmptyString).
  - vm_compute. reflexivity.
  - reflexivity.
  - vm_compute. reflexivity.
  - vm_compute. reflexivity.
Defined.

Lemma getClient_BasicAuth_witness :
  let s := Sample.start None BasicAuth in
  exists r,
    Sample.resolve s "instance-1" "aosb-cluster-plan-aws-m10" EmptyString = (s, Ok r) /\
    (forall instanceID' planID' rawParams',
       Sample.resolve s instanceID' planID' rawParams' = (s, Ok r)) /\
    crGid r = match Sample.clientFromContext tt with
              | Success _ => (Sample.groupFromContext tt).1
              | Failure _ => EmptyString
              end.
Proof.
  apply (getClient_BasicAuth Sample.defaultCtx Sample.yaml
           Sample.unmarshal Sample.store unit string string
           Sample.clientFromContext Sample.groupFromContext
           Sample.digest Sample.newAtlas Sample.findGroup tt
           (Sample.start None BasicAuth)
           "instance-1" "aosb-cluster-plan-aws-m10" EmptyString).
  reflexivity.
Defined.

Lemma getClient_shared_plan_panics_witness :
  let s' := Sample.built [Sample.basic] None DynamicPlans in
  Sample.resolve s' "instance-2" "aosb-cluster-plan-tenant-m2" EmptyString
  = (s', Panic nilDeref).
Proof.
  apply (getClient_shared_plan_panics Sample.parse Sample.backend
           (Success [Sample.basic]) Sample.defaultCtx Sample.yaml
           Sample.unmarshal Sample.store unit string string
           Sample.clientFromContext Sample.groupFromContext
           Sample.digest Sample.newAtlas Sample.findGroup tt
           (Sample.start None DynamicPlans)
           (Sample.built [Sample.basic] None DynamicPlans)
           "instance-2"
           {| spID := "aosb-cluster-plan-tenant-m2"; spName := "M2";
              spDescription := "Instance size " +:+ quoted "M2";
              spFree := None; spMetadata := None |}
           EmptyString).
  - reflexivity.
  - vm_compute. reflexivity.
  - vm_compute. left.
  - intros wl [=].
  - reflexivity.
Defined.

Lemma static_plans_of_provider_witness :
  let plans := buildPlansForProviderStatic (Sample.provider "AWS") in
  length plans = size Sample.sizes /\
  (forall name, name ∈ spName <$> plans <->
     exists k sz, Sample.sizes !! k = Some sz /\ isName sz = name) /\
  (NoDup (spID <$> plans) <-> NoDup (ToLower <$> (spName <$> plans))).
Proof.
  apply (static_plans_of_provider (Sample.provider "AWS")).
  intros k sz [[_ ->]|[_ ->]]%sample_sizes_lookup; reflexivity.
Defined.

Lemma buildCatalog_whitelist_witness :
  let wl : gmap string (list string) := {["AWS" := ["M10"]]} in
  let s := Sample.start (Some wl) BasicAuth in
  let s' := Sample.built [] (Some wl) BasicAuth in
  exists c,
    bcatalog (broker s') = Some c /\
    Forall2
      (fun name svc =>
         exists names st st' svc0,
           wl !! name = Some names /\ stable s st /\
           providerService Sample.parse Sample.backend (Success [])
             Sample.defaultCtx Sample.yaml name st = (st', Ok svc0) /\
           svcID svc = svcID svc0 /\ svcName svc = svcName svc0 /\
           svcPlans svc = applyWhitelist (svcPlans svc0) names /\
           (forall p, p ∈ svcPlans svc <->
                      p ∈ svcPlans svc0 /\ spName p ∈ names))
      (filter (fun name => is_Some (wl !! name)) providerNames)
      (services c) /\
    (forall id p, plans c !! id = Some p ->
       exists name names, wl !! name = Some names /\ spName p ∈ names).
Proof.
  apply (buildCatalog_whitelist Sample.parse Sample.backend (Success [])
           Sample.defaultCtx Sample.yaml
           (Sample.start (Some {["AWS" := ["M10"]]}) BasicAuth)).
  vm_compute. reflexivity.
Defined.

